(** * The TP-Link integration: setup, polling coordinator and migration

    A shallow embedding of [homeassistant/components/tplink/__init__.py]
    and of the config-entry migration its tests exercise.  Python
    dictionaries are finite maps, coroutines are computations in a state
    and exception monad, and the vendor SDK and the host runtime, whose
    code lives elsewhere, are parameters of the development. *)

From stdpp Require Import gmap strings list fin_maps.
From Stdlib Require Import QArith.

Local Close Scope Q_scope.
Local Open Scope string_scope.
Local Open Scope list_scope.

(** ** Exceptions and the coroutine monad *)

(** The exception classes the module names, and one constructor for every
    other class. [SmartDeviceException] stands for the vendor class and its
    subclasses, which an [except SmartDeviceException] clause catches. *)
Inductive exn : Type :=
  | SmartDeviceException (msg : string)
  | UpdateFailed (cause : exn)
  | KeyError (key : string)
  | OtherException (cls : string).

Inductive outcome (A : Type) : Type :=
  | Return (a : A)
  | Raise (e : exn).
Arguments Return {A} a.
Arguments Raise {A} e.

(** A coroutine over a state [S]: it ends by returning or by raising, and
    leaves a state behind in both cases. *)
Definition M (S A : Type) : Type := S → outcome A * S.

#[global] Instance M_ret {S} : MRet (M S) := λ A a s, (Return a, s).

#[global] Instance M_bind {S} : MBind (M S) := λ A B f m s,
  match m s with
  | (Return a, s') => f a s'
  | (Raise e, s') => (Raise e, s')
  end.

Definition raise {S A} (e : exn) : M S A := λ s, (Raise e, s).
Definition gets {S A} (f : S → A) : M S A := λ s, (Return (f s), s).
Definition modify {S} (f : S → S) : M S unit := λ s, (Return tt, f s).

(** [try: body / except SmartDeviceException as ex: handler ex / else: orelse].
    Only the vendor class is caught; any other exception of [body] goes on
    to the caller, and so does one raised by the handler or the else branch. *)
Definition try_except_SmartDeviceException {S A B}
    (body : M S A) (handler : exn → M S B) (orelse : A → M S B) : M S B := λ s,
  match body s with
  | (Return a, s') => orelse a s'
  | (Raise (SmartDeviceException msg), s') => handler (SmartDeviceException msg) s'
  | (Raise e, s') => (Raise e, s')
  end.

(** [for x in xs: body x], carrying the loop's local variables in [acc]. *)
Fixpoint for_in {S A B} (xs : list A) (body : A → B → M S B) (acc : B) : M S B :=
  match xs with
  | [] => mret acc
  | x :: xs' => acc' ← body x acc; for_in xs' body acc'
  end.

(** [wp m Q E s]: run from [s], the coroutine [m] either returns a value
    and a state that satisfy [Q], or raises an exception with a state that
    satisfy [E]. *)
Definition wp {S A} (m : M S A) (Q : A → S → Prop) (E : exn → S → Prop) (s : S) : Prop :=
  match m s with
  | (Return a, s') => Q a s'
  | (Raise e, s') => E e s'
  end.

(** ** Names imported from modules outside this development *)

(** The constants of [const.py], of [homeassistant.const], of
    [homeassistant.config_entries] and of [homeassistant.components.switch]
    that [__init__.py] uses. Their
    values are not part of the module, so they are taken as parameters. *)
Class Const : Type := {
  SOURCE_IMPORT : string;
  ATTR_CONFIG : string;
  CONF_LIGHT : string;
  CONF_SWITCH : string;
  CONF_DISCOVERY : string;
  UNAVAILABLE_DEVICES : string;
  COORDINATORS : string;
  PLATFORMS : list string;
  CONF_EMETER_PARAMS : string;
  ATTR_CURRENT_POWER_W : string;
  ATTR_TOTAL_ENERGY_KWH : string;
  ATTR_VOLTAGE : string;
  ATTR_CURRENT_A : string;
  ATTR_TODAY_ENERGY_KWH : string
}.

Definition DOMAIN : string := "tplink".

(** ** The host's registries *)

(** Modelled from the spec: the host's device registry
    ([homeassistant.helpers.device_registry]) is not among the sources. Its
    records reference config-entry identifiers as foreign keys; a record
    carries the set of the entries it belongs to and its connections, pairs
    of a connection type and a value. *)
Module dr.

(** Modelled from the spec: the connection type of a MAC address, a tag
    whose spelling is the host's. *)
Definition CONNECTION_NETWORK_MAC : string := "mac".

(** Modelled from the spec: a device record, [DeviceEntry] of the host. *)
Record DeviceEntry : Type := {
  id : string;
  config_entries : gset string;
  connections : list (string * string)
}.

#[global] Instance DeviceEntry_eq_dec : EqDecision DeviceEntry.
Proof. solve_decision. Defined.

(** Modelled from the spec: the host's query for the device records that
    reference a config entry. *)
Definition async_entries_for_config_entry (registry : list DeviceEntry) (config_entry_id : string)
    : list DeviceEntry :=
  filter (λ dev, config_entry_id ∈ config_entries dev) registry.

End dr.

(** Modelled from the spec: the host's entity registry
    ([homeassistant.helpers.entity_registry]) is not among the sources. A
    record has its unique identifier, the config entry it is associated
    with and the device it hangs off. *)
Module er.

(** Modelled from the spec: an entity record, [RegistryEntry] of the host. *)
Record RegistryEntry : Type := {
  entity_id : string;
  unique_id : string;
  config_entry_id : option string;
  device_id : option string
}.

#[global] Instance RegistryEntry_eq_dec : EqDecision RegistryEntry.
Proof. solve_decision. Defined.

(** Modelled from the spec: the host's query for the entities associated
    with a config entry, by the entry's identifier. *)
Definition async_entries_for_config_entry (registry : list RegistryEntry) (config_entry_id : string)
    : list RegistryEntry :=
  filter (λ entity, er.config_entry_id entity = Some config_entry_id) registry.

End er.

(** ** The vendor SDK's devices *)

Section Tplink.

(** Readings are floats the module passes on without computing on them;
    [float_zero] is the literal [0.0]. A reading of [None] is Python's [None]. *)
Context {float : Type} (float_zero : float).
Context {names : Const}.

Record EmeterStatus : Type := {
  power : option float;
  total : option float;
  voltage : option float;
  current : option float
}.

(** The attributes of [kasa.SmartDevice] the module reads. *)
Record SmartDevice : Type := {
  host : string;
  alias : string;
  device_id : string;
  has_emeter : bool;
  is_bulb : bool;
  emeter_today : option float;
  emeter_realtime : EmeterStatus
}.

(** What [SmartDevice.update] can raise: its own exception class, or
    something else. The vendor library knows nothing of the host's
    [UpdateFailed]. *)
Inductive sdk_error : Type :=
  | SdkSmartDeviceException (msg : string)
  | SdkOtherException (cls : string).

Definition exn_of_sdk_error (e : sdk_error) : exn :=
  match e with
  | SdkSmartDeviceException msg => SmartDeviceException msg
  | SdkOtherException cls => OtherException cls
  end.

(** The network behind the SDK. [sdk_update dev update_children w] is one
    call of [dev.update(update_children=...)]: it ends with the device's
    refreshed attributes or with an error, and moves the network on. *)
Context {World : Type}.
Context (sdk_update : SmartDevice → bool → World → (SmartDevice + sdk_error) * World).

(** ** [TPLinkDataUpdateCoordinator] *)

Record TPLinkDataUpdateCoordinator : Type := {
  device : SmartDevice;
  update_children : bool;
  name : string;
  update_interval : nat  (* [timedelta(seconds=...)] *)
}.

(** [__init__(self, hass, device)] *)
Definition TPLinkDataUpdateCoordinator__init__ (dev : SmartDevice) : TPLinkDataUpdateCoordinator :=
  {| device := dev;
     update_children := true;
     name := alias dev;
     update_interval := 10 |}.

(** The state a coordinator method runs in: the object itself, the network,
    and the calls made to the SDK so far, newest last. *)
Record CoordinatorState : Type := {
  self : TPLinkDataUpdateCoordinator;
  net : World;
  sdk_calls : list (string * bool)  (* host of the device, [update_children] *)
}.

(** [await self.device.update(update_children=self.update_children)] *)
Definition device_update : M CoordinatorState unit := λ s,
  let c := self s in
  let calls := sdk_calls s ++ [(host (device c), update_children c)] in
  match sdk_update (device c) (update_children c) (net s) with
  | (inl dev', w') =>
      (Return tt,
       {| self := {| device := dev'; update_children := update_children c;
                     name := name c; update_interval := update_interval c |};
          net := w'; sdk_calls := calls |})
  | (inr e, w') =>
      (Raise (exn_of_sdk_error e), {| self := c; net := w'; sdk_calls := calls |})
  end.

Definition set_update_children (b : bool) : M CoordinatorState unit :=
  modify (λ s,
    {| self := {| device := device (self s); update_children := b;
                  name := name (self s); update_interval := update_interval (self s) |};
       net := net s; sdk_calls := sdk_calls s |}).

Definition set_name (n : string) : M CoordinatorState unit :=
  modify (λ s,
    {| self := {| device := device (self s); update_children := update_children (self s);
                  name := n; update_interval := update_interval (self s) |};
       net := net s; sdk_calls := sdk_calls s |}).

(** The value under [CONF_EMETER_PARAMS]: a dict display inserts its items
    from left to right, a later item overwriting an earlier one of the same
    key. *)
Definition emeter_params (emeter_readings : EmeterStatus) (consumption_today : option float)
    : gmap string (option float) :=
  <[ATTR_TODAY_ENERGY_KWH := consumption_today]>
  (<[ATTR_CURRENT_A := current emeter_readings]>
  (<[ATTR_VOLTAGE := voltage emeter_readings]>
  (<[ATTR_TOTAL_ENERGY_KWH := total emeter_readings]>
  (<[ATTR_CURRENT_POWER_W := power emeter_readings]> ∅)))).

(** The five attribute names of the emeter parameters. *)
Definition emeter_keys : list string :=
  [ATTR_CURRENT_POWER_W; ATTR_TOTAL_ENERGY_KWH; ATTR_VOLTAGE; ATTR_CURRENT_A; ATTR_TODAY_ENERGY_KWH].

(** Lines 199-204: today's consumption, or its stand-in when the device
    reports none. *)
Definition consumption_today (dev : SmartDevice) : option float :=
  match emeter_today dev with
  | Some emeter_today => Some emeter_today
  | None => if is_bulb dev then None else Some float_zero
  end.

(** [_async_update_data(self)] *)
Definition _async_update_data : M CoordinatorState (gmap string (gmap string (option float))) :=
  try_except_SmartDeviceException device_update
    (λ ex, raise (UpdateFailed ex))
    (λ _, set_update_children true);;
  dev ← gets (λ s, device (self s));
  set_name (alias dev);;
  dev ← gets (λ s, device (self s));
  if negb (has_emeter dev) then mret ∅
  else
    let emeter_readings := emeter_realtime dev in
    mret {[ CONF_EMETER_PARAMS := emeter_params emeter_readings (consumption_today dev) ]}.

(** The coordinator's state after an update that went through: the SDK
    called once, the device's new attributes, [update_children] set and the
    name taken from the alias. *)
Definition refreshed (s : CoordinatorState) (dev' : SmartDevice) (w' : World) : CoordinatorState :=
  {| self := {| device := dev'; update_children := true; name := alias dev';
                update_interval := update_interval (self s) |};
     net := w';
     sdk_calls := sdk_calls s ++ [(host (device (self s)), update_children (self s))] |}.

(** The host polls a coordinator by calling [_async_update_data] again and
    again, whether the call before returned or raised: the coordinator after
    [n] polls. *)
Fixpoint polls (n : nat) (s : CoordinatorState) : CoordinatorState :=
  match n with
  | 0 => s
  | S n => polls n (_async_update_data s).2
  end.

(** ** The host: config entries, registries, [hass.data] *)

(** A configuration as [async_setup_entry] gets it, from the YAML file
    after [CONFIG_SCHEMA] or from an entry's data: the four lists of hosts,
    which [common.py] reads, and the discovery switch, which line 113
    reads. [CONFIG_SCHEMA] fills [CONF_DISCOVERY] in; an entry's data is
    any dict, and [None] is a dict without that key. *)
Record Config : Type := {
  conf_light : list string;
  conf_switch : list string;
  conf_strip : list string;
  conf_dimmer : list string;
  conf_discovery : option bool
}.

(** The config entry [async_setup_entry] receives. Its [data] is the empty
    dict the import flow creates it with, here [None], or a dict that is
    not empty, such as the configuration [async_update_entry] stored in it
    on an earlier run. *)
Record ConfigEntry : Type := {
  entry_id : string;
  data : option Config
}.

(** [SmartDevices] of [common.py]: the lights and the switches found. *)
Record SmartDevices : Type := {
  lights : list SmartDevice;
  switches : list SmartDevice
}.

(** [SmartDevices()] *)
Definition SmartDevices__init__ : SmartDevices := {| lights := []; switches := [] |}.

(** What [hass.data[DOMAIN]] holds under its keys. *)
Inductive HassValue : Type :=
  | VConfig (conf : option Config)
  | VDevices (devices : list SmartDevice)
  | VCoordinators (coordinators : gmap string TPLinkDataUpdateCoordinator).

(** The calls into the host that the module makes, as the host sees them. *)
Inductive Event : Type :=
  | FlowInit (domain source : string)
  | UpdateEntry (entry : string) (conf : Config)
  | LogDebug (fmt : string) (count : nat) (hosts : string)
  | LogWarning (fmt : string) (host : string)
  | AsyncRefresh (device : string)
  | SetupPlatforms (entry : string) (platforms : list string)
  | UnloadPlatforms (entry : string) (platforms : list string).

(** [hass]. [hass_data] is [hass.data.get(DOMAIN)]; a list or dict stored in
    it is written back whenever the module changes it through another
    reference, which agrees with Python's sharing as long as the keys of
    [const.py] differ from one another. The devices in the lists are kept
    as they were found: what a later refresh does to a device shows in its
    coordinator. *)
Record HomeAssistant : Type := {
  hass_data : option (gmap string HassValue);
  entries : gmap string ConfigEntry;
  device_registry : list dr.DeviceEntry;
  world : World;
  calls : list Event
}.

Definition with_hass_data (d : option (gmap string HassValue)) (hass : HomeAssistant) : HomeAssistant :=
  {| hass_data := d; entries := entries hass; device_registry := device_registry hass;
     world := world hass; calls := calls hass |}.

Definition with_entries (es : gmap string ConfigEntry) (hass : HomeAssistant) : HomeAssistant :=
  {| hass_data := hass_data hass; entries := es; device_registry := device_registry hass;
     world := world hass; calls := calls hass |}.

Definition with_world (w : World) (hass : HomeAssistant) : HomeAssistant :=
  {| hass_data := hass_data hass; entries := entries hass; device_registry := device_registry hass;
     world := w; calls := calls hass |}.

Definition with_calls (evs : list Event) (hass : HomeAssistant) : HomeAssistant :=
  {| hass_data := hass_data hass; entries := entries hass; device_registry := device_registry hass;
     world := world hass; calls := evs |}.

(** One call into the host, appended to what it has seen. *)
Definition emit (ev : Event) : M HomeAssistant unit :=
  modify (λ hass, with_calls (calls hass ++ [ev]) hass).

(** [hass.data[DOMAIN]]: a [KeyError] before [async_setup] has run. *)
Definition domain_data : M HomeAssistant (gmap string HassValue) := λ hass,
  match hass_data hass with
  | Some d => (Return d, hass)
  | None => (Raise (KeyError DOMAIN), hass)
  end.

(** [hass.data[DOMAIN][key] = value] *)
Definition domain_data_set (key : string) (value : HassValue) : M HomeAssistant unit :=
  d ← domain_data;
  modify (with_hass_data (Some (<[key := value]> d))).

(** The coroutines of [common.py] and of the host that the module awaits.
    Each runs against the network; [async_refresh] also leaves the
    coordinator it was called on as the host's refresh made it. *)
Context (get_static_devices : Config → World → outcome SmartDevices * World).
Context (async_discover_devices : SmartDevices → nat → World → outcome SmartDevices * World).
Context (async_refresh :
  TPLinkDataUpdateCoordinator → World → (outcome unit * TPLinkDataUpdateCoordinator) * World).
Context (async_unload_platforms : ConfigEntry → list string → World → outcome bool * World).

(** Running a coroutine of the network inside [hass]. *)
Definition await {A} (co : World → outcome A * World) : M HomeAssistant A := λ hass,
  let '(r, w') := co (world hass) in (r, with_world w' hass).

(** ** [async_setup] *)

Definition async_setup (config : gmap string Config) : M HomeAssistant bool :=
  let conf := config !! DOMAIN in
  modify (with_hass_data (Some ∅));;
  domain_data_set ATTR_CONFIG (VConfig conf);;
  (if conf is Some _ then emit (FlowInit DOMAIN SOURCE_IMPORT) else mret tt);;
  mret true.

(** ** [async_setup_entry] *)

(** [hass.config_entries.async_update_entry(entry, data=config_data)] *)
Definition async_update_entry (entry : ConfigEntry) (config_data : Config) : M HomeAssistant unit :=
  emit (UpdateEntry (entry_id entry) config_data);;
  modify (λ hass,
    with_entries (<[entry_id entry := {| entry_id := entry_id entry; data := Some config_data |}]>
                    (entries hass)) hass).

(** [devices.extend(found)] on the list stored under [key]. *)
Definition extend (key : string) (devices found : list SmartDevice) : M HomeAssistant (list SmartDevice) :=
  let devices := devices ++ found in
  domain_data_set key (VDevices devices);;
  mret devices.

(** Lines 86-131: the configuration in force, then the static and the
    discovered devices, as [(lights, switches)]. *)
Definition setup_devices (entry : ConfigEntry) : M HomeAssistant (list SmartDevice * list SmartDevice) :=
  hass_data ← domain_data;
  let config_data := match hass_data !! ATTR_CONFIG with Some (VConfig conf) => conf | _ => None end in
  config_data ←
    match config_data, data entry with
    | None, Some entry_data => mret (Some entry_data)
    | Some config_data, _ => async_update_entry entry config_data;; mret (Some config_data)
    | None, None => mret None
    end;
  tplink_devices ← gets (λ hass, dr.async_entries_for_config_entry (device_registry hass) (entry_id entry));
  let device_count := length tplink_devices in
  domain_data_set CONF_LIGHT (VDevices []);;
  domain_data_set CONF_SWITCH (VDevices []);;
  domain_data_set UNAVAILABLE_DEVICES (VDevices []);;
  let lights := [] in
  let switches := [] in
  (* Add static devices *)
  '(static_devices, lights, switches) ←
    match config_data with
    | Some config_data =>
        static_devices ← await (get_static_devices config_data);
        lights ← extend CONF_LIGHT lights (Tplink.lights static_devices);
        switches ← extend CONF_SWITCH switches (Tplink.switches static_devices);
        mret (static_devices, lights, switches)
    | None => mret (SmartDevices__init__, lights, switches)
    end;
  (* Add discovered devices *)
  discovery ←
    match config_data with
    | None => mret true
    | Some config_data =>
        match conf_discovery config_data with
        | Some discovery => mret discovery
        | None => raise (KeyError CONF_DISCOVERY)
        end
    end;
  '(lights, switches) ←
    (if discovery : bool
     then
       discovered_devices ← await (async_discover_devices static_devices device_count);
       lights ← extend CONF_LIGHT lights (Tplink.lights discovered_devices);
       switches ← extend CONF_SWITCH switches (Tplink.switches discovered_devices);
       mret (lights, switches)
     else mret (lights, switches));
  (if lights is [] then mret tt
   else emit (LogDebug "Got %s lights: %s" (length lights) (String.concat ", " (host <$> lights))));;
  (if switches is [] then mret tt
   else emit (LogDebug "Got %s switches: %s" (length switches) (String.concat ", " (host <$> switches))));;
  mret (lights, switches).

Definition WARN_NOT_REACHABLE : string :=
  "Device at '%s' not reachable during setup, retry not yet implemented".

(** [await coordinator.async_refresh()]: the host's answer and the
    coordinator as the refresh left it. *)
Definition await_refresh (coordinator : TPLinkDataUpdateCoordinator)
    : M HomeAssistant (outcome unit * TPLinkDataUpdateCoordinator) := λ hass,
  let '(r, w') := async_refresh coordinator (world hass) in
  (Return r, with_world w' (with_calls (calls hass ++ [AsyncRefresh (device_id (device coordinator))]) hass)).

(** Lines 137-148: the body of the loop over the devices. The coordinator
    is in the dict before it is refreshed, and what the refresh does to it
    shows in the dict, which holds the same object. *)
Definition prepare_coordinator (dev : SmartDevice)
    (coordinators : gmap string TPLinkDataUpdateCoordinator)
    : M HomeAssistant (gmap string TPLinkDataUpdateCoordinator) :=
  let coordinator := TPLinkDataUpdateCoordinator__init__ dev in
  let coordinators := <[device_id dev := coordinator]> coordinators in
  domain_data_set COORDINATORS (VCoordinators coordinators);;
  '(r, coordinator) ← await_refresh coordinator;
  let coordinators := <[device_id dev := coordinator]> coordinators in
  domain_data_set COORDINATORS (VCoordinators coordinators);;
  try_except_SmartDeviceException (λ hass, (r, hass))
    (λ _,
      emit (LogWarning WARN_NOT_REACHABLE (host (device coordinator)));;
      mret coordinators)
    (λ _, mret coordinators).

(** Lines 133-148: prepare DataUpdateCoordinators. *)
Definition prepare_coordinators (devices : list SmartDevice)
    : M HomeAssistant (gmap string TPLinkDataUpdateCoordinator) :=
  let coordinators := ∅ in
  domain_data_set COORDINATORS (VCoordinators coordinators);;
  for_in devices prepare_coordinator coordinators.

Definition async_setup_entry (entry : ConfigEntry) : M HomeAssistant bool :=
  '(lights, switches) ← setup_devices entry;
  prepare_coordinators (switches ++ lights);;
  emit (SetupPlatforms (entry_id entry) PLATFORMS);;
  mret true.

(** The calls the loop over the devices makes. *)
Definition loop_event (ev : Event) : Prop :=
  match ev with AsyncRefresh _ | LogWarning _ _ => True | _ => False end.

(** What the host was asked to refresh, oldest first. *)
Definition refreshed_devices (evs : list Event) : list string :=
  omap (λ ev, match ev with AsyncRefresh dev => Some dev | _ => None end) evs.

(** [coordinator] is the coordinator made for [dev] as the host's first
    refresh left it, whether the refresh went through or not. *)
Definition coordinator_of (dev : SmartDevice) (coordinator : TPLinkDataUpdateCoordinator) : Prop :=
  ∃ w r w', async_refresh (TPLinkDataUpdateCoordinator__init__ dev) w = ((r, coordinator), w').

(** The loop of lines 136-148 written a second time, as a reference to
    hold the embedding against. The devices are refreshed one after the
    other, each on the network as the refresh before it left it, and the
    coordinator under a device's id is the one that refresh left. A
    [SmartDeviceException] is answered with a warning that names the
    device's host, and the loop goes on; any other exception ends the loop
    there. The result is the exception that ended the loop, if one did,
    with the dict, the calls made and the network. *)
Fixpoint refresh_in_order (devices : list SmartDevice)
    (coordinators : gmap string TPLinkDataUpdateCoordinator) (w : World)
    : option exn * (gmap string TPLinkDataUpdateCoordinator * list Event * World) :=
  match devices with
  | [] => (None, (coordinators, [], w))
  | dev :: devices =>
      match async_refresh (TPLinkDataUpdateCoordinator__init__ dev) w with
      | ((Return _, coordinator), w') =>
          match refresh_in_order devices (<[device_id dev := coordinator]> coordinators) w' with
          | (e, (cs, evs, w'')) => (e, (cs, AsyncRefresh (device_id dev) :: evs, w''))
          end
      | ((Raise (SmartDeviceException _), coordinator), w') =>
          match refresh_in_order devices (<[device_id dev := coordinator]> coordinators) w' with
          | (e, (cs, evs, w'')) =>
              (e, (cs,
                   AsyncRefresh (device_id dev)
                     :: LogWarning WARN_NOT_REACHABLE (host (device coordinator)) :: evs,
                   w''))
          end
      | ((Raise e, coordinator), w') =>
          (Some e, (<[device_id dev := coordinator]> coordinators,
                    [AsyncRefresh (device_id dev)], w'))
      end
  end.

(** Line 86: [hass.data[DOMAIN].get(ATTR_CONFIG)], the YAML configuration
    [async_setup] stored, if any. *)
Definition yaml_config (d : gmap string HassValue) : option Config :=
  match d !! ATTR_CONFIG with Some (VConfig conf) => conf | _ => None end.

(** Lines 86-90: [config_data] as the rest of [async_setup_entry] sees it,
    the YAML configuration if there is one and else the entry's data, if
    not empty. *)
Definition config_in_force (d : gmap string HassValue) (entry : ConfigEntry) : option Config :=
  match yaml_config d with
  | Some config_data => Some config_data
  | None => data entry
  end.

(** Line 113: [config_data is None or config_data[CONF_DISCOVERY]], and
    [None] when the configuration has no such key and the subscript raises
    [KeyError]. *)
Definition discovery_enabled (config_data : option Config) : option bool :=
  match config_data with
  | None => Some true
  | Some config_data => conf_discovery config_data
  end.

(** Lines 121-131: the debug message about a list of devices found, none
    for an empty list. *)
Definition debug_found (fmt : string) (devices : list SmartDevice) : list Event :=
  match devices with
  | [] => []
  | _ => [LogDebug fmt (length devices) (String.concat ", " (host <$> devices))]
  end.

(** Lines 98-119: [hass.data[DOMAIN]] once the devices are found, written
    key by key as the module does it. *)
Definition found_data (d : gmap string HassValue) (config_data : option Config)
    (static discovered : SmartDevices) : gmap string HassValue :=
  let d := <[UNAVAILABLE_DEVICES := VDevices []]>
             (<[CONF_SWITCH := VDevices []]> (<[CONF_LIGHT := VDevices []]> d)) in
  let d := match config_data with
           | Some _ => <[CONF_SWITCH := VDevices (switches static)]>
                         (<[CONF_LIGHT := VDevices (lights static)]> d)
           | None => d
           end in
  match discovery_enabled config_data with
  | Some true =>
      <[CONF_SWITCH := VDevices (switches static ++ switches discovered)]>
        (<[CONF_LIGHT := VDevices (lights static ++ lights discovered)]> d)
  | _ => d
  end.

(** The fields of [hass], all five at once. *)
Definition fields_are (hass : HomeAssistant) (d : gmap string HassValue)
    (es : gmap string ConfigEntry) (reg : list dr.DeviceEntry) (w : World) (evs : list Event)
    : Prop :=
  hass_data hass = Some d ∧ entries hass = es ∧ device_registry hass = reg
  ∧ world hass = w ∧ calls hass = evs.


(** ** [async_unload_entry] *)

Definition async_unload_entry (entry : ConfigEntry) : M HomeAssistant bool :=
  emit (UnloadPlatforms (entry_id entry) PLATFORMS);;
  unload_ok ← await (async_unload_platforms entry PLATFORMS);
  hass_data ← domain_data;
  (if unload_ok : bool then modify (with_hass_data (Some ∅)) else mret tt);;
  mret unload_ok.

End Tplink.

(** ** The config-entry migration *)

(** Modelled from the spec: [homeassistant/components/tplink/migration.py],
    which [test_migration.py] imports [CLEANUP_DELAY] from, is not among the
    sources, and neither is the config flow that creates a device's entry on
    first-time setup. The spec describes the migration as one that merges
    the legacy single config entry into per-device entries, reassigns
    device and entity ownership and schedules a deferred cleanup; the
    definitions below follow those words, and the three end-to-end tests
    fix what they leave open. *)
Module migration.

(** Modelled from the spec: a config entry of this integration, with its
    unique identifier and the host field of its data, [data.get(CONF_HOST)]. *)
Record ConfigEntry : Type := {
  entry_id : string;
  unique_id : option string;
  conf_host : option string
}.

#[global] Instance ConfigEntry_eq_dec : EqDecision ConfigEntry.
Proof. solve_decision. Defined.

(** Modelled from the spec: a physical device as discovery reports it. *)
Record Device : Type := {
  mac : string;
  ip_address : string
}.

(** Modelled from the spec: what the host's timer runs when a deadline
    passes. *)
Inductive Callback : Type :=
  | CleanupLegacyEntry (legacy_entry_id : string).

(** Modelled from the spec: the host state the migration works on, that
    is the integration's config entries in the order they were added, both
    registries, the clock in seconds and the pending timers with their
    deadlines. *)
Record HomeAssistant : Type := {
  config_entries : list ConfigEntry;
  device_registry : list dr.DeviceEntry;
  entity_registry : list er.RegistryEntry;
  now : nat;
  timers : list (nat * Callback)
}.

(** Modelled from the spec: the legacy entry has the integration domain as
    unique identifier and no host field. *)
Definition entry_is_legacy (entry : ConfigEntry) : bool :=
  bool_decide (unique_id entry = Some DOMAIN) && bool_decide (conf_host entry = None).

(** Modelled from the spec: the legacy entry of the store, if it has one. *)
Definition legacy_entry (hass : HomeAssistant) : option ConfigEntry :=
  find entry_is_legacy (config_entries hass).

(** Modelled from the spec: the per-device entry of a MAC address, if the
    device has one already. *)
Definition entry_for_mac (entries : list ConfigEntry) (mac : string) : option ConfigEntry :=
  find (λ entry, bool_decide (unique_id entry = Some mac) && negb (entry_is_legacy entry)) entries.

(** Modelled from the spec: the target entry of a device has its MAC
    address as unique identifier and its IP address as host field. The host
    draws a new identifier for it. *)
Definition device_entry (entries : list ConfigEntry) (dev : Device) : ConfigEntry :=
  {| entry_id := fresh (entry_id <$> entries);
     unique_id := Some (mac dev);
     conf_host := Some (ip_address dev) |}.

(** Modelled from the spec: a device gets its entry unless it has one, as
    it does after a downgrade. *)
Definition ensure_entry (entries : list ConfigEntry) (dev : Device) : list ConfigEntry :=
  match entry_for_mac entries (mac dev) with
  | Some _ => entries
  | None => entries ++ [device_entry entries dev]
  end.

(** Modelled from the spec: first-time setup of a discovered device, which
    the config flow does. *)
Definition setup_device (dev : Device) (hass : HomeAssistant) : HomeAssistant :=
  {| config_entries := ensure_entry (config_entries hass) dev;
     device_registry := device_registry hass;
     entity_registry := entity_registry hass;
     now := now hass;
     timers := timers hass |}.

(** Modelled from the spec: the length of a MAC address as the registries
    write it, six pairs of hexadecimal digits and five colons. *)
Definition MAC_ADDRESS_LEN : nat := 17.

(** Modelled from the spec: the device-scoped pattern of an entity's unique
    identifier is a MAC address, alone or followed by a suffix; a shorter
    identifier does not parse. *)
Definition mac_of_unique_id (unique_id : string) : option string :=
  if decide (MAC_ADDRESS_LEN ≤ String.length unique_id)%nat
  then Some (String.substring 0 MAC_ADDRESS_LEN unique_id)
  else None.

(** Modelled from the spec: the physical device a device record belongs
    to, among the discovered ones, is the one whose MAC address the record
    has as a connection. *)
Definition device_of_device_entry (devices : list Device) (record : dr.DeviceEntry) : option Device :=
  find (λ dev, bool_decide ((dr.CONNECTION_NETWORK_MAC, mac dev) ∈ dr.connections record)) devices.

(** Modelled from the spec: the physical device an entity belongs to is
    the discovered one whose MAC address its unique identifier parses to;
    an identifier that does not parse, or parses to another address, is not
    recognised. *)
Definition device_of_entity (devices : list Device) (entity : er.RegistryEntry) : option Device :=
  match mac_of_unique_id (er.unique_id entity) with
  | Some m => find (λ dev, bool_decide (mac dev = m)) devices
  | None => None
  end.

(** Modelled from the spec: a device record of the legacy entry that
    belongs to a discovered device references that device's entry instead
    of the legacy one. *)
Definition migrate_device_entry (legacy_entry_id : string) (entries : list ConfigEntry)
    (devices : list Device) (record : dr.DeviceEntry) : dr.DeviceEntry :=
  match device_of_device_entry devices record with
  | Some dev =>
      match entry_for_mac entries (mac dev) with
      | Some new_entry =>
          if decide (legacy_entry_id ∈ dr.config_entries record)
          then {| dr.id := dr.id record;
                  dr.config_entries :=
                    {[entry_id new_entry]} ∪ (dr.config_entries record ∖ {[legacy_entry_id]});
                  dr.connections := dr.connections record |}
          else record
      | None => record
      end
  | None => record
  end.

(** Modelled from the spec: an entity of the legacy entry that belongs to
    a discovered device is associated with that device's entry; any other
    entity is left untouched. *)
Definition migrate_entity (legacy_entry_id : string) (entries : list ConfigEntry)
    (devices : list Device) (entity : er.RegistryEntry) : er.RegistryEntry :=
  match device_of_entity devices entity with
  | Some dev =>
      match entry_for_mac entries (mac dev) with
      | Some new_entry =>
          if decide (er.config_entry_id entity = Some legacy_entry_id)
          then {| er.entity_id := er.entity_id entity;
                  er.unique_id := er.unique_id entity;
                  er.config_entry_id := Some (entry_id new_entry);
                  er.device_id := er.device_id entity |}
          else entity
      | None => entity
      end
  | None => entity
  end.

Section Cleanup.

(** The delay of the deferred cleanup, in seconds; [migration.py] fixes
    it, so it is a parameter here. *)
Context (CLEANUP_DELAY : nat).

(** Modelled from the spec: the migration makes an entry per discovered
    device, reassigns the records of the legacy entry and schedules the
    cleanup. Without a legacy entry there is nothing to migrate. *)
Definition async_migrate (devices : list Device) (hass : HomeAssistant) : HomeAssistant :=
  match legacy_entry hass with
  | Some legacy =>
      let entries := foldl ensure_entry (config_entries hass) devices in
      {| config_entries := entries;
         device_registry :=
           migrate_device_entry (entry_id legacy) entries devices <$> device_registry hass;
         entity_registry :=
           migrate_entity (entry_id legacy) entries devices <$> entity_registry hass;
         now := now hass;
         timers := timers hass ++ [(now hass + CLEANUP_DELAY, CleanupLegacyEntry (entry_id legacy))] |}
  | None => hass
  end.

(** Modelled from the spec: the deferred cleanup removes the legacy entry.
    It does so only if no entity is associated with the entry any more:
    the third end-to-end test, whose registry keeps entities of other
    devices, finds the entry in place after the delay, and the first two
    find it gone. *)
Definition async_cleanup_legacy_entry (legacy_entry_id : string) (hass : HomeAssistant) : HomeAssistant :=
  match er.async_entries_for_config_entry (entity_registry hass) legacy_entry_id with
  | [] =>
      {| config_entries := filter (λ entry, entry_id entry ≠ legacy_entry_id) (config_entries hass);
         device_registry := device_registry hass;
         entity_registry := entity_registry hass;
         now := now hass;
         timers := timers hass |}
  | _ :: _ => hass
  end.

(** Modelled from the spec: the host running a timer's callback. *)
Definition run_callback (hass : HomeAssistant) (callback : Callback) : HomeAssistant :=
  match callback with
  | CleanupLegacyEntry legacy_entry_id => async_cleanup_legacy_entry legacy_entry_id hass
  end.

(** Modelled from the spec: [async_fire_time_changed(hass, t)] of the test
    helpers moves the clock to [t] and runs the timers whose deadline has
    come, in the order they were set. *)
Definition async_fire_time_changed (t : nat) (hass : HomeAssistant) : HomeAssistant :=
  let due := filter (λ timer, (timer.1 ≤ t)%nat) (timers hass) in
  foldl run_callback
    {| config_entries := config_entries hass;
       device_registry := device_registry hass;
       entity_registry := entity_registry hass;
       now := t;
       timers := filter (λ timer, ¬ (timer.1 ≤ t)%nat) (timers hass) |}
    (snd <$> due).

End Cleanup.

End migration.

(** ** The end-to-end migration tests as data *)

(** The host states the three tests of [test_migration.py] build before
    they set the integration up. The fixtures' values come from the test
    package's [__init__.py], which is not among the sources; any MAC-shaped
    string serves.

    After setup the tests look at the config-entry store, which they query
    anew, and that is what the model is held against below. Their other
    assertions compare the record objects obtained before setup with the
    legacy entry's identifier, and pass the entry itself, not its
    identifier, to [er.async_entries_for_config_entry]; they read the
    records as the registries handed them out, not the registries after
    the migration. *)
Module test_migration.

Import migration.

Definition ALIAS : string := "My Bulb".
Definition IP_ADDRESS : string := "127.0.0.1".
Definition MAC_ADDRESS : string := "aa:bb:cc:dd:ee:ff".

(** The delay the tests wait for; its value is [migration.py]'s, and a
    minute stands in for it. *)
Definition CLEANUP_DELAY : nat := 60.

(** What the patched discovery finds. *)
Definition discovered : list Device :=
  [{| mac := MAC_ADDRESS; ip_address := IP_ADDRESS |}].

Definition config_entry : ConfigEntry :=
  {| entry_id := "mock-entry-1"; unique_id := Some DOMAIN; conf_host := None |}.

Definition already_migrated_config_entry : ConfigEntry :=
  {| entry_id := "mock-entry-2"; unique_id := Some MAC_ADDRESS; conf_host := Some IP_ADDRESS |}.

Definition device : dr.DeviceEntry :=
  {| dr.id := "device-1";
     dr.config_entries := {[entry_id config_entry]};
     dr.connections := [(dr.CONNECTION_NETWORK_MAC, MAC_ADDRESS)] |}.

Definition light_entity_reg : er.RegistryEntry :=
  {| er.entity_id := "light.my_bulb";
     er.unique_id := MAC_ADDRESS;
     er.config_entry_id := Some (entry_id config_entry);
     er.device_id := Some (dr.id device) |}.

Definition power_sensor_entity_reg : er.RegistryEntry :=
  {| er.entity_id := "sensor.my_bulb";
     er.unique_id := MAC_ADDRESS +:+ "_sensor";
     er.config_entry_id := Some (entry_id config_entry);
     er.device_id := Some (dr.id device) |}.

Definition ignored_entity_reg : er.RegistryEntry :=
  {| er.entity_id := "sensor.my_bulb_2";
     er.unique_id := "00:00:00:00:00:00_sensor";
     er.config_entry_id := Some (entry_id config_entry);
     er.device_id := Some (dr.id device) |}.

Definition garbage_entity_reg : er.RegistryEntry :=
  {| er.entity_id := "sensor.my_bulb_3";
     er.unique_id := "garbage";
     er.config_entry_id := Some (entry_id config_entry);
     er.device_id := Some (dr.id device) |}.

(** [test_migration_device_online_end_to_end] *)
Definition hass_end_to_end : HomeAssistant :=
  {| config_entries := [config_entry];
     device_registry := [device];
     entity_registry := [light_entity_reg; power_sensor_entity_reg];
     now := 0;
     timers := [] |}.

(** [test_migration_device_online_end_to_end_after_downgrade] *)
Definition hass_after_downgrade : HomeAssistant :=
  {| config_entries := [config_entry; already_migrated_config_entry];
     device_registry := [device];
     entity_registry := [light_entity_reg; power_sensor_entity_reg];
     now := 0;
     timers := [] |}.



(** [test_migration_device_online_end_to_end_ignores_other_devices] *)
Definition hass_ignores_other_devices : HomeAssistant :=
  {| config_entries := [config_entry];
     device_registry := [device];
     entity_registry :=
       [light_entity_reg; power_sensor_entity_reg; ignored_entity_reg; garbage_entity_reg];
     now := 0;
     timers := [] |}.

End test_migration.

(** ** The constants of the Fully Kiosk Browser integration *)

(** [homeassistant/components/fully_kiosk/const.py]. The flags of
    [MediaPlayerEntityFeature] are the host's, and parameters here. *)
Module fully_kiosk.

Definition DOMAIN : string := "fully_kiosk".

Definition UPDATE_INTERVAL : nat := 30.  (* [timedelta(seconds=30)] *)

Definition DEFAULT_PORT : Z := 2323.

Definition AUDIOMANAGER_STREAM_MUSIC : Z := 3.

Section Features.

Context (PLAY_MEDIA STOP VOLUME_SET BROWSE_MEDIA : Z).

Definition MEDIA_SUPPORT_FULLYKIOSK : Z :=
  Z.lor (Z.lor (Z.lor PLAY_MEDIA STOP) VOLUME_SET) BROWSE_MEDIA.

End Features.

End fully_kiosk.

(** ** A household to run the setup on *)

(** Concrete values for the parameters of the setup: the names as the
    integration spells them, rational readings, and a network given by the
    hosts that do not answer. *)
Module example.

Definition const : Const :=
  {| SOURCE_IMPORT := "import";
     ATTR_CONFIG := "config";
     CONF_LIGHT := "light";
     CONF_SWITCH := "switch";
     CONF_DISCOVERY := "discovery";
     UNAVAILABLE_DEVICES := "unavailable_devices";
     COORDINATORS := "coordinators";
     PLATFORMS := ["light"; "sensor"; "switch"];
     CONF_EMETER_PARAMS := "emeter_params";
     ATTR_CURRENT_POWER_W := "current_power_w";
     ATTR_TOTAL_ENERGY_KWH := "total_energy_kwh";
     ATTR_VOLTAGE := "voltage";
     ATTR_CURRENT_A := "current_a";
     ATTR_TODAY_ENERGY_KWH := "today_energy_kwh" |}.

Definition World : Type := list string.

Definition readings : EmeterStatus (float := Q) :=
  {| power := Some (5 # 2)%Q; total := Some (12 # 1)%Q;
     voltage := Some (230 # 1)%Q; current := Some (1 # 100)%Q |}.

(** A plug with an energy meter that has been off all day. *)
Definition plug (host : string) : SmartDevice (float := Q) :=
  {| host := host; alias := "Plug " +:+ host; device_id := "plug-" +:+ host;
     has_emeter := true; is_bulb := false;
     emeter_today := None; emeter_realtime := readings |}.

(** A bulb; bulbs do not report today's consumption. *)
Definition bulb (host : string) : SmartDevice (float := Q) :=
  {| host := host; alias := "Bulb " +:+ host; device_id := "bulb-" +:+ host;
     has_emeter := true; is_bulb := true;
     emeter_today := None; emeter_realtime := readings |}.

Definition sdk_update (dev : SmartDevice (float := Q)) (update_children : bool) (w : World)
    : (SmartDevice (float := Q) + sdk_error) * World :=
  if bool_decide (host dev ∈ w) then (inr (SdkSmartDeviceException "timed out"), w)
  else (inl dev, w).

Definition get_static_devices (conf : Config) (w : World)
    : outcome (SmartDevices (float := Q)) * World :=
  (Return {| lights := bulb <$> conf_light conf; switches := plug <$> conf_switch conf |}, w).

Definition async_discover_devices (static : SmartDevices (float := Q)) (device_count : nat)
    (w : World) : outcome (SmartDevices (float := Q)) * World :=
  (Return SmartDevices__init__, w).

Definition async_refresh (coordinator : TPLinkDataUpdateCoordinator (float := Q)) (w : World)
    : (outcome unit * TPLinkDataUpdateCoordinator (float := Q)) * World :=
  if bool_decide (host (device coordinator) ∈ w)
  then ((Raise (SmartDeviceException "timed out"), coordinator), w)
  else ((Return tt, coordinator), w).

Definition async_unload_platforms (entry : ConfigEntry) (platforms : list string) (w : World)
    : outcome bool * World :=
  (Return (bool_decide (w = [])), w).

Definition conf : Config :=
  {| conf_light := ["192.168.1.2"];
     conf_switch := ["192.168.1.3"; "192.168.1.4"];
     conf_strip := [];
     conf_dimmer := [];
     conf_discovery := Some true |}.

Definition entry : ConfigEntry := {| entry_id := "entry-1"; data := None |}.

(** After [async_setup], with the plug at 192.168.1.3 not answering. *)
Definition hass : HomeAssistant (float := Q) (World := World) :=
  {| hass_data := Some {[ "config" := VConfig (Some conf) ]};
     entries := {[ "entry-1" := entry ]};
     device_registry := [];
     world := ["192.168.1.3"];
     calls := [] |}.

(** Today's energy as a caller reads it off what a poll returned. *)
Definition today_energy (r : outcome (gmap string (gmap string (option Q))))
    : option (option Q) :=
  match r with
  | Return d => d !! "emeter_params" ≫= (.!! "today_energy_kwh")
  | Raise _ => None
  end.

(** The coordinators as the platforms read them off [hass.data[DOMAIN]]. *)
Definition coordinators (hass : HomeAssistant (float := Q) (World := World))
    : gmap string (TPLinkDataUpdateCoordinator (float := Q)) :=
  match hass_data hass with
  | Some d => match d !! "coordinators" with Some (VCoordinators cs) => cs | _ => ∅ end
  | None => ∅
  end.

(** A coordinator about to poll its device. *)
Definition polling (dev : SmartDevice (float := Q)) (w : World)
    : CoordinatorState (float := Q) (World := World) :=
  {| self := TPLinkDataUpdateCoordinator__init__ dev; net := w; sdk_calls := [] |}.

(** The household before [async_setup] has run. *)
Definition hass_before_setup : HomeAssistant (float := Q) (World := World) :=
  {| hass_data := None;
     entries := {[ "entry-1" := entry ]};
     device_registry := [];
     world := [];
     calls := [] |}.

(** After [async_setup], with every device answering. *)
Definition hass_all_answer : HomeAssistant (float := Q) (World := World) :=
  {| hass_data := Some {[ "config" := VConfig (Some conf) ]};
     entries := {[ "entry-1" := entry ]};
     device_registry := [];
     world := [];
     calls := [] |}.

(** A configuration that lists its devices and turns discovery off. *)
Definition conf_static : Config :=
  {| conf_light := ["192.168.1.2"];
     conf_switch := ["192.168.1.3"];
     conf_strip := [];
     conf_dimmer := [];
     conf_discovery := Some false |}.

(** An entry that holds the configuration of an earlier run. *)
Definition entry_static : ConfigEntry := {| entry_id := "entry-1"; data := Some conf_static |}.

(** After [async_setup] without the integration in the YAML configuration;
    the entry's device is in the registry. *)
Definition hass_without_yaml : HomeAssistant (float := Q) (World := World) :=
  {| hass_data := Some {[ "config" := VConfig None ]};
     entries := {[ "entry-1" := entry_static ]};
     device_registry :=
       [{| dr.id := "device-1"; dr.config_entries := {["entry-1"]};
           dr.connections := [(dr.CONNECTION_NETWORK_MAC, "aa:bb:cc:dd:ee:ff")] |}];
     world := [];
     calls := [] |}.

(** A discovery that finds one bulb the configuration does not list. *)
Definition discover_bulb (static : SmartDevices (float := Q)) (device_count : nat) (w : World)
    : outcome (SmartDevices (float := Q)) * World :=
  (Return {| lights := [bulb "192.168.1.9"]; switches := [] |}, w).

(** A configuration that lists one plug twice. *)
Definition conf_twice : Config :=
  {| conf_light := ["192.168.1.2"];
     conf_switch := ["192.168.1.3"; "192.168.1.3"];
     conf_strip := [];
     conf_dimmer := [];
     conf_discovery := Some false |}.

Definition hass_twice : HomeAssistant (float := Q) (World := World) :=
  {| hass_data := Some {[ "config" := VConfig (Some conf_twice) ]};
     entries := {[ "entry-1" := entry ]};
     device_registry := [];
     world := [];
     calls := [] |}.

(** A discovery that finds the plug at 192.168.1.3 again, at another
    address and under another name: one device id, two devices. *)
Definition moved_plug : SmartDevice (float := Q) :=
  {| host := "192.168.1.7"; alias := "Plug (moved)"; device_id := "plug-192.168.1.3";
     has_emeter := true; is_bulb := false;
     emeter_today := None; emeter_realtime := readings |}.

Definition discover_moved_plug (static : SmartDevices (float := Q)) (device_count : nat)
    (w : World) : outcome (SmartDevices (float := Q)) * World :=
  (Return {| lights := []; switches := [moved_plug] |}, w).

(** An entry whose data lists a switch and has no [CONF_DISCOVERY]. *)
Definition conf_without_discovery : Config :=
  {| conf_light := [];
     conf_switch := ["192.168.1.3"];
     conf_strip := [];
     conf_dimmer := [];
     conf_discovery := None |}.

Definition entry_without_discovery : ConfigEntry :=
  {| entry_id := "entry-1"; data := Some conf_without_discovery |}.

(** A host whose refresh breaks, for the hosts of the network that do not
    answer, with an exception that is not the vendor's. *)
Definition async_refresh_broken (coordinator : TPLinkDataUpdateCoordinator (float := Q)) (w : World)
    : (outcome unit * TPLinkDataUpdateCoordinator (float := Q)) * World :=
  if bool_decide (host (device coordinator) ∈ w)
  then ((Raise (OtherException "OSError"), coordinator), w)
  else ((Return tt, coordinator), w).

(** A vendor library that breaks with an exception that is not its own, and
    one that reports a device under a new alias. *)
Definition sdk_update_broken (dev : SmartDevice (float := Q)) (update_children : bool) (w : World)
    : (SmartDevice (float := Q) + sdk_error) * World :=
  (inr (SdkOtherException "OSError"), w).

Definition sdk_update_renamed (dev : SmartDevice (float := Q)) (update_children : bool) (w : World)
    : (SmartDevice (float := Q) + sdk_error) * World :=
  (inl {| host := host dev; alias := "Kitchen"; device_id := device_id dev;
          has_emeter := false; is_bulb := is_bulb dev;
          emeter_today := emeter_today dev; emeter_realtime := emeter_realtime dev |}, w).

End example.

(** * Lists *)

Section Lists.

Context {A B : Type}.

Lemma find_app_Some (f : A → bool) l l' x :
  find f l = Some x → find f (l ++ l') = Some x.
Proof. induction l as [|y l IH]; [done|]. cbn. by destruct (f y). Qed.

Lemma find_app_None (f : A → bool) l l' :
  find f l = None → find f (l ++ l') = find f l'.
Proof. induction l as [|y l IH]; [done|]. cbn. by destruct (f y). Qed.

Lemma find_Some_elem (f : A → bool) l x :
  find f l = Some x → x ∈ l ∧ f x = true.
Proof. intros [? ?]%find_some. by rewrite list_elem_of_In. Qed.

(** Records with different keys are told apart by them. *)
Lemma NoDup_fmap_elem (f : A → B) l x y :
  NoDup (f <$> l) → x ∈ l → y ∈ l → f x = f y → x = y.
Proof.
  induction l as [|z l IH]; [by intros _ ?%elem_of_nil|].
  rewrite fmap_cons, NoDup_cons. intros [Hnotin Hnodup].
  intros [->|Hx]%elem_of_cons [->|Hy]%elem_of_cons Hf; [done | | | by apply IH].
  - destruct Hnotin. rewrite Hf. by apply list_elem_of_fmap_2.
  - destruct Hnotin. rewrite <- Hf. by apply list_elem_of_fmap_2.
Qed.

End Lists.

(** * Reasoning about coroutines *)

Section wp.

Context {S : Type}.
Implicit Types s : S.

Lemma wp_ret {A} (a : A) (Q : A → S → Prop) E s : Q a s → wp (mret a) Q E s.
Proof. done. Qed.

Lemma wp_bind {A B} (m : M S A) (f : A → M S B) (Q : B → S → Prop) E s :
  wp m (λ a, wp (f a) Q E) E s → wp (m ≫= f) Q E s.
Proof. unfold wp, mbind, M_bind. by destruct (m s) as [[a|e] s']. Qed.

(** Sequencing through an intermediate assertion [I]. *)
Lemma wp_bind_inv {A B} (m : M S A) (f : A → M S B) (Q : B → S → Prop) E
    (I : A → S → Prop) s :
  wp m I E s → (∀ a s', I a s' → wp (f a) Q E s') → wp (m ≫= f) Q E s.
Proof.
  unfold wp, mbind, M_bind. destruct (m s) as [[a|e] s']; [|done].
  intros HI Hf. by apply Hf.
Qed.

Lemma wp_gets {A} (f : S → A) (Q : A → S → Prop) E s : Q (f s) s → wp (gets f) Q E s.
Proof. done. Qed.

Lemma wp_raise {A} (e : exn) (Q : A → S → Prop) (E : exn → S → Prop) s :
  E e s → wp (raise e) Q E s.
Proof. done. Qed.

Lemma wp_modify (f : S → S) (Q : unit → S → Prop) E s : Q tt (f s) → wp (modify f) Q E s.
Proof. done. Qed.

Lemma wp_elim {A} (m : M S A) (Q : A → S → Prop) E s r s' :
  wp m Q E s → m s = (r, s') →
  match r with Return a => Q a s' | Raise e => E e s' end.
Proof. unfold wp. intros Hwp Hrun. by rewrite Hrun in Hwp. Qed.

End wp.

(** * Properties of the coordinator *)

Section CoordinatorProperties.

Context {float : Type} (float_zero : float).
Context {names : Const}.
Context {World : Type}.
Context (sdk_update :
  SmartDevice (float := float) → bool → World → (SmartDevice (float := float) + sdk_error) * World).

Implicit Types s : CoordinatorState (float := float) (World := World).

Lemma _async_update_data_ok s dev' w' :
  sdk_update (device (self s)) (update_children (self s)) (net s) = (inl dev', w') →
  _async_update_data float_zero sdk_update s =
    (Return (if negb (has_emeter dev') then ∅
             else {[ CONF_EMETER_PARAMS :=
                       emeter_params (emeter_realtime dev') (consumption_today float_zero dev') ]}),
     refreshed s dev' w').
Proof.
  intros Hsdk.
  unfold _async_update_data, try_except_SmartDeviceException, device_update,
    mbind, M_bind, set_update_children, set_name, gets, modify, mret, M_ret.
  rewrite Hsdk. cbn. by destruct (has_emeter dev').
Qed.

Lemma _async_update_data_error s e w' :
  sdk_update (device (self s)) (update_children (self s)) (net s) = (inr e, w') →
  _async_update_data float_zero sdk_update s =
    (Raise (match e with
            | SdkSmartDeviceException msg => UpdateFailed (SmartDeviceException msg)
            | SdkOtherException cls => OtherException cls
            end),
     {| self := self s; net := w';
        sdk_calls := sdk_calls s ++ [(host (device (self s)), update_children (self s))] |}).
Proof.
  intros Hsdk.
  unfold _async_update_data, try_except_SmartDeviceException, device_update,
    mbind, M_bind, raise.
  rewrite Hsdk. by destruct e.
Qed.

(** C4. A [SmartDeviceException] of the device's [update] leaves
    [_async_update_data] as [UpdateFailed] wrapping that exception;
    [UpdateFailed] is raised in no other case; and whatever the outcome, the
    SDK has been called once, with the coordinator's [update_children],
    so that trying again is left to the caller. *)
Theorem update_failed_iff_smart_device_exception s :
  let sdk := sdk_update (device (self s)) (update_children (self s)) (net s) in
  (∀ msg, sdk.1 = inr (SdkSmartDeviceException msg) →
     (_async_update_data float_zero sdk_update s).1 = Raise (UpdateFailed (SmartDeviceException msg)))
  ∧ (∀ e, (_async_update_data float_zero sdk_update s).1 = Raise (UpdateFailed e) →
     ∃ msg, e = SmartDeviceException msg ∧ sdk.1 = inr (SdkSmartDeviceException msg))
  ∧ sdk_calls (_async_update_data float_zero sdk_update s).2 =
      sdk_calls s ++ [(host (device (self s)), update_children (self s))]
  ∧ net (_async_update_data float_zero sdk_update s).2 = sdk.2.
Proof.
  cbn zeta.
  destruct (sdk_update (device (self s)) (update_children (self s)) (net s))
    as [[dev'|e] w'] eqn:Hsdk; cbn [fst snd].
  - rewrite (_async_update_data_ok _ _ _ Hsdk). cbn [fst snd refreshed sdk_calls net].
    split_and!; [intros msg; discriminate | | done | done].
    intros e He. by destruct (negb (has_emeter dev')).
  - rewrite (_async_update_data_error _ _ _ Hsdk). cbn [fst snd sdk_calls net].
    split_and!; [ | | done | done].
    + intros msg [= ->]. done.
    + intros e' He'. destruct e as [msg|cls]; [|discriminate].
      injection He' as <-. by exists msg.
Qed.

Lemma emeter_params_dom (r : EmeterStatus (float := float)) today :
  dom (emeter_params r today) = list_to_set emeter_keys.
Proof.
  unfold emeter_params, emeter_keys. rewrite !dom_insert_L, dom_empty_L. cbn.
  apply set_eq. intros k. rewrite !elem_of_union, !elem_of_singleton. tauto.
Qed.

Lemma emeter_params_today (r : EmeterStatus (float := float)) today :
  emeter_params r today !! ATTR_TODAY_ENERGY_KWH = Some today.
Proof. unfold emeter_params. by rewrite lookup_insert_eq. Qed.

Lemma emeter_params_lookup (r : EmeterStatus (float := float)) today :
  NoDup emeter_keys →
  emeter_params r today !! ATTR_CURRENT_POWER_W = Some (power r)
  ∧ emeter_params r today !! ATTR_TOTAL_ENERGY_KWH = Some (total r)
  ∧ emeter_params r today !! ATTR_VOLTAGE = Some (voltage r)
  ∧ emeter_params r today !! ATTR_CURRENT_A = Some (current r)
  ∧ size (emeter_params r today) = 5.
Proof.
  unfold emeter_keys. rewrite !NoDup_cons, !not_elem_of_cons.
  intros (Hp & Ht & Hv & Hc & _). unfold emeter_params.
  destruct_and!.
  split_and!; [by simplify_map_eq .. |].
  rewrite !map_size_insert_None, map_size_empty; [done | by simplify_map_eq ..].
Qed.

(** C5, amended. When the device's [update] goes through,
    [_async_update_data] returns the empty dict for a device without an
    energy meter, and otherwise a dict whose only key is
    [CONF_EMETER_PARAMS]; the dict under that key has the five attribute
    names as its keys and nothing else. Power, total, voltage and current
    are those of the device's [emeter_realtime]. Today's energy is not
    taken from [emeter_realtime]: it is the device's [emeter_today] when
    that is not [None], and else [None] for a bulb and [0.0] for any other
    device. The five names are taken to differ from one another. *)
Theorem update_data_shape s dev' w' :
  NoDup emeter_keys →
  sdk_update (device (self s)) (update_children (self s)) (net s) = (inl dev', w') →
  ∃ d, (_async_update_data float_zero sdk_update s).1 = Return d ∧
    if has_emeter dev' then
      dom d = {[CONF_EMETER_PARAMS]} ∧
      ∃ params, d !! CONF_EMETER_PARAMS = Some params ∧
        dom params = list_to_set emeter_keys ∧ size params = 5 ∧
        params !! ATTR_CURRENT_POWER_W = Some (power (emeter_realtime dev')) ∧
        params !! ATTR_TOTAL_ENERGY_KWH = Some (total (emeter_realtime dev')) ∧
        params !! ATTR_VOLTAGE = Some (voltage (emeter_realtime dev')) ∧
        params !! ATTR_CURRENT_A = Some (current (emeter_realtime dev')) ∧
        params !! ATTR_TODAY_ENERGY_KWH =
          Some (match emeter_today dev' with
                | Some reported => Some reported
                | None => if is_bulb dev' then None else Some float_zero
                end)
    else d = ∅.
Proof.
  intros Hkeys Hsdk. rewrite (_async_update_data_ok _ _ _ Hsdk). cbn [fst].
  eexists; split; [done|].
  destruct (has_emeter dev'); cbn [negb]; [|done].
  split; [by rewrite dom_singleton_L|].
  eexists; split; [by rewrite lookup_singleton_eq|].
  destruct (emeter_params_lookup (emeter_realtime dev') (consumption_today float_zero dev') Hkeys)
    as (? & ? & ? & ? & ?).
  split_and!; auto using emeter_params_dom.
  by rewrite emeter_params_today.
Qed.

(** C9. For a device with an energy meter whose [update] goes through, the
    value under [ATTR_TODAY_ENERGY_KWH] is the consumption the device
    reports for today when it reports one; when it reports none, the value
    is [None] for a bulb and [0.0] for any other device. *)
Theorem today_energy_when_not_reported s dev' w' :
  sdk_update (device (self s)) (update_children (self s)) (net s) = (inl dev', w') →
  has_emeter dev' = true →
  ∃ d params, (_async_update_data float_zero sdk_update s).1 = Return d ∧
    d !! CONF_EMETER_PARAMS = Some params ∧
    params !! ATTR_TODAY_ENERGY_KWH =
      Some (match emeter_today dev' with
            | Some reported => Some reported
            | None => if is_bulb dev' then None else Some float_zero
            end).
Proof.
  intros Hsdk Hemeter. rewrite (_async_update_data_ok _ _ _ Hsdk), Hemeter. cbn [fst negb].
  eexists _, _. split_and!; [done | by rewrite lookup_singleton_eq |].
  by rewrite emeter_params_today.
Qed.

(** ** Polling again *)

Lemma polls_S n s : polls float_zero sdk_update (S n) s =
  polls float_zero sdk_update n (_async_update_data float_zero sdk_update s).2.
Proof. done. Qed.

(** The coordinator after one poll, whatever the vendor library answered. *)
Lemma _async_update_data_state s :
  (_async_update_data float_zero sdk_update s).2 =
    match sdk_update (device (self s)) (update_children (self s)) (net s) with
    | (inl dev', w') => refreshed s dev' w'
    | (inr e, w') =>
        {| self := self s; net := w';
           sdk_calls := sdk_calls s ++ [(host (device (self s)), update_children (self s))] |}
    end.
Proof.
  destruct (sdk_update (device (self s)) (update_children (self s)) (net s))
    as [[dev'|e] w'] eqn:Hsdk.
  - by rewrite (_async_update_data_ok _ _ _ Hsdk).
  - by rewrite (_async_update_data_error _ _ _ Hsdk).
Qed.

(** X12. When the device's [update] raises, the coordinator keeps its
    [update_children] and its name, an exception that is not a
    [SmartDeviceException] leaves [_async_update_data] as it is, not wrapped
    in [UpdateFailed], and the next poll makes the same call again: same
    host, same [update_children]. *)
Theorem failed_update_is_repeated s e w' :
  sdk_update (device (self s)) (update_children (self s)) (net s) = (inr e, w') →
  let run := _async_update_data float_zero sdk_update s in
  let call := (host (device (self s)), update_children (self s)) in
  (∀ cls, e = SdkOtherException cls → run.1 = Raise (OtherException cls))
  ∧ update_children (self run.2) = update_children (self s)
  ∧ name (self run.2) = name (self s)
  ∧ sdk_calls (polls float_zero sdk_update 2 s) = sdk_calls s ++ [call; call].
Proof.
  intros Hsdk. cbn zeta. rewrite !polls_S. cbn [polls].
  rewrite (_async_update_data_error _ _ _ Hsdk). cbn [fst snd self].
  split_and!; [by intros cls -> | done | done |].
  rewrite _async_update_data_state. cbn [self net sdk_calls].
  destruct (sdk_update _ _ w') as [[dev''|e'] w'']; cbn [refreshed sdk_calls self];
    by rewrite <- app_assoc.
Qed.

(** X13. When the device's [update] goes through, the coordinator holds the
    refreshed device, is named after the device's alias as it is now, with
    or without an energy meter, has [update_children] set and keeps its
    update interval; the next poll calls the refreshed device's [update]
    with [update_children=True]. *)
Theorem update_renames_coordinator s dev' w' :
  sdk_update (device (self s)) (update_children (self s)) (net s) = (inl dev', w') →
  let run := _async_update_data float_zero sdk_update s in
  (∃ d, run.1 = Return d)
  ∧ device (self run.2) = dev'
  ∧ name (self run.2) = alias dev'
  ∧ update_children (self run.2) = true
  ∧ update_interval (self run.2) = update_interval (self s)
  ∧ sdk_calls (polls float_zero sdk_update 2 s) =
      sdk_calls s ++ [(host (device (self s)), update_children (self s)); (host dev', true)].
Proof.
  intros Hsdk. cbn zeta. rewrite !polls_S. cbn [polls].
  rewrite (_async_update_data_ok _ _ _ Hsdk). cbn [fst snd refreshed self].
  split_and!; [by eauto | done | done | done | done |].
  rewrite _async_update_data_state. cbn [refreshed self net sdk_calls device update_children].
  destruct (sdk_update _ _ w') as [[dev''|e'] w'']; cbn [refreshed sdk_calls self device update_children];
    by rewrite <- app_assoc.
Qed.

(** X14. A coordinator whose [update_children] is set, as [__init__] sets
    it, keeps it set: in [n] polls the vendor library is called [n] times,
    once a poll whether it answers or raises, each time with
    [update_children=True], and the update interval stays what it was. *)
Theorem polls_update_children n : ∀ s,
  update_children (self s) = true →
  let s' := polls float_zero sdk_update n s in
  update_children (self s') = true
  ∧ update_interval (self s') = update_interval (self s)
  ∧ ∃ new, sdk_calls s' = sdk_calls s ++ new
      ∧ length new = n
      ∧ Forall (λ call, call.2 = true) new.
Proof.
  induction n as [|n IH]; intros s Hchildren; cbn zeta.
  { cbn [polls]. split_and!; [done | done |]. exists []. by rewrite app_nil_r. }
  rewrite polls_S. rewrite _async_update_data_state.
  destruct (sdk_update (device (self s)) (update_children (self s)) (net s)) as [[dev'|e] w'].
  - destruct (IH (refreshed s dev' w') eq_refl) as (Hflag & Hinterval & new & Hcalls & Hlen & Hnew).
    split_and!; [done | done |].
    exists ((host (device (self s)), update_children (self s)) :: new).
    split_and!.
    + rewrite Hcalls. cbn [refreshed sdk_calls]. by rewrite <- app_assoc.
    + cbn. by rewrite Hlen.
    + by constructor.
  - match goal with |- context [polls _ _ n ?s0] =>
      destruct (IH s0 Hchildren) as (Hflag & Hinterval & new & Hcalls & Hlen & Hnew)
    end.
    split_and!; [done | done |].
    exists ((host (device (self s)), update_children (self s)) :: new).
    split_and!.
    + rewrite Hcalls. cbn [sdk_calls]. by rewrite <- app_assoc.
    + cbn. by rewrite Hlen.
    + by constructor.
Qed.

End CoordinatorProperties.

(** * Properties of setup and unload *)

Section SetupProperties.

Context {float : Type}.
Context {names : Const}.
Context {World : Type}.
Context (get_static_devices :
  Config → World → outcome (SmartDevices (float := float)) * World).
Context (async_discover_devices :
  SmartDevices (float := float) → nat → World → outcome (SmartDevices (float := float)) * World).
Context (async_refresh :
  TPLinkDataUpdateCoordinator (float := float) → World →
  (outcome unit * TPLinkDataUpdateCoordinator (float := float)) * World).
Context (async_unload_platforms : ConfigEntry → list string → World → outcome bool * World).

Implicit Types hass : HomeAssistant (float := float) (World := World).
Implicit Types dev : SmartDevice (float := float).
Implicit Types coordinators : gmap string (TPLinkDataUpdateCoordinator (float := float)).

(** Reading a field of [hass] after some of its fields were set. *)
Ltac hass_simpl :=
  unfold with_hass_data, with_entries, with_world, with_calls in *;
  cbn [hass_data entries device_registry world calls fst snd] in *.

Lemma domain_data_set_Some hass d key value :
  hass_data hass = Some d →
  domain_data_set key value hass = (Return tt, with_hass_data (Some (<[key := value]> d)) hass).
Proof.
  intros Hd. unfold domain_data_set, domain_data, mbind, M_bind, modify. by rewrite Hd.
Qed.

Lemma wp_domain_data hass (Q : gmap string HassValue → HomeAssistant → Prop) E :
  match hass_data hass with Some d => Q d hass | None => E (KeyError DOMAIN) hass end →
  wp domain_data Q E hass.
Proof. unfold wp, domain_data. by destruct (hass_data hass). Qed.

Lemma wp_domain_data_set hass key value (Q : unit → HomeAssistant → Prop) E :
  is_Some (hass_data hass) →
  (∀ d, Q tt (with_hass_data (Some d) hass)) →
  wp (domain_data_set key value) Q E hass.
Proof.
  intros [d Hd] HQ. unfold wp. rewrite (domain_data_set_Some _ _ _ _ Hd). apply HQ.
Qed.

Lemma wp_emit hass ev (Q : unit → HomeAssistant → Prop) E :
  Q tt (with_calls (calls hass ++ [ev]) hass) → wp (emit ev) Q E hass.
Proof. done. Qed.

Lemma wp_await {A} (co : World → outcome A * World) hass (Q : A → HomeAssistant → Prop) E :
  (∀ a w', co (world hass) = (Return a, w') → Q a (with_world w' hass)) →
  (∀ e w', co (world hass) = (Raise e, w') → E e (with_world w' hass)) →
  wp (await co) Q E hass.
Proof.
  intros HQ HE. unfold wp, await. destruct (co (world hass)) as [[a|e] w']; auto.
Qed.

Lemma wp_extend hass key devices found (Q : list SmartDevice → HomeAssistant → Prop) E :
  is_Some (hass_data hass) →
  (∀ d, Q (devices ++ found) (with_hass_data (Some d) hass)) →
  wp (extend key devices found) Q E hass.
Proof.
  intros Hdata HQ. unfold extend. apply wp_bind, wp_domain_data_set; [done|].
  intros d. by apply wp_ret, HQ.
Qed.

(** ** The devices found *)

(** [setup_devices] returns the static devices followed by the discovered
    ones, lights and switches apart, and leaves [hass.data[DOMAIN]] in
    place. It raises only if [hass.data[DOMAIN]] is missing, if reading
    the static configuration or the discovery raises, or if the
    configuration has no [CONF_DISCOVERY]. *)
Lemma setup_devices_spec entry hass :
  wp (setup_devices get_static_devices async_discover_devices entry)
    (λ found hass1,
       is_Some (hass_data hass1) ∧
       ∃ static discovered,
         found = (lights static ++ lights discovered, switches static ++ switches discovered)
         ∧ (static = SmartDevices__init__ ∨
            ∃ conf w w', get_static_devices conf w = (Return static, w'))
         ∧ (discovered = SmartDevices__init__ ∨
            ∃ n w w', async_discover_devices static n w = (Return discovered, w')))
    (λ e _,
       hass_data hass = None
       ∨ (∃ conf w w', get_static_devices conf w = (Raise e, w'))
       ∨ (∃ static n w w', async_discover_devices static n w = (Raise e, w'))
       ∨ e = KeyError CONF_DISCOVERY)
    hass.
Proof.
  unfold setup_devices.
  apply wp_bind, wp_domain_data. destruct (hass_data hass) as [d|] eqn:Hd; [|by left].
  set (config_data := match d !! ATTR_CONFIG with Some (VConfig conf) => conf | _ => None end).
  clearbody config_data.
  apply (wp_bind_inv _ _ _ _ (λ _ hass0, is_Some (hass_data hass0))).
  { destruct config_data as [conf|]; [|destruct (data entry)].
    - unfold async_update_entry. apply wp_bind, wp_bind, wp_emit, wp_modify, wp_ret.
      hass_simpl. by rewrite Hd.
    - apply wp_ret. by rewrite Hd.
    - apply wp_ret. by rewrite Hd. }
  clear config_data. intros config_data hass0 Hdata.
  apply wp_bind, wp_gets.
  do 3 (apply wp_bind, wp_domain_data_set; [done | intros ?]).
  apply (wp_bind_inv _ _ _ _ (λ '(static, ls, ss) hass1,
    is_Some (hass_data hass1) ∧ ls = lights static ∧ ss = switches static ∧
    (static = SmartDevices__init__ ∨
     ∃ conf w w', get_static_devices conf w = (Return static, w')))).
  { destruct config_data as [conf|]; [|apply wp_ret; by auto].
    apply wp_bind, wp_await; [intros static w' Hstatic|intros e w' Hstatic; right; left; eauto].
    apply wp_bind, wp_extend; [done | intros ?].
    apply wp_bind, wp_extend; [done | intros ?].
    apply wp_ret. split_and!; [done..|]. right. eauto. }
  intros [[static ls] ss] hass1 (Hdata1 & -> & -> & Hstatic).
  apply (wp_bind_inv _ _ _ _ (λ _ hass2, is_Some (hass_data hass2))).
  { destruct config_data as [conf|]; [destruct (conf_discovery conf)|];
      [by apply wp_ret | | by apply wp_ret].
    apply wp_raise. by do 3 right. }
  clear hass1 Hdata1. intros discovery hass1 Hdata1.
  apply (wp_bind_inv _ _ _ _ (λ '(ls, ss) hass2,
    is_Some (hass_data hass2) ∧ ∃ discovered,
      ls = lights static ++ lights discovered ∧ ss = switches static ++ switches discovered ∧
      (discovered = SmartDevices__init__ ∨
       ∃ n w w', async_discover_devices static n w = (Return discovered, w')))).
  { destruct discovery.
    - apply wp_bind, wp_await;
        [intros discovered w' Hdisc|intros e w' Hdisc; right; right; left; eauto 10].
      apply wp_bind, wp_extend; [done | intros ?].
      apply wp_bind, wp_extend; [done | intros ?].
      apply wp_ret. split; [done|]. exists discovered. split_and!; [done..|]. right. eauto.
    - apply wp_ret. split; [done|]. exists SmartDevices__init__. by rewrite !app_nil_r; auto. }
  intros [ls ss] hass2 (Hdata2 & discovered & -> & -> & Hdisc).
  apply (wp_bind_inv _ _ _ _ (λ _ hass3, is_Some (hass_data hass3))).
  { destruct (lights static ++ lights discovered); [by apply wp_ret | by apply wp_emit]. }
  intros _ hass3 Hdata3.
  apply (wp_bind_inv _ _ _ _ (λ _ hass4, is_Some (hass_data hass4))).
  { destruct (switches static ++ switches discovered); [by apply wp_ret | by apply wp_emit]. }
  intros _ hass4 Hdata4.
  apply wp_ret. split; [done|]. by exists static, discovered.
Qed.

(** ** The loop over the devices *)

(** One turn of the loop, read off the host's answer to the refresh. *)
Lemma prepare_coordinator_run dev coordinators hass d r c w' :
  hass_data hass = Some d →
  async_refresh (TPLinkDataUpdateCoordinator__init__ dev) (world hass) = ((r, c), w') →
  let coordinators' := <[device_id dev := c]> coordinators in
  let hass' evs :=
    {| hass_data := Some (<[COORDINATORS := VCoordinators coordinators']> d);
       entries := entries hass; device_registry := device_registry hass;
       world := w'; calls := calls hass ++ AsyncRefresh (device_id dev) :: evs |} in
  prepare_coordinator async_refresh dev coordinators hass =
    match r with
    | Return _ => (Return coordinators', hass' [])
    | Raise (SmartDeviceException _) =>
        (Return coordinators', hass' [LogWarning WARN_NOT_REACHABLE (host (device c))])
    | Raise e => (Raise e, hass' [])
    end.
Proof.
  intros Hd Hrefresh. cbn zeta.
  unfold prepare_coordinator, await_refresh, mbind, M_bind.
  rewrite (domain_data_set_Some _ _ _ _ Hd). hass_simpl. rewrite Hrefresh.
  erewrite domain_data_set_Some by (hass_simpl; reflexivity).
  unfold try_except_SmartDeviceException, emit, modify, mret, M_ret. hass_simpl.
  rewrite !insert_insert_eq.
  destruct r as [[]|[]]; hass_simpl; try done.
  by rewrite <- app_assoc.
Qed.

(** What the loop has done when it ends, and which exception ends it early. *)
Lemma for_in_prepare_coordinator devs : ∀ coordinators hass d,
  hass_data hass = Some d →
  d !! COORDINATORS = Some (VCoordinators coordinators) →
  match for_in devs (prepare_coordinator async_refresh) coordinators hass with
  | (Return coordinators', hass') =>
      (∃ d', hass_data hass' = Some d' ∧ d' !! COORDINATORS = Some (VCoordinators coordinators'))
      ∧ (∀ k, k ∉ device_id <$> devs → coordinators' !! k = coordinators !! k)
      ∧ (∀ dev, dev ∈ devs → ∃ dev' c,
           dev' ∈ devs ∧ device_id dev' = device_id dev ∧
           coordinators' !! device_id dev = Some c ∧ coordinator_of async_refresh dev' c)
      ∧ (∃ evs, calls hass' = calls hass ++ evs ∧ Forall loop_event evs
           ∧ refreshed_devices evs = device_id <$> devs)
  | (Raise e, hass') =>
      ∃ dev w c w', dev ∈ devs
        ∧ async_refresh (TPLinkDataUpdateCoordinator__init__ dev) w = ((Raise e, c), w')
        ∧ ∀ msg, e ≠ SmartDeviceException msg
  end.
Proof.
  induction devs as [|dev devs IH]; intros coordinators hass d Hd Hcoords.
  { cbn. split_and!; [by eauto | done | by intros ? ?%elem_of_nil |].
    exists []. by rewrite app_nil_r. }
  cbn [for_in]. unfold mbind, M_bind.
  destruct (async_refresh (TPLinkDataUpdateCoordinator__init__ dev) (world hass))
    as [[r c] w'] eqn:Hrefresh.
  rewrite (prepare_coordinator_run _ _ _ _ _ _ _ Hd Hrefresh).
  assert (Hraise : ∀ e, r = Raise e → (∀ msg, e ≠ SmartDeviceException msg) →
    ∃ dev0 w0 c0 w0', dev0 ∈ dev :: devs
      ∧ async_refresh (TPLinkDataUpdateCoordinator__init__ dev0) w0 = ((Raise e, c0), w0')
      ∧ ∀ msg, e ≠ SmartDeviceException msg).
  { intros e -> He. exists dev, (world hass), c, w'. split_and!; [left | done | done]. }
  assert (Hnext : ∀ evs,
    match for_in devs (prepare_coordinator async_refresh) (<[device_id dev := c]> coordinators)
            {| hass_data := Some (<[COORDINATORS := VCoordinators (<[device_id dev := c]> coordinators)]> d);
               entries := entries hass; device_registry := device_registry hass;
               world := w'; calls := calls hass ++ AsyncRefresh (device_id dev) :: evs |} with
    | (Return coordinators', hass') =>
        (∃ d', hass_data hass' = Some d' ∧ d' !! COORDINATORS = Some (VCoordinators coordinators'))
        ∧ (∀ k, k ∉ device_id <$> dev :: devs → coordinators' !! k = coordinators !! k)
        ∧ (∀ dev0, dev0 ∈ dev :: devs → ∃ dev' c0,
             dev' ∈ dev :: devs ∧ device_id dev' = device_id dev0 ∧
             coordinators' !! device_id dev0 = Some c0 ∧ coordinator_of async_refresh dev' c0)
        ∧ (∃ evs', calls hass' = calls hass ++ evs' ∧
             (Forall loop_event evs → Forall loop_event evs') ∧
             (refreshed_devices evs = [] → refreshed_devices evs' = device_id <$> dev :: devs))
    | (Raise e, hass') =>
        ∃ dev0 w0 c0 w0', dev0 ∈ dev :: devs
          ∧ async_refresh (TPLinkDataUpdateCoordinator__init__ dev0) w0 = ((Raise e, c0), w0')
          ∧ ∀ msg, e ≠ SmartDeviceException msg
    end).
  { intros evs.
    specialize (IH (<[device_id dev := c]> coordinators)
      {| hass_data := Some (<[COORDINATORS := VCoordinators (<[device_id dev := c]> coordinators)]> d);
         entries := entries hass; device_registry := device_registry hass;
         world := w'; calls := calls hass ++ AsyncRefresh (device_id dev) :: evs |}
      _ eq_refl (lookup_insert_eq _ _ _)).
    destruct (for_in devs _ _ _) as [[coordinators'|e] hass'].
    - destruct IH as (Hdata & Hother & Hdevs & evs' & Hcalls & Hloop & Hrefreshed).
      split_and!; [done | | |].
      + intros k Hk. rewrite fmap_cons, not_elem_of_cons in Hk. destruct Hk as [Hne Hk].
        by rewrite Hother, lookup_insert_ne.
      + intros dev0 Hdev0.
        destruct (decide (device_id dev0 ∈ device_id <$> devs)) as [Hin|Hnotin].
        * apply list_elem_of_fmap in Hin as (dev1 & Hid & Hdev1).
          destruct (Hdevs dev1 Hdev1) as (dev' & c0 & ? & ? & ? & ?).
          exists dev', c0. split_and!; [by right | congruence | congruence | done].
        * apply elem_of_cons in Hdev0 as [->|Hdev0].
          2:{ destruct Hnotin. by apply list_elem_of_fmap_2. }
          exists dev, c. split_and!; [by left | done | |].
          -- by rewrite Hother, lookup_insert_eq.
          -- by exists (world hass), r, w'.
      + exists (AsyncRefresh (device_id dev) :: evs ++ evs').
        split_and!.
        * cbn in Hcalls. rewrite Hcalls, <- app_assoc. done.
        * intros Hevs. constructor; [done|]. by apply Forall_app.
        * intros Hevs. unfold refreshed_devices in *. cbn.
          by rewrite omap_app, Hevs, Hrefreshed.
    - destruct IH as (dev0 & w0 & c0 & w0' & ? & ? & ?).
      exists dev0, w0, c0, w0'. split_and!; [by right | done | done]. }
  destruct r as [[]|e].
  - specialize (Hnext []). destruct (for_in devs _ _ _) as [[coordinators'|e] hass']; [|done].
    destruct Hnext as (? & ? & ? & evs' & ? & Hloop & Hrefreshed).
    split_and!; [done..|]. exists evs'. split_and!; [done | by apply Hloop | by apply Hrefreshed].
  - destruct e as [msg| | |].
    2-4: by (eapply Hraise; [done | intros ?; discriminate]).
    specialize (Hnext [LogWarning WARN_NOT_REACHABLE (host (device c))]).
    destruct (for_in devs _ _ _) as [[coordinators'|e] hass']; [|done].
    destruct Hnext as (? & ? & ? & evs' & ? & Hloop & Hrefreshed).
    split_and!; [done..|]. exists evs'.
    split_and!; [done | apply Hloop; by repeat constructor | by apply Hrefreshed].
Qed.

Lemma prepare_coordinators_spec devs hass :
  is_Some (hass_data hass) →
  wp (prepare_coordinators async_refresh devs)
    (λ coordinators hass',
       (∃ d', hass_data hass' = Some d' ∧ d' !! COORDINATORS = Some (VCoordinators coordinators))
       ∧ dom coordinators = list_to_set (device_id <$> devs)
       ∧ (∀ dev, dev ∈ devs → ∃ dev' c,
            dev' ∈ devs ∧ device_id dev' = device_id dev ∧
            coordinators !! device_id dev = Some c ∧ coordinator_of async_refresh dev' c)
       ∧ (∃ evs, calls hass' = calls hass ++ evs ∧ Forall loop_event evs
            ∧ refreshed_devices evs = device_id <$> devs))
    (λ e _,
       ∃ dev w c w', dev ∈ devs
         ∧ async_refresh (TPLinkDataUpdateCoordinator__init__ dev) w = ((Raise e, c), w')
         ∧ ∀ msg, e ≠ SmartDeviceException msg)
    hass.
Proof.
  intros [d Hd]. unfold wp, prepare_coordinators, mbind, M_bind.
  rewrite (domain_data_set_Some _ _ _ _ Hd).
  pose proof (for_in_prepare_coordinator devs ∅
    (with_hass_data (Some (<[COORDINATORS := VCoordinators ∅]> d)) hass)
    _ eq_refl (lookup_insert_eq _ _ _)) as Hloop.
  destruct (for_in devs _ _ _) as [[coordinators|e] hass']; [|done].
  destruct Hloop as (Hdata & Hother & Hdevs & Hcalls).
  split_and!; [done | | done | done].
  apply set_eq. intros k. rewrite elem_of_dom, elem_of_list_to_set. split.
  - intros [c Hc]. destruct (decide (k ∈ device_id <$> devs)) as [|Hk]; [done|].
    rewrite (Hother k Hk), lookup_empty in Hc. done.
  - intros (dev & -> & Hdev)%list_elem_of_fmap.
    destruct (Hdevs dev Hdev) as (? & c & _ & _ & Hc & _). by exists c.
Qed.

Lemma NoDup_device_id devs dev dev' :
  NoDup (device_id <$> devs) → dev ∈ devs → dev' ∈ devs →
  device_id dev' = device_id dev → dev' = dev.
Proof. intros Hnodup Hdev Hdev'. by apply (NoDup_fmap_elem device_id devs). Qed.

(** ** The loop, exactly *)

(** The loop of the embedding does what the reference loop does: the same
    outcome, dict, calls and network, and nothing else of [hass] changes. *)
Lemma for_in_prepare_coordinator_exact devs : ∀ coordinators hass d,
  hass_data hass = Some d →
  d !! COORDINATORS = Some (VCoordinators coordinators) →
  for_in devs (prepare_coordinator async_refresh) coordinators hass =
    match refresh_in_order async_refresh devs coordinators (world hass) with
    | (e, (cs, evs, w)) =>
        (match e with None => Return cs | Some e => Raise e end,
         {| hass_data := Some (<[COORDINATORS := VCoordinators cs]> d);
            entries := entries hass; device_registry := device_registry hass;
            world := w; calls := calls hass ++ evs |})
    end.
Proof.
  induction devs as [|dev devs IH]; intros coordinators hass d Hd Hcoords.
  { cbn. rewrite insert_id, app_nil_r by done. destruct hass. cbn in Hd. by subst. }
  cbn [for_in refresh_in_order]. unfold mbind, M_bind.
  destruct (async_refresh (TPLinkDataUpdateCoordinator__init__ dev) (world hass))
    as [[r c] w'] eqn:Hrefresh.
  rewrite (prepare_coordinator_run _ _ _ _ _ _ _ Hd Hrefresh). cbn zeta.
  destruct r as [[]|[msg|cause|key|cls]]; try done.
  - erewrite IH; [|reflexivity|apply lookup_insert_eq]. cbn [world entries device_registry calls].
    destruct (refresh_in_order _ _ _ _) as [e [[cs evs] w'']].
    by rewrite insert_insert_eq, <- app_assoc.
  - erewrite IH; [|reflexivity|apply lookup_insert_eq]. cbn [world entries device_registry calls].
    destruct (refresh_in_order _ _ _ _) as [e [[cs evs] w'']].
    by rewrite insert_insert_eq, <- app_assoc.
Qed.

Lemma refresh_in_order_app pre post : ∀ coordinators w,
  refresh_in_order async_refresh (pre ++ post) coordinators w =
    match refresh_in_order async_refresh pre coordinators w with
    | (None, (cs1, evs1, w1)) =>
        match refresh_in_order async_refresh post cs1 w1 with
        | (e, (cs2, evs2, w2)) => (e, (cs2, evs1 ++ evs2, w2))
        end
    | (Some e, rest) => (Some e, rest)
    end.
Proof.
  induction pre as [|dev pre IH]; intros coordinators w.
  { cbn. by destruct (refresh_in_order _ _ _ _) as [e [[cs evs] w']]. }
  cbn [app refresh_in_order].
  destruct (async_refresh (TPLinkDataUpdateCoordinator__init__ dev) w) as [[r c] w'].
  destruct r as [[]|[msg|cause|key|cls]]; try done; rewrite IH;
    destruct (refresh_in_order async_refresh pre _ _) as [[e|] [[cs1 evs1] w1]]; try done;
    by destruct (refresh_in_order async_refresh post _ _) as [e [[cs2 evs2] w2]].
Qed.

(** A loop that was not ended by an exception has refreshed every device. *)
Lemma refresh_in_order_None devs : ∀ coordinators w cs evs w',
  refresh_in_order async_refresh devs coordinators w = (None, (cs, evs, w')) →
  refreshed_devices evs = device_id <$> devs
  ∧ Forall loop_event evs
  ∧ ∀ k, k ∉ device_id <$> devs → cs !! k = coordinators !! k.
Proof.
  induction devs as [|dev devs IH]; intros coordinators w cs evs w' Hrun.
  { cbn in Hrun. by injection Hrun as <- <- <-. }
  cbn [refresh_in_order] in Hrun.
  destruct (async_refresh (TPLinkDataUpdateCoordinator__init__ dev) w) as [[r c] w1].
  destruct r as [[]|[msg|cause|key|cls]]; try done;
    destruct (refresh_in_order _ _ _ _) as [e [[cs2 evs2] w2]] eqn:Hrest;
    injection Hrun as -> <- <- <-;
    destruct (IH _ _ _ _ _ Hrest) as (Hrefreshed & Hloop & Hother);
    (split_and!;
     [ unfold refreshed_devices in *; cbn; by rewrite Hrefreshed
     | by repeat constructor
     | intros k [Hne Hk]%not_elem_of_cons; by rewrite Hother, lookup_insert_ne ]).
Qed.

(** One device of a loop that was not ended by an exception: what came
    before it, its refresh on the network as it was then, the calls it
    accounts for, and what came after it. *)
Lemma refresh_in_order_at pre dev post coordinators w0 cs evs w' :
  refresh_in_order async_refresh (pre ++ dev :: post) coordinators w0 = (None, (cs, evs, w')) →
  ∃ cs_pre evs_pre w r c w1 evs_post,
    refresh_in_order async_refresh pre coordinators w0 = (None, (cs_pre, evs_pre, w))
    ∧ async_refresh (TPLinkDataUpdateCoordinator__init__ dev) w = ((r, c), w1)
    ∧ (∀ e, r = Raise e → ∃ msg, e = SmartDeviceException msg)
    ∧ evs = evs_pre
              ++ AsyncRefresh (device_id dev)
                   :: (if r is Raise _ then [LogWarning WARN_NOT_REACHABLE (host (device c))] else [])
              ++ evs_post
    ∧ refresh_in_order async_refresh post (<[device_id dev := c]> cs_pre) w1
        = (None, (cs, evs_post, w'))
    ∧ refreshed_devices evs_post = device_id <$> post
    ∧ (device_id dev ∉ device_id <$> post → cs !! device_id dev = Some c).
Proof.
  rewrite refresh_in_order_app.
  destruct (refresh_in_order async_refresh pre coordinators w0) as [[e|] [[cs_pre evs_pre] w]];
    [done|].
  cbn [refresh_in_order].
  destruct (async_refresh (TPLinkDataUpdateCoordinator__init__ dev) w) as [[r c] w1] eqn:Hrefresh.
  assert (Hlast : ∀ cs2 evs2 w2,
    refresh_in_order async_refresh post (<[device_id dev := c]> cs_pre) w1 = (None, (cs2, evs2, w2)) →
    refreshed_devices evs2 = device_id <$> post
    ∧ (device_id dev ∉ device_id <$> post → cs2 !! device_id dev = Some c)).
  { intros cs2 evs2 w2 Hrest.
    destruct (refresh_in_order_None _ _ _ _ _ _ Hrest) as (Hrefreshed & _ & Hother).
    split; [done|]. intros Hpost. by rewrite (Hother _ Hpost), lookup_insert_eq. }
  destruct r as [[]|[msg|cause|key|cls]]; try done.
  - destruct (refresh_in_order async_refresh post _ _) as [e [[cs2 evs2] w2]] eqn:Hrest.
    intros [= -> <- <- <-]. destruct (Hlast _ _ _ eq_refl) as [? ?].
    exists cs_pre, evs_pre, w, (Return tt), c, w1, evs2.
    split_and!; [done | done | by intros ? [=] | done | done | done | done].
  - destruct (refresh_in_order async_refresh post _ _) as [e [[cs2 evs2] w2]] eqn:Hrest.
    intros [= -> <- <- <-]. destruct (Hlast _ _ _ eq_refl) as [? ?].
    exists cs_pre, evs_pre, w, (Raise (SmartDeviceException msg)), c, w1, evs2.
    split_and!; [done | done | intros ? [= <-]; by eauto | done | done | done | done].
Qed.

Lemma refresh_in_order_dom devs : ∀ coordinators w cs evs w',
  refresh_in_order async_refresh devs coordinators w = (None, (cs, evs, w')) →
  dom cs = dom coordinators ∪ list_to_set (device_id <$> devs).
Proof.
  induction devs as [|dev devs IH]; intros coordinators w cs evs w' Hrun.
  { cbn in Hrun. injection Hrun as <- <- <-. cbn. by rewrite union_empty_r_L. }
  cbn [refresh_in_order] in Hrun.
  destruct (async_refresh (TPLinkDataUpdateCoordinator__init__ dev) w) as [[r c] w1].
  destruct r as [[]|[msg|cause|key|cls]]; try done;
    destruct (refresh_in_order _ _ _ _) as [e [[cs2 evs2] w2]] eqn:Hrest;
    injection Hrun as -> <- <- <-;
    rewrite (IH _ _ _ _ _ Hrest), dom_insert_L; cbn;
    apply set_eq; intros k; rewrite !elem_of_union, elem_of_singleton; tauto.
Qed.

(** A loop that was ended by an exception: a refresh raised it, and it is
    not a [SmartDeviceException]. *)
Lemma refresh_in_order_Some devs : ∀ coordinators w e rest,
  refresh_in_order async_refresh devs coordinators w = (Some e, rest) →
  ∃ dev w0 c w1, dev ∈ devs
    ∧ async_refresh (TPLinkDataUpdateCoordinator__init__ dev) w0 = ((Raise e, c), w1)
    ∧ ∀ msg, e ≠ SmartDeviceException msg.
Proof.
  induction devs as [|dev devs IH]; intros coordinators w e rest Hrun; [done|].
  cbn [refresh_in_order] in Hrun.
  destruct (async_refresh (TPLinkDataUpdateCoordinator__init__ dev) w) as [[r c] w1] eqn:Hrefresh.
  destruct r as [[]|[msg|cause|key|cls]].
  1,2: destruct (refresh_in_order _ _ _ _) as [e' [[cs2 evs2] w2]] eqn:Hrest;
       injection Hrun as -> _;
       destruct (IH _ _ _ _ Hrest) as (dev0 & w0 & c0 & w0' & ? & ? & ?);
       exists dev0, w0, c0, w0'; split_and!; [by right | done | done].
  all: injection Hrun as <- _; exists dev, w, c, w1; split_and!; [by left | done | by intros ?].
Qed.

(** [async_setup_entry] once the devices are found: the reference loop,
    and the platform setup if no exception ended it. *)
Lemma async_setup_entry_exact entry hass found_lights found_switches hass1 d1 :
  setup_devices get_static_devices async_discover_devices entry hass
    = (Return (found_lights, found_switches), hass1) →
  hass_data hass1 = Some d1 →
  async_setup_entry get_static_devices async_discover_devices async_refresh entry hass =
    match refresh_in_order async_refresh (found_switches ++ found_lights) ∅ (world hass1) with
    | (e, (cs, evs, w)) =>
        (match e with None => Return true | Some e => Raise e end,
         {| hass_data := Some (<[COORDINATORS := VCoordinators cs]> d1);
            entries := entries hass1; device_registry := device_registry hass1;
            world := w;
            calls := calls hass1 ++ evs
                       ++ match e with
                          | None => [SetupPlatforms (entry_id entry) PLATFORMS]
                          | Some _ => []
                          end |})
    end.
Proof.
  intros Hsetup Hd1. unfold async_setup_entry, mbind, M_bind. rewrite Hsetup.
  unfold prepare_coordinators, mbind, M_bind.
  rewrite (domain_data_set_Some _ _ _ _ Hd1).
  erewrite for_in_prepare_coordinator_exact; [|reflexivity|apply lookup_insert_eq].
  hass_simpl.
  destruct (refresh_in_order _ _ _ _) as [[e|] [[cs evs] w]]; rewrite insert_insert_eq.
  - by rewrite app_nil_r.
  - unfold emit, modify, mret, M_ret. hass_simpl. by rewrite <- app_assoc.
Qed.

(** As many keys as devices exactly when no two devices share one. *)
Lemma size_list_to_set_le (l : list string) :
  (size (list_to_set (C := gset string) l) ≤ length l)%nat.
Proof.
  induction l as [|x l IH]; [done|]. cbn [list_to_set length].
  destruct (decide (x ∈ l)) as [Hin|Hnotin].
  - rewrite (subseteq_union_1_L {[x]}); [lia|].
    apply singleton_subseteq_l. by apply elem_of_list_to_set.
  - rewrite size_union, size_singleton; [lia|].
    apply disjoint_singleton_l. by rewrite elem_of_list_to_set.
Qed.

Lemma size_list_to_set_NoDup (l : list string) :
  size (list_to_set (C := gset string) l) = length l ↔ NoDup l.
Proof.
  split; [|apply size_list_to_set].
  induction l as [|x l IH]; [constructor|]. cbn [list_to_set length].
  destruct (decide (x ∈ l)) as [Hin|Hnotin].
  - rewrite (subseteq_union_1_L {[x]}).
    + pose proof (size_list_to_set_le l). lia.
    + apply singleton_subseteq_l. by apply elem_of_list_to_set.
  - rewrite size_union, size_singleton.
    + intros Hsize. constructor; [done|]. apply IH. lia.
    + apply disjoint_singleton_l. by rewrite elem_of_list_to_set.
Qed.

(** ** Setting an entry up *)

(** What [async_setup_entry] has done when it returns, and what can make
    it raise. *)
Lemma async_setup_entry_spec entry hass :
  wp (async_setup_entry get_static_devices async_discover_devices async_refresh entry)
    (λ b hass',
       b = true ∧
       ∃ found_lights found_switches hass1 d' coordinators evs,
         setup_devices get_static_devices async_discover_devices entry hass =
           (Return (found_lights, found_switches), hass1)
         ∧ hass_data hass' = Some d'
         ∧ d' !! COORDINATORS = Some (VCoordinators coordinators)
         ∧ dom coordinators = list_to_set (device_id <$> found_switches ++ found_lights)
         ∧ (∀ dev, dev ∈ found_switches ++ found_lights → ∃ dev' c,
              dev' ∈ found_switches ++ found_lights ∧ device_id dev' = device_id dev ∧
              coordinators !! device_id dev = Some c ∧ coordinator_of async_refresh dev' c)
         ∧ calls hass' = calls hass1 ++ evs ++ [SetupPlatforms (entry_id entry) PLATFORMS]
         ∧ Forall loop_event evs
         ∧ refreshed_devices evs = device_id <$> found_switches ++ found_lights)
    (λ e _,
       hass_data hass = None
       ∨ (∃ conf w w', get_static_devices conf w = (Raise e, w'))
       ∨ (∃ static n w w', async_discover_devices static n w = (Raise e, w'))
       ∨ (∃ c w c' w', async_refresh c w = ((Raise e, c'), w')
            ∧ ∀ msg, e ≠ SmartDeviceException msg)
       ∨ e = KeyError CONF_DISCOVERY)
    hass.
Proof.
  pose proof (setup_devices_spec entry hass) as Hsetup.
  unfold wp, async_setup_entry, mbind, M_bind in *.
  destruct (setup_devices _ _ entry hass) as [[[found_lights found_switches]|e] hass1].
  2:{ destruct Hsetup as [?|[?|[?|?]]]; auto 6. }
  destruct Hsetup as [Hdata1 _].
  pose proof (prepare_coordinators_spec (found_switches ++ found_lights) hass1 Hdata1) as Hprepare.
  unfold wp in Hprepare.
  destruct (prepare_coordinators _ _ hass1) as [[coordinators|e] hass2].
  2:{ destruct Hprepare as (dev & w & c & w' & _ & Hrefresh & He). do 3 right. left. eauto 10. }
  destruct Hprepare as ((d' & Hdata2 & Hcoords) & Hdom & Hdevs & evs & Hcalls & Hloop & Hrefreshed).
  unfold emit, modify, mret, M_ret. hass_simpl.
  split; [done|].
  exists found_lights, found_switches, hass1, d', coordinators, evs.
  split_and!; try done. by rewrite Hcalls, <- app_assoc.
Qed.

(** C7, amended. When [async_setup_entry] returns, the devices found are
    the static ones followed by the discovered ones, and
    [hass.data[DOMAIN][COORDINATORS]] holds a coordinator under the device
    id of every device found, switch or light, and under no other key. A
    coordinator is made from its device, with [update_children] set, the
    device's alias as name and ten seconds as update interval, and is in
    the dict as the host's first refresh left it. Under a device id the
    dict holds the coordinator of the last device of that id, in the order
    switches, lights: a device with no device of the same id after it has
    its own coordinator there. There are as many coordinators as devices
    exactly when the device ids differ from one another, and then every
    device has its own.
    The host is asked to refresh each device in the order switches, lights,
    and after that to set the platforms up; the result is [True]. *)
Theorem async_setup_entry_coordinators entry hass b hass' :
  async_setup_entry get_static_devices async_discover_devices async_refresh entry hass =
    (Return b, hass') →
  b = true ∧
  ∃ found_lights found_switches hass1 d' coordinators evs,
    setup_devices get_static_devices async_discover_devices entry hass =
      (Return (found_lights, found_switches), hass1)
    ∧ (∃ static discovered,
         found_lights = lights static ++ lights discovered
         ∧ found_switches = switches static ++ switches discovered
         ∧ (static = SmartDevices__init__ ∨
            ∃ conf w w', get_static_devices conf w = (Return static, w'))
         ∧ (discovered = SmartDevices__init__ ∨
            ∃ n w w', async_discover_devices static n w = (Return discovered, w')))
    ∧ hass_data hass' = Some d'
    ∧ d' !! COORDINATORS = Some (VCoordinators coordinators)
    ∧ dom coordinators = list_to_set (device_id <$> found_switches ++ found_lights)
    ∧ (∀ dev,
         TPLinkDataUpdateCoordinator__init__ dev =
           {| device := dev; update_children := true; name := alias dev;
              update_interval := 10 |})
    ∧ (∀ dev, dev ∈ found_switches ++ found_lights → ∃ dev' c,
         dev' ∈ found_switches ++ found_lights ∧ device_id dev' = device_id dev ∧
         coordinators !! device_id dev = Some c ∧ coordinator_of async_refresh dev' c)
    ∧ (∀ pre dev post,
         found_switches ++ found_lights = pre ++ dev :: post →
         device_id dev ∉ device_id <$> post →
         ∃ c, coordinators !! device_id dev = Some c ∧ coordinator_of async_refresh dev c)
    ∧ (size coordinators = length (found_switches ++ found_lights)
       ↔ NoDup (device_id <$> found_switches ++ found_lights))
    ∧ (NoDup (device_id <$> found_switches ++ found_lights) →
         size coordinators = length (found_switches ++ found_lights) ∧
         ∀ dev, dev ∈ found_switches ++ found_lights → ∃ c,
           coordinators !! device_id dev = Some c ∧ coordinator_of async_refresh dev c)
    ∧ calls hass' = calls hass1 ++ evs ++ [SetupPlatforms (entry_id entry) PLATFORMS]
    ∧ Forall loop_event evs
    ∧ refreshed_devices evs = device_id <$> found_switches ++ found_lights.
Proof.
  intros Hrun.
  pose proof (wp_elim _ _ _ _ _ _ (async_setup_entry_spec entry hass) Hrun) as Hspec.
  cbn in Hspec.
  destruct Hspec as (-> & found_lights & found_switches & hass1 & d' & coordinators & evs
    & Hsetup & Hdata & Hcoords & Hdom & Hdevs & Hcalls & Hloop & Hrefreshed).
  split; [done|].
  exists found_lights, found_switches, hass1, d', coordinators, evs.
  pose proof (wp_elim _ _ _ _ _ _ (setup_devices_spec entry hass) Hsetup) as Hfound.
  cbn in Hfound. destruct Hfound as ([d1 Hd1] & static & discovered & [= -> ->] & ? & ?).
  split_and!; try done.
  - by exists static, discovered.
  - intros pre dev post Hdevices Hpost.
    rewrite (async_setup_entry_exact _ _ _ _ _ _ Hsetup Hd1) in Hrun.
    destruct (refresh_in_order _ _ _ _) as [[e|] [[cs evs'] w]] eqn:Hloop'; [done|].
    injection Hrun as <-. cbn [hass_data] in Hdata. injection Hdata as <-.
    rewrite lookup_insert_eq in Hcoords. injection Hcoords as <-.
    rewrite Hdevices in Hloop'.
    destruct (refresh_in_order_at _ _ _ _ _ _ _ _ Hloop')
      as (cs_pre & evs_pre & w0 & r & c & w1 & evs_post & _ & Hrefresh & _ & _ & _ & _ & Hc).
    exists c. split; [by apply Hc|]. by exists w0, r, w1.
  - rewrite <- size_dom, Hdom, <- (length_fmap device_id). apply size_list_to_set_NoDup.
  - intros Hnodup. split.
    + rewrite <- size_dom, Hdom, size_list_to_set, length_fmap; done.
    + intros dev Hdev. destruct (Hdevs dev Hdev) as (dev' & c & Hdev' & Hid & Hc & Hof).
      exists c. split; [done|].
      by rewrite <- (NoDup_device_id _ _ _ Hnodup Hdev Hdev' Hid).
Qed.

(** C8. Let the devices be found, and let the host's refresh raise
    nothing but [SmartDeviceException]. Then [async_setup_entry] returns
    [True], and the loop over the devices is the reference loop, not ended
    by an exception. Each device, switches first, is refreshed once, on
    the network as the refresh before it left it. If its refresh raised,
    the exception is caught: the one call that follows the refresh is a
    warning that names the device's host, nothing else is done for the
    device, and the loop goes on, so that every device after it is
    refreshed as well. Reachable or not, the device's coordinator is in the
    dict as the refresh left it, unless a later device of the same id took
    its place. The platforms are set up last, and nothing else of [hass]
    changes. *)
Theorem async_setup_entry_unreachable entry hass found_lights found_switches hass1 :
  setup_devices get_static_devices async_discover_devices entry hass =
    (Return (found_lights, found_switches), hass1) →
  (∀ c w e c' w', async_refresh c w = ((Raise e, c'), w') → ∃ msg, e = SmartDeviceException msg) →
  ∃ hass' d1 coordinators evs,
    async_setup_entry get_static_devices async_discover_devices async_refresh entry hass =
      (Return true, hass')
    ∧ refresh_in_order async_refresh (found_switches ++ found_lights) ∅ (world hass1)
        = (None, (coordinators, evs, world hass'))
    ∧ hass_data hass1 = Some d1
    ∧ hass_data hass' = Some (<[COORDINATORS := VCoordinators coordinators]> d1)
    ∧ entries hass' = entries hass1
    ∧ device_registry hass' = device_registry hass1
    ∧ calls hass' = calls hass1 ++ evs ++ [SetupPlatforms (entry_id entry) PLATFORMS]
    ∧ refreshed_devices evs = device_id <$> found_switches ++ found_lights
    ∧ dom coordinators = list_to_set (device_id <$> found_switches ++ found_lights)
    ∧ ∀ pre dev post,
        found_switches ++ found_lights = pre ++ dev :: post →
        ∃ cs_pre evs_pre w r c w' evs_post,
          refresh_in_order async_refresh pre ∅ (world hass1) = (None, (cs_pre, evs_pre, w))
          ∧ async_refresh (TPLinkDataUpdateCoordinator__init__ dev) w = ((r, c), w')
          ∧ evs = evs_pre
                    ++ AsyncRefresh (device_id dev)
                         :: (if r is Raise _
                             then [LogWarning WARN_NOT_REACHABLE (host (device c))]
                             else [])
                    ++ evs_post
          ∧ refreshed_devices evs_pre = device_id <$> pre
          ∧ refreshed_devices evs_post = device_id <$> post
          ∧ (device_id dev ∉ device_id <$> post → coordinators !! device_id dev = Some c).
Proof.
  intros Hsetup Hrefresh.
  pose proof (wp_elim _ _ _ _ _ _ (setup_devices_spec entry hass) Hsetup) as Hfound.
  cbn in Hfound. destruct Hfound as ([d1 Hd1] & _).
  rewrite (async_setup_entry_exact _ _ _ _ _ _ Hsetup Hd1).
  destruct (refresh_in_order _ _ _ _) as [[e|] [[cs evs] w]] eqn:Hloop.
  { destruct (refresh_in_order_Some _ _ _ _ _ Hloop) as (dev & w0 & c & w1 & _ & Hraise & He).
    destruct (Hrefresh _ _ _ _ _ Hraise) as [msg ->]. by destruct (He msg). }
  destruct (refresh_in_order_None _ _ _ _ _ _ Hloop) as (Hrefreshed & _ & _).
  eexists _, d1, cs, evs. split_and!; [done..| |].
  - rewrite (refresh_in_order_dom _ _ _ _ _ _ Hloop), dom_empty_L. by rewrite union_empty_l_L.
  - intros pre dev post Hdevices. rewrite Hdevices in Hloop.
    destruct (refresh_in_order_at _ _ _ _ _ _ _ _ Hloop)
      as (cs_pre & evs_pre & w0 & r & c & w1 & evs_post
          & Hpre & Hdev & _ & Hevs & _ & Hpost & Hc).
    destruct (refresh_in_order_None _ _ _ _ _ _ Hpre) as (Hrefreshed_pre & _ & _).
    by exists cs_pre, evs_pre, w0, r, c, w1, evs_post.
Qed.

(** ** Unload *)

(** C10. When the host's platform unload answers, [async_unload_entry]
    returns that answer; it has emptied [hass.data[DOMAIN]] if the answer
    is [True] and has left it as it was if the answer is [False]. The
    config entries and the registry are untouched either way. *)
Theorem async_unload_entry_clears_iff_unloaded entry hass d unload_ok w' :
  hass_data hass = Some d →
  async_unload_platforms entry PLATFORMS (world hass) = (Return unload_ok, w') →
  ∃ hass', async_unload_entry async_unload_platforms entry hass = (Return unload_ok, hass')
    ∧ hass_data hass' = Some (if unload_ok then ∅ else d)
    ∧ (hass_data hass' = Some ∅ ↔ unload_ok = true ∨ d = ∅)
    ∧ entries hass' = entries hass
    ∧ device_registry hass' = device_registry hass
    ∧ calls hass' = calls hass ++ [UnloadPlatforms (entry_id entry) PLATFORMS].
Proof.
  intros Hd Hunload.
  unfold async_unload_entry, emit, await, domain_data, mbind, M_bind, modify, mret, M_ret.
  hass_simpl. rewrite Hunload, Hd.
  destruct unload_ok; eexists; (split; [reflexivity|]); cbn; split_and!; try done.
  - naive_solver.
  - split; [intros [= ->]; by right | intros [[=]| ->]; done].
Qed.

(** ** The configuration in force and the devices found, in full *)

Lemma fields_are_refl hass d :
  hass_data hass = Some d →
  fields_are hass d (entries hass) (device_registry hass) (world hass) (calls hass).
Proof. by intros Hd. Qed.

Lemma wp_domain_data_set_fields hass key value (Q : unit → HomeAssistant → Prop) E d es reg w evs :
  fields_are hass d es reg w evs →
  (∀ hass', fields_are hass' (<[key := value]> d) es reg w evs → Q tt hass') →
  wp (domain_data_set key value) Q E hass.
Proof.
  intros (Hd & ? & ? & ? & ?) HQ. unfold wp. rewrite (domain_data_set_Some _ _ _ _ Hd).
  apply HQ. by split_and!.
Qed.

Lemma wp_emit_fields hass ev (Q : unit → HomeAssistant → Prop) E d es reg w evs :
  fields_are hass d es reg w evs →
  (∀ hass', fields_are hass' d es reg w (evs ++ [ev]) → Q tt hass') →
  wp (emit ev) Q E hass.
Proof.
  intros (Hd & ? & ? & ? & Hevs) HQ. apply wp_emit, HQ. split_and!; try done.
  hass_simpl. by rewrite Hevs.
Qed.

Lemma wp_await_fields {A} (co : World → outcome A * World) hass
    (Q : A → HomeAssistant → Prop) E d es reg w evs :
  fields_are hass d es reg w evs →
  (∀ a w' hass', co w = (Return a, w') → fields_are hass' d es reg w' evs → Q a hass') →
  (∀ e w' hass', co w = (Raise e, w') → fields_are hass' d es reg w' evs → E e hass') →
  wp (await co) Q E hass.
Proof.
  intros (Hd & ? & ? & <- & ?) HQ HE.
  apply wp_await; intros ? w' Hco; [eapply HQ|eapply HE]; try done; by split_and!.
Qed.

Lemma wp_extend_fields hass key devices found (Q : list SmartDevice → HomeAssistant → Prop) E
    d es reg w evs :
  fields_are hass d es reg w evs →
  (∀ hass', fields_are hass' (<[key := VDevices (devices ++ found)]> d) es reg w evs →
     Q (devices ++ found) hass') →
  wp (extend key devices found) Q E hass.
Proof.
  intros Hf HQ. unfold extend. eapply wp_bind, wp_domain_data_set_fields; [done|].
  intros hass' Hf'. by apply wp_ret, HQ.
Qed.

Lemma wp_debug_found hass fmt (devices : list (SmartDevice (float := float)))
    (Q : unit → HomeAssistant → Prop) E d es reg w evs :
  fields_are hass d es reg w evs →
  (∀ hass', fields_are hass' d es reg w (evs ++ debug_found fmt devices) → Q tt hass') →
  wp (if devices is [] then mret tt
      else emit (LogDebug fmt (length devices) (String.concat ", " (host <$> devices)))) Q E hass.
Proof.
  intros Hf HQ. destruct devices as [|dev devices].
  - apply wp_ret, HQ. cbn. by rewrite app_nil_r.
  - eapply wp_emit_fields; [done|]. apply HQ.
Qed.

(** [setup_devices] from a state that holds [hass.data[DOMAIN]]: which
    configuration it reads, what it asks of [common.py] and of the host,
    and the state it leaves, when it returns and when it raises. *)
Lemma setup_devices_run entry hass d :
  hass_data hass = Some d →
  let config_data := config_in_force d entry in
  let device_count :=
    length (dr.async_entries_for_config_entry (device_registry hass) (entry_id entry)) in
  let entries' :=
    match yaml_config d with
    | Some conf => <[entry_id entry := {| entry_id := entry_id entry; data := Some conf |}]>
                     (entries hass)
    | None => entries hass
    end in
  let updated :=
    match yaml_config d with
    | Some conf => [UpdateEntry (entry_id entry) conf]
    | None => []
    end in
  wp (setup_devices get_static_devices async_discover_devices entry)
    (λ found hass1,
       ∃ static discovered w1,
         match config_data with
         | Some conf => get_static_devices conf (world hass) = (Return static, w1)
         | None => static = SmartDevices__init__ ∧ w1 = world hass
         end
         ∧ match discovery_enabled config_data with
           | Some true =>
               async_discover_devices static device_count w1 = (Return discovered, world hass1)
           | Some false => discovered = SmartDevices__init__ ∧ world hass1 = w1
           | None => False
           end
         ∧ found = (lights static ++ lights discovered, switches static ++ switches discovered)
         ∧ fields_are hass1 (found_data d config_data static discovered) entries'
             (device_registry hass) (world hass1)
             (calls hass ++ updated ++ debug_found "Got %s lights: %s" found.1
                ++ debug_found "Got %s switches: %s" found.2))
    (λ e hass1,
       entries hass1 = entries' ∧ device_registry hass1 = device_registry hass
       ∧ calls hass1 = calls hass ++ updated ∧ is_Some (hass_data hass1)
       ∧ ((∃ conf, config_data = Some conf
             ∧ get_static_devices conf (world hass) = (Raise e, world hass1))
          ∨ (∃ static w1,
               match config_data with
               | Some conf => get_static_devices conf (world hass) = (Return static, w1)
               | None => static = SmartDevices__init__ ∧ w1 = world hass
               end
               ∧ discovery_enabled config_data = Some true
               ∧ async_discover_devices static device_count w1 = (Raise e, world hass1))
          ∨ (∃ static,
               match config_data with
               | Some conf =>
                   get_static_devices conf (world hass) = (Return static, world hass1)
               | None => False
               end
               ∧ discovery_enabled config_data = None
               ∧ e = KeyError CONF_DISCOVERY
               ∧ hass_data hass1 =
                   Some (found_data d config_data static SmartDevices__init__))))
    hass.
Proof.
  intros Hd. cbn zeta. unfold setup_devices.
  apply wp_bind, wp_domain_data. rewrite Hd.
  fold (yaml_config d). unfold config_in_force.
  set (n := length _).
  eapply (wp_bind_inv _ _ _ _ (λ config_data hass0,
    config_data = match yaml_config d with Some c => Some c | None => data entry end
    ∧ fields_are hass0 d
        match yaml_config d with
        | Some conf => <[entry_id entry := {| entry_id := entry_id entry; data := Some conf |}]>
                         (entries hass)
        | None => entries hass
        end (device_registry hass) (world hass)
        (calls hass ++ match yaml_config d with
                       | Some conf => [UpdateEntry (entry_id entry) conf]
                       | None => []
                       end))).
  { destruct (yaml_config d) as [conf|].
    - unfold async_update_entry. apply wp_bind, wp_bind, wp_emit, wp_modify, wp_ret.
      split; [done|]. by split_and!.
    - rewrite app_nil_r. destruct (data entry); apply wp_ret; (split; [done|by split_and!]). }
  intros config_data hass0 [-> Hf].
  set (config_data := match yaml_config d with Some c => Some c | None => data entry end) in *.
  set (entries' := match yaml_config d with Some _ => _ | None => entries hass end) in *.
  set (updated := match yaml_config d with Some _ => [_] | None => [] end) in *.
  apply wp_bind, wp_gets.
  assert (device_registry hass0 = device_registry hass) as -> by apply Hf. fold n.
  eapply wp_bind, wp_domain_data_set_fields; [done|]. clear hass0 Hf. intros hass0 Hf.
  eapply wp_bind, wp_domain_data_set_fields; [done|]. clear hass0 Hf. intros hass0 Hf.
  eapply wp_bind, wp_domain_data_set_fields; [done|]. clear hass0 Hf. intros hass0 Hf.
  set (dA := <[UNAVAILABLE_DEVICES:=_]> _) in Hf.
  eapply (wp_bind_inv _ _ _ _ (λ '(static, ls, ss) hass1,
    ls = lights static ∧ ss = switches static ∧ ∃ w1,
      match config_data with
      | Some conf => get_static_devices conf (world hass) = (Return static, w1)
      | None => static = SmartDevices__init__ ∧ w1 = world hass
      end
      ∧ fields_are hass1
          match config_data with
          | Some _ => <[CONF_SWITCH := VDevices (switches static)]>
                        (<[CONF_LIGHT := VDevices (lights static)]> dA)
          | None => dA
          end entries' (device_registry hass) w1 (calls hass ++ updated))).
  { destruct config_data as [conf|].
    - eapply wp_bind, wp_await_fields; [done | |].
      + intros static w1 hass1 Hstatic Hf1.
        eapply wp_bind, wp_extend_fields; [done|]. clear hass1 Hf1. intros hass1 Hf1.
        eapply wp_bind, wp_extend_fields; [done|]. clear hass1 Hf1. intros hass1 Hf1.
        apply wp_ret. split_and!; [done | done |]. by exists w1.
      + intros e w1 hass1 Hstatic (Hd1 & ? & ? & <- & ?).
        split_and!; [done | done | done | by eauto |]. left. by eauto.
    - apply wp_ret. split_and!; [done | done |]. by exists (world hass). }
  clear hass0 Hf. intros [[static ls] ss] hass0 (-> & -> & w1 & Hstatic & Hf).
  set (dB := match config_data with Some _ => _ | None => dA end) in Hf.
  eapply (wp_bind_inv _ _ _ _ (λ discovery hass1,
    discovery_enabled config_data = Some discovery
    ∧ fields_are hass1 dB entries' (device_registry hass) w1 (calls hass ++ updated))).
  { destruct config_data as [conf|]; [|by apply wp_ret].
    cbn [discovery_enabled].
    destruct (conf_discovery conf) as [discovery|] eqn:Hkey; [by apply wp_ret|].
    apply wp_raise. destruct Hf as (Hd0 & ? & ? & Hw & ?).
    split_and!; [done | done | done | by eauto |]. right. right.
    exists static. rewrite Hw. split_and!; [done | done | done |].
    unfold found_data. cbn [discovery_enabled]. rewrite Hkey. fold dA. by rewrite Hd0. }
  clear hass0 Hf. intros discovery hass0 [Hdisc Hf].
  eapply (wp_bind_inv _ _ _ _ (λ '(ls, ss) hass1, ∃ discovered,
    ls = lights static ++ lights discovered ∧ ss = switches static ++ switches discovered
    ∧ (if discovery
       then async_discover_devices static n w1 = (Return discovered, world hass1)
       else discovered = SmartDevices__init__ ∧ world hass1 = w1)
    ∧ fields_are hass1 (found_data d config_data static discovered) entries'
        (device_registry hass) (world hass1) (calls hass ++ updated))).
  { unfold found_data. fold dA. fold dB. rewrite Hdisc.
    destruct discovery.
    - eapply wp_bind, wp_await_fields; [done | |].
      + intros discovered w2 hass1 Hdiscovered Hf1.
        eapply wp_bind, wp_extend_fields; [done|]. clear hass1 Hf1. intros hass1 Hf1.
        eapply wp_bind, wp_extend_fields; [done|]. clear hass1 Hf1. intros hass1 Hf1.
        apply wp_ret. exists discovered.
        destruct Hf1 as (? & ? & ? & Hw & ?). rewrite Hw. by split_and!.
      + intros e w2 hass1 Hdiscovered (Hd1 & ? & ? & <- & ?).
        split_and!; [done | done | done | by eauto |]. right. left. by eauto.
    - apply wp_ret. exists SmartDevices__init__. cbn [lights switches SmartDevices__init__].
      rewrite !app_nil_r. destruct Hf as (? & ? & ? & Hw & ?). rewrite Hw. by split_and!. }
  clear hass0 Hf. intros [ls ss] hass0 (discovered & -> & -> & Hdiscovered & Hf).
  remember (world hass0) as w2 eqn:Hw2. clear Hw2.
  eapply wp_bind, wp_debug_found; [done|]. clear hass0 Hf. intros hass0 Hf.
  eapply wp_bind, wp_debug_found; [done|]. clear hass0 Hf. intros hass0 Hf.
  apply wp_ret. exists static, discovered, w1. cbn [fst snd].
  destruct Hf as (? & ? & ? & Hw & Hcalls). unfold fields_are.
  rewrite Hw, Hcalls, <- !app_assoc, Hdisc. by split_and!.
Qed.

(** What the loop over the devices leaves alone, and how far it got. *)
Lemma for_in_prepare_coordinator_frame devs : ∀ coordinators hass d r hass',
  hass_data hass = Some d →
  d !! COORDINATORS = Some (VCoordinators coordinators) →
  for_in devs (prepare_coordinator async_refresh) coordinators hass = (r, hass') →
  entries hass' = entries hass ∧ device_registry hass' = device_registry hass
  ∧ (∃ cs, hass_data hass' = Some (<[COORDINATORS := VCoordinators cs]> d)
       ∧ ∀ cs', r = Return cs' → cs' = cs)
  ∧ ∃ evs k, calls hass' = calls hass ++ evs ∧ Forall loop_event evs
      ∧ refreshed_devices evs = device_id <$> take k devs
      ∧ (∀ cs', r = Return cs' → k = length devs)
      ∧ (∀ e, r = Raise e → 0 < k ≤ length devs).
Proof.
  induction devs as [|dev devs IH]; intros coordinators hass d r hass' Hd Hcoords Hrun.
  { cbn in Hrun. injection Hrun as <- <-. split_and!; [done | done | |].
    - exists coordinators. split; [|by intros ? [= ->]]. by rewrite insert_id.
    - exists [], 0. rewrite app_nil_r. split_and!; [done | done | done | done |]. by intros. }
  cbn [for_in] in Hrun. unfold mbind, M_bind in Hrun.
  destruct (async_refresh (TPLinkDataUpdateCoordinator__init__ dev) (world hass))
    as [[r0 c] w'] eqn:Hrefresh.
  rewrite (prepare_coordinator_run dev coordinators hass d r0 c w' Hd Hrefresh) in Hrun. cbn zeta in Hrun.
  assert (Hnext : ∀ evs0, Forall loop_event evs0 → refreshed_devices evs0 = [] →
    for_in devs (prepare_coordinator async_refresh) (<[device_id dev := c]> coordinators)
      {| hass_data := Some (<[COORDINATORS := VCoordinators (<[device_id dev := c]> coordinators)]> d);
         entries := entries hass; device_registry := device_registry hass;
         world := w'; calls := calls hass ++ AsyncRefresh (device_id dev) :: evs0 |} = (r, hass') →
    entries hass' = entries hass ∧ device_registry hass' = device_registry hass
    ∧ (∃ cs, hass_data hass' = Some (<[COORDINATORS := VCoordinators cs]> d)
         ∧ ∀ cs', r = Return cs' → cs' = cs)
    ∧ ∃ evs k, calls hass' = calls hass ++ evs ∧ Forall loop_event evs
        ∧ refreshed_devices evs = device_id <$> take k (dev :: devs)
        ∧ (∀ cs', r = Return cs' → k = length (dev :: devs))
        ∧ (∀ e, r = Raise e → 0 < k ≤ length (dev :: devs))).
  { intros evs0 Hevs0 Hnone Hrest.
    eapply IH in Hrest
      as (Hentries & Hreg & (cs & Hdata & Hcs) & evs & k & Hcalls & Hloop & Hrefreshed & Hret & Hraise);
      [|reflexivity|apply lookup_insert_eq].
    cbn in Hentries, Hreg, Hcalls. split_and!; [done | done | |].
    - exists cs. by rewrite Hdata, insert_insert_eq.
    - exists (AsyncRefresh (device_id dev) :: evs0 ++ evs), (S k). split_and!.
      + by rewrite Hcalls, <- app_assoc.
      + constructor; [done|]. by apply Forall_app.
      + unfold refreshed_devices in *. cbn. by rewrite omap_app, Hnone, Hrefreshed.
      + intros cs' Hr. cbn. by rewrite (Hret cs' Hr).
      + intros e Hr. specialize (Hraise e Hr). cbn. lia. }
  destruct r0 as [[]|e0].
  - by apply (Hnext []).
  - destruct e0 as [msg|cause|key|cls].
    + apply (Hnext [LogWarning WARN_NOT_REACHABLE (host (device c))]); [by repeat constructor | done | done].
    + injection Hrun as <- <-. cbn. split_and!; [done | done | |].
      { eexists. split; [done|]. intros ? [=]. }
      exists [AsyncRefresh (device_id dev)], 1.
      split_and!; [done | by repeat constructor | by cbn; rewrite take_0 | intros ? [=] |].
      intros. cbn. lia.
    + injection Hrun as <- <-. cbn. split_and!; [done | done | |].
      { eexists. split; [done|]. intros ? [=]. }
      exists [AsyncRefresh (device_id dev)], 1.
      split_and!; [done | by repeat constructor | by cbn; rewrite take_0 | intros ? [=] |].
      intros. cbn. lia.
    + injection Hrun as <- <-. cbn. split_and!; [done | done | |].
      { eexists. split; [done|]. intros ? [=]. }
      exists [AsyncRefresh (device_id dev)], 1.
      split_and!; [done | by repeat constructor | by cbn; rewrite take_0 | intros ? [=] |].
      intros. cbn. lia.
Qed.

(** [async_setup_entry] as [setup_devices] followed by the loop and the
    platform setup. *)
Lemma async_setup_entry_run entry hass r hass' :
  async_setup_entry get_static_devices async_discover_devices async_refresh entry hass = (r, hass') →
  ∃ r1 hass1,
    setup_devices get_static_devices async_discover_devices entry hass = (r1, hass1)
    ∧ match r1 with
      | Raise e => r = Raise e ∧ hass' = hass1
      | Return (found_lights, found_switches) =>
          match hass_data hass1 with
          | None => r = Raise (KeyError DOMAIN) ∧ hass' = hass1
          | Some d1 =>
              entries hass' = entries hass1 ∧ device_registry hass' = device_registry hass1
              ∧ ∃ cs evs k,
                  hass_data hass' = Some (<[COORDINATORS := VCoordinators cs]> d1)
                  ∧ Forall loop_event evs
                  ∧ refreshed_devices evs = device_id <$> take k (found_switches ++ found_lights)
                  ∧ match r with
                    | Return b =>
                        b = true ∧ k = length (found_switches ++ found_lights)
                        ∧ calls hass' =
                            calls hass1 ++ evs ++ [SetupPlatforms (entry_id entry) PLATFORMS]
                    | Raise e =>
                        0 < k ≤ length (found_switches ++ found_lights)
                        ∧ calls hass' = calls hass1 ++ evs
                    end
          end
      end.
Proof.
  unfold async_setup_entry, mbind, M_bind. intros Hrun.
  destruct (setup_devices _ _ entry hass) as [[[found_lights found_switches]|e] hass1].
  2:{ injection Hrun as <- <-. by eexists _, _. }
  eexists _, _. split; [done|]. cbn beta iota.
  unfold prepare_coordinators, mbind, M_bind in Hrun.
  destruct (hass_data hass1) as [d1|] eqn:Hd1.
  2:{ unfold domain_data_set, domain_data, mbind, M_bind in Hrun. rewrite Hd1 in Hrun.
      by injection Hrun as <- <-. }
  rewrite (domain_data_set_Some _ _ _ _ Hd1) in Hrun.
  destruct (for_in _ _ _ _) as [r2 hass2] eqn:Hloop.
  eapply for_in_prepare_coordinator_frame in Hloop
    as (Hentries & Hreg & (cs & Hdata & Hcs) & evs & k & Hcalls & Hevs & Hrefreshed & Hret & Hraise);
    [|reflexivity|apply lookup_insert_eq].
  hass_simpl. rewrite insert_insert_eq in Hdata.
  destruct r2 as [cs'|e].
  - unfold emit, modify, mret, M_ret in Hrun. injection Hrun as <- <-. hass_simpl.
    split_and!; [done | done |]. exists cs, evs, k.
    split_and!; [done | done | done | done | by eapply Hret |]. by rewrite Hcalls, <- app_assoc.
  - injection Hrun as <- <-. split_and!; [done | done |]. exists cs, evs, k.
    split_and!; try done; by apply (Hraise e).
Qed.

Lemma yaml_config_Some d conf :
  d !! ATTR_CONFIG = Some (VConfig (float := float) (Some conf)) → yaml_config d = Some conf.
Proof. unfold yaml_config. by intros ->. Qed.

(** X2. When [async_setup] stored a YAML configuration, lines 86-131 of
    [async_setup_entry] write that configuration into the config entry,
    through the host's [async_update_entry] and before any other call,
    whatever the entry's data was and whether or not the rest raises; and
    the static devices are those of the YAML configuration. *)
Theorem yaml_config_takes_precedence entry hass d conf r hass1 :
  hass_data hass = Some d →
  d !! ATTR_CONFIG = Some (VConfig (Some conf)) →
  setup_devices get_static_devices async_discover_devices entry hass = (r, hass1) →
  entries hass1 =
    <[entry_id entry := {| entry_id := entry_id entry; data := Some conf |}]> (entries hass)
  ∧ (∃ evs, calls hass1 = calls hass ++ UpdateEntry (entry_id entry) conf :: evs)
  ∧ ∀ found, r = Return found →
      ∃ static discovered w1,
        get_static_devices conf (world hass) = (Return static, w1)
        ∧ found = (lights static ++ lights discovered, switches static ++ switches discovered).
Proof.
  intros Hd Hconf%yaml_config_Some Hrun.
  pose proof (wp_elim _ _ _ _ _ _ (setup_devices_run entry hass d Hd) Hrun) as Hspec.
  cbn zeta in Hspec. unfold config_in_force in Hspec. rewrite Hconf in Hspec.
  destruct r as [found|e].
  - destruct Hspec as (static & discovered & w1 & Hstatic & _ & -> & _ & Hentries & _ & _ & Hcalls).
    split_and!; [done | by eauto |]. intros ? [= <-]. by eauto.
  - destruct Hspec as (Hentries & _ & Hcalls & _).
    split_and!; [done | by eauto | by intros ? [=]].
Qed.

(** X3. Without a YAML configuration, none stored or [None] stored, lines
    86-131 of [async_setup_entry] leave the config entries as they are and
    do not call [async_update_entry]; the static devices are those of the
    entry's data, and there are none when the entry's data is empty. *)
Theorem entry_data_without_yaml_config entry hass d r hass1 :
  hass_data hass = Some d →
  d !! ATTR_CONFIG = None ∨ d !! ATTR_CONFIG = Some (VConfig None) →
  setup_devices get_static_devices async_discover_devices entry hass = (r, hass1) →
  entries hass1 = entries hass
  ∧ (∃ evs, calls hass1 = calls hass ++ evs ∧ ∀ id conf, UpdateEntry id conf ∉ evs)
  ∧ ∀ found, r = Return found →
      ∃ static discovered w1,
        match data entry with
        | Some conf => get_static_devices conf (world hass) = (Return static, w1)
        | None => static = SmartDevices__init__ ∧ w1 = world hass
        end
        ∧ found = (lights static ++ lights discovered, switches static ++ switches discovered).
Proof.
  intros Hd Hnone Hrun.
  assert (yaml_config d = None) as Hyaml.
  { unfold yaml_config. by destruct Hnone as [-> | ->]. }
  pose proof (wp_elim _ _ _ _ _ _ (setup_devices_run entry hass d Hd) Hrun) as Hspec.
  cbn zeta in Hspec. unfold config_in_force in Hspec. rewrite Hyaml in Hspec.
  destruct r as [found|e].
  - destruct Hspec as (static & discovered & w1 & Hstatic & _ & -> & _ & Hentries & _ & _ & Hcalls).
    split_and!; [done | |].
    + eexists. split; [done|]. intros id conf. cbn [app fst snd]. unfold debug_found.
      rewrite elem_of_app. intros [Hin|Hin]; repeat case_match;
        repeat (apply elem_of_cons in Hin as [?|Hin]; [done|]); by apply elem_of_nil in Hin.
    + intros ? [= <-]. by eauto.
  - destruct Hspec as (Hentries & _ & Hcalls & _).
    split_and!; [done | | by intros ? [=]].
    exists []. split; [done|]. intros ? ? []%elem_of_nil.
Qed.

(** X4. When the configuration in force turns discovery off, the devices
    found are the static devices of that configuration and no others:
    [async_discover_devices] is not awaited, and the network is as the
    reading of the static devices left it. *)
Theorem discovery_disabled_finds_static_devices entry hass d conf found hass1 :
  hass_data hass = Some d →
  config_in_force d entry = Some conf →
  conf_discovery conf = Some false →
  setup_devices get_static_devices async_discover_devices entry hass = (Return found, hass1) →
  ∃ static,
    get_static_devices conf (world hass) = (Return static, world hass1)
    ∧ found = (lights static, switches static).
Proof.
  intros Hd Hconf Hdisc Hrun.
  pose proof (wp_elim _ _ _ _ _ _ (setup_devices_run entry hass d Hd) Hrun) as Hspec.
  cbn zeta in Hspec. rewrite Hconf in Hspec. cbn [discovery_enabled] in Hspec.
  rewrite Hdisc in Hspec.
  destruct Hspec as (static & discovered & w1 & Hstatic & [-> ->] & -> & _).
  exists static. cbn. by rewrite !app_nil_r.
Qed.

(** X5. When the configuration in force has discovery on,
    [async_discover_devices] is awaited after the static devices are read,
    with those static devices and with the number of device-registry
    records of the entry; the devices it finds come after the static ones.
    If this part of the setup raises, reading the static devices raised or
    the discovery did, with that exception. *)
Theorem discovery_follows_static_devices entry hass d conf r hass1 :
  hass_data hass = Some d →
  config_in_force d entry = Some conf →
  conf_discovery conf = Some true →
  setup_devices get_static_devices async_discover_devices entry hass = (r, hass1) →
  let device_count :=
    length (dr.async_entries_for_config_entry (device_registry hass) (entry_id entry)) in
  match r with
  | Return found =>
      ∃ static discovered w1,
        get_static_devices conf (world hass) = (Return static, w1)
        ∧ async_discover_devices static device_count w1 = (Return discovered, world hass1)
        ∧ found = (lights static ++ lights discovered, switches static ++ switches discovered)
  | Raise e =>
      get_static_devices conf (world hass) = (Raise e, world hass1)
      ∨ ∃ static w1,
          get_static_devices conf (world hass) = (Return static, w1)
          ∧ async_discover_devices static device_count w1 = (Raise e, world hass1)
  end.
Proof.
  intros Hd Hconf Hdisc Hrun.
  pose proof (wp_elim _ _ _ _ _ _ (setup_devices_run entry hass d Hd) Hrun) as Hspec.
  cbn zeta in Hspec. rewrite Hconf in Hspec. cbn [discovery_enabled] in Hspec.
  rewrite Hdisc in Hspec. cbn zeta.
  destruct r as [found|e].
  - destruct Hspec as (static & discovered & w1 & Hstatic & Hdiscovered & -> & _).
    by exists static, discovered, w1.
  - destruct Hspec as (_ & _ & _ & _ & [(? & [= <-] & ?)|[(static & w1 & ? & _ & ?)|
      (? & _ & [=] & _)]]); [by left|right; by eauto].
Qed.

(** X6. With no configuration at all, no YAML configuration and an entry
    whose data is empty, the devices found are the discovered ones:
    [async_discover_devices] is awaited with an empty [SmartDevices] and
    the number of device-registry records of the entry, on the network as
    it was; an exception of the discovery is the exception of the setup;
    and the config entries stay as they were. *)
Theorem no_configuration_discovers_devices entry hass d r hass1 :
  hass_data hass = Some d →
  config_in_force d entry = None →
  setup_devices get_static_devices async_discover_devices entry hass = (r, hass1) →
  let device_count :=
    length (dr.async_entries_for_config_entry (device_registry hass) (entry_id entry)) in
  entries hass1 = entries hass
  ∧ match r with
    | Return found =>
        ∃ discovered,
          async_discover_devices SmartDevices__init__ device_count (world hass)
            = (Return discovered, world hass1)
          ∧ found = (lights discovered, switches discovered)
    | Raise e =>
        async_discover_devices SmartDevices__init__ device_count (world hass)
          = (Raise e, world hass1)
    end.
Proof.
  intros Hd Hconf Hrun.
  pose proof (wp_elim _ _ _ _ _ _ (setup_devices_run entry hass d Hd) Hrun) as Hspec.
  cbn zeta in Hspec. rewrite Hconf in Hspec. cbn [discovery_enabled] in Hspec.
  assert (yaml_config d = None) as Hyaml.
  { unfold config_in_force in Hconf. by destruct (yaml_config d). }
  rewrite Hyaml in Hspec. cbn zeta.
  destruct r as [found|e].
  - destruct Hspec as (static & discovered & w1 & [-> ->] & Hdiscovered & -> & _ & Hentries & _).
    split; [done|]. by exists discovered.
  - by destruct Hspec as (Hentries & _ & _ & _ & [(? & [=] & _)|[(static & w1 & [-> ->] & _ & Hraise)|
      (? & [] & _)]]).
Qed.



Lemma async_setup_entry_KeyError entry hass :
  hass_data hass = None →
  async_setup_entry get_static_devices async_discover_devices async_refresh entry hass
    = (Raise (KeyError DOMAIN), hass).
Proof.
  intros Hd. unfold async_setup_entry, setup_devices, domain_data, mbind, M_bind. by rewrite Hd.
Qed.


Lemma not_setup_platforms_loop_event evs id platforms :
  Forall loop_event evs → SetupPlatforms id platforms ∉ evs.
Proof. rewrite Forall_forall. intros Hevs Hin. by apply Hevs in Hin. Qed.

Lemma not_setup_platforms_debug_found fmt (devices : list (SmartDevice (float := float))) id platforms :
  SetupPlatforms id platforms ∉ debug_found fmt devices.
Proof.
  unfold debug_found. destruct devices; [by intros ?%elem_of_nil|].
  by intros [=]%list_elem_of_singleton.
Qed.

(** X8. When [async_setup_entry] raises, the host has not been asked to
    set the platforms up. Either the exception is that of lines 86-131, or
    the devices were found and the loop over them stopped at a refresh:
    the devices refreshed are then the first [k] of switches followed by
    lights, for a [k] of at least one, and those after them have not been
    refreshed. *)
Theorem async_setup_entry_raises entry hass e hass' :
  async_setup_entry get_static_devices async_discover_devices async_refresh entry hass
    = (Raise e, hass') →
  (∃ evs, calls hass' = calls hass ++ evs ∧ ∀ id platforms, SetupPlatforms id platforms ∉ evs)
  ∧ match setup_devices get_static_devices async_discover_devices entry hass with
    | (Raise e1, hass1) => e = e1 ∧ hass' = hass1
    | (Return (found_lights, found_switches), hass1) =>
        ∃ evs k, calls hass' = calls hass1 ++ evs
          ∧ Forall loop_event evs
          ∧ 0 < k ≤ length (found_switches ++ found_lights)
          ∧ refreshed_devices evs = device_id <$> take k (found_switches ++ found_lights)
    end.
Proof.
  intros Hrun.
  destruct (hass_data hass) as [d|] eqn:Hd.
  2:{ rewrite (async_setup_entry_KeyError entry hass Hd) in Hrun.
      injection Hrun as <- <-. split.
      - exists []. rewrite app_nil_r. split; [done|]. by intros ? ? ?%elem_of_nil.
      - unfold setup_devices, domain_data, mbind, M_bind. by rewrite Hd. }
  destruct (async_setup_entry_run _ _ _ _ Hrun) as (r1 & hass1 & Hsetup & Hrest).
  pose proof (wp_elim _ _ _ _ _ _ (setup_devices_run entry hass d Hd) Hsetup) as Hspec.
  cbn zeta in Hspec. rewrite Hsetup.
  destruct r1 as [[found_lights found_switches]|e1].
  - destruct Hspec as (static & discovered & w1 & _ & _ & _ & Hd1 & _ & _ & _ & Hcalls1).
    rewrite Hd1 in Hrest.
    destruct Hrest as (_ & _ & cs & evs & k & _ & Hloop & Hrefreshed & Hk & Hcalls).
    split; [|by exists evs, k].
    eexists. split; [by rewrite Hcalls, Hcalls1, <- !app_assoc|].
    intros id platforms. rewrite !elem_of_app.
    intros [Hin|[Hin|[Hin|Hin]]].
    + by destruct (yaml_config d); [apply list_elem_of_singleton in Hin|apply elem_of_nil in Hin].
    + by eapply not_setup_platforms_debug_found.
    + by eapply not_setup_platforms_debug_found.
    + by eapply not_setup_platforms_loop_event.
  - destruct Hrest as [[= ->] ->]. destruct Hspec as (_ & _ & Hcalls & _).
    split; [|done]. eexists. split; [done|]. intros id platforms Hin.
    by destruct (yaml_config d); [apply list_elem_of_singleton in Hin|apply elem_of_nil in Hin].
Qed.

(** X16. When [async_setup_entry] returns, the calls it has made into the
    host are, in this order: [async_update_entry] if there is a YAML
    configuration; a debug message about the lights if any were found, then
    one about the switches if any were found, each with the number of
    devices and their hosts; the calls of the loop; and
    [async_setup_platforms] last. The calls of the loop are those of the
    reference loop: for every device, switches first, the refresh of its
    coordinator, on the network as the refresh before it left it, followed
    by one warning that names the device's host exactly if that refresh
    raised, which it did with a [SmartDeviceException], and by nothing
    otherwise. The device registry is as it was, and the config entries
    are as they were but for the entry updated. *)
Theorem async_setup_entry_calls entry hass d b hass' :
  hass_data hass = Some d →
  async_setup_entry get_static_devices async_discover_devices async_refresh entry hass
    = (Return b, hass') →
  ∃ found_lights found_switches hass1 coordinators evs,
    setup_devices get_static_devices async_discover_devices entry hass
      = (Return (found_lights, found_switches), hass1)
    ∧ calls hass' =
        calls hass
        ++ match yaml_config d with
           | Some conf => [UpdateEntry (entry_id entry) conf]
           | None => []
           end
        ++ debug_found "Got %s lights: %s" found_lights
        ++ debug_found "Got %s switches: %s" found_switches
        ++ evs ++ [SetupPlatforms (entry_id entry) PLATFORMS]
    ∧ refresh_in_order async_refresh (found_switches ++ found_lights) ∅ (world hass1)
        = (None, (coordinators, evs, world hass'))
    ∧ (∀ pre dev post,
         found_switches ++ found_lights = pre ++ dev :: post →
         ∃ cs_pre evs_pre w r c w' evs_post,
           refresh_in_order async_refresh pre ∅ (world hass1) = (None, (cs_pre, evs_pre, w))
           ∧ async_refresh (TPLinkDataUpdateCoordinator__init__ dev) w = ((r, c), w')
           ∧ (∀ e, r = Raise e → ∃ msg, e = SmartDeviceException msg)
           ∧ evs = evs_pre
                     ++ AsyncRefresh (device_id dev)
                          :: (if r is Raise _
                              then [LogWarning WARN_NOT_REACHABLE (host (device c))]
                              else [])
                     ++ evs_post
           ∧ refreshed_devices evs_pre = device_id <$> pre
           ∧ refreshed_devices evs_post = device_id <$> post)
    ∧ Forall loop_event evs
    ∧ refreshed_devices evs = device_id <$> found_switches ++ found_lights
    ∧ device_registry hass' = device_registry hass
    ∧ entries hass' =
        match yaml_config d with
        | Some conf => <[entry_id entry := {| entry_id := entry_id entry; data := Some conf |}]>
                         (entries hass)
        | None => entries hass
        end.
Proof.
  intros Hd Hrun.
  destruct (setup_devices get_static_devices async_discover_devices entry hass)
    as [[[found_lights found_switches]|e] hass1] eqn:Hsetup.
  2:{ unfold async_setup_entry, mbind, M_bind in Hrun. by rewrite Hsetup in Hrun. }
  pose proof (wp_elim _ _ _ _ _ _ (setup_devices_run entry hass d Hd) Hsetup) as Hspec.
  cbn zeta in Hspec.
  destruct Hspec as (static & discovered & w1 & _ & _ & Hfound & Hd1 & Hentries1 & Hreg1 & _ & Hcalls1).
  rewrite (async_setup_entry_exact _ _ _ _ _ _ Hsetup Hd1) in Hrun.
  destruct (refresh_in_order _ _ _ _) as [[e|] [[cs evs] w]] eqn:Hloop; [done|].
  injection Hrun as _ <-. cbn [calls world entries device_registry].
  destruct (refresh_in_order_None _ _ _ _ _ _ Hloop) as (Hrefreshed & Hevs & _).
  exists found_lights, found_switches, hass1, cs, evs.
  split_and!; [done | | done | | done | done | done | done].
  - by rewrite Hcalls1, <- !app_assoc.
  - intros pre dev post Hdevices. rewrite Hdevices in Hloop.
    destruct (refresh_in_order_at _ _ _ _ _ _ _ _ Hloop)
      as (cs_pre & evs_pre & w0 & r & c & w2 & evs_post
          & Hpre & Hdev & Hexn & Hevs' & _ & Hpost & _).
    destruct (refresh_in_order_None _ _ _ _ _ _ Hpre) as (Hrefreshed_pre & _ & _).
    by exists cs_pre, evs_pre, w0, r, c, w2, evs_post.
Qed.

(** The coordinator of a device with no device of the same id after it. *)
Lemma for_in_prepare_coordinator_last pre dev post : ∀ coordinators hass d coordinators' hass',
  hass_data hass = Some d →
  d !! COORDINATORS = Some (VCoordinators coordinators) →
  for_in (pre ++ dev :: post) (prepare_coordinator async_refresh) coordinators hass
    = (Return coordinators', hass') →
  device_id dev ∉ device_id <$> post →
  ∃ c, coordinators' !! device_id dev = Some c ∧ coordinator_of async_refresh dev c.
Proof.
  induction pre as [|dev0 pre IH]; intros coordinators hass d coordinators' hass' Hd Hcoords Hrun Hpost.
  - cbn [app for_in] in Hrun. unfold mbind, M_bind in Hrun.
    destruct (async_refresh (TPLinkDataUpdateCoordinator__init__ dev) (world hass))
      as [[r0 c] w'] eqn:Hrefresh.
    rewrite (prepare_coordinator_run dev coordinators hass d r0 c w' Hd Hrefresh) in Hrun.
    cbn zeta in Hrun. exists c. split; [|by exists (world hass), r0, w'].
    assert (∀ evs0,
      for_in post (prepare_coordinator async_refresh) (<[device_id dev := c]> coordinators)
        {| hass_data := Some (<[COORDINATORS := VCoordinators (<[device_id dev := c]> coordinators)]> d);
           entries := entries hass; device_registry := device_registry hass;
           world := w'; calls := calls hass ++ AsyncRefresh (device_id dev) :: evs0 |}
        = (Return coordinators', hass') →
      coordinators' !! device_id dev = Some c) as Hnext.
    { intros evs0 Hrest.
      match type of Hrest with
      | for_in _ _ _ ?h = _ =>
          pose proof (for_in_prepare_coordinator post _ h _ eq_refl
                        (lookup_insert_eq _ _ _)) as Hloop
      end.
      rewrite Hrest in Hloop. destruct Hloop as (_ & Hother & _).
      by rewrite (Hother _ Hpost), lookup_insert_eq. }
    destruct r0 as [[]|[msg|cause|key|cls]]; try done; by eapply Hnext.
  - cbn [app for_in] in Hrun. unfold mbind, M_bind in Hrun.
    destruct (async_refresh (TPLinkDataUpdateCoordinator__init__ dev0) (world hass))
      as [[r0 c] w'] eqn:Hrefresh.
    rewrite (prepare_coordinator_run dev0 coordinators hass d r0 c w' Hd Hrefresh) in Hrun.
    cbn zeta in Hrun.
    destruct r0 as [[]|[msg|cause|key|cls]]; try done;
      (eapply IH; [| |exact Hrun|done]; [reflexivity|apply lookup_insert_eq]).
Qed.

(** X9. When two devices found have the same device id, the coordinator
    under that id is the one of the device that comes last in switches
    followed by lights: for a device with no device of the same id after
    it, the coordinator in the dict is the one made for it. *)
Theorem last_device_with_id_wins entry hass b hass' found_lights found_switches hass1
    pre dev post :
  async_setup_entry get_static_devices async_discover_devices async_refresh entry hass
    = (Return b, hass') →
  setup_devices get_static_devices async_discover_devices entry hass
    = (Return (found_lights, found_switches), hass1) →
  found_switches ++ found_lights = pre ++ dev :: post →
  device_id dev ∉ device_id <$> post →
  ∃ d' coordinators c,
    hass_data hass' = Some d'
    ∧ d' !! COORDINATORS = Some (VCoordinators coordinators)
    ∧ coordinators !! device_id dev = Some c
    ∧ coordinator_of async_refresh dev c.
Proof.
  unfold async_setup_entry, mbind, M_bind. intros Hrun Hsetup Hdevs Hpost.
  rewrite Hsetup in Hrun. unfold prepare_coordinators, mbind, M_bind in Hrun.
  destruct (hass_data hass1) as [d1|] eqn:Hd1.
  2:{ unfold domain_data_set, domain_data, mbind, M_bind in Hrun. by rewrite Hd1 in Hrun. }
  rewrite (domain_data_set_Some _ _ _ _ Hd1), Hdevs in Hrun.
  destruct (for_in _ _ _ _) as [[coordinators|e] hass2] eqn:Hloop; [|done].
  unfold emit, modify, mret, M_ret in Hrun. injection Hrun as _ <-. hass_simpl.
  pose proof Hloop as Hframe.
  eapply for_in_prepare_coordinator_frame in Hframe
    as (_ & _ & (cs & Hdata & Hcs) & _); [|reflexivity|apply lookup_insert_eq].
  rewrite <- (Hcs coordinators eq_refl) in Hdata.
  eapply for_in_prepare_coordinator_last in Hloop as (c & Hc & Hof);
    [|reflexivity|apply lookup_insert_eq|done].
  eexists _, coordinators, c. split_and!; [done | by rewrite lookup_insert_eq | done | done].
Qed.

(** [async_unload_entry], case by case. *)
Lemma async_unload_entry_run entry hass r hass' :
  async_unload_entry async_unload_platforms entry hass = (r, hass') →
  entries hass' = entries hass ∧ device_registry hass' = device_registry hass
  ∧ calls hass' = calls hass ++ [UnloadPlatforms (entry_id entry) PLATFORMS]
  ∧ match async_unload_platforms entry PLATFORMS (world hass) with
    | (Raise e, w') => r = Raise e ∧ world hass' = w' ∧ hass_data hass' = hass_data hass
    | (Return unload_ok, w') =>
        world hass' = w'
        ∧ match hass_data hass with
          | None => r = Raise (KeyError DOMAIN) ∧ hass_data hass' = None
          | Some d => r = Return unload_ok ∧ hass_data hass' = Some (if unload_ok then ∅ else d)
          end
    end.
Proof.
  unfold async_unload_entry, emit, await, domain_data, mbind, M_bind, modify, mret, M_ret.
  hass_simpl.
  destruct (async_unload_platforms entry PLATFORMS (world hass)) as [[unload_ok|e] w'].
  - hass_simpl. destruct (hass_data hass) as [d|] eqn:Hd.
    + destruct unload_ok; intros [= <- <-]; hass_simpl; by rewrite ?Hd.
    + intros [= <- <-]. hass_simpl. by rewrite ?Hd.
  - intros [= <- <-]. by hass_simpl.
Qed.

(** X10. When [async_unload_entry] raises, [hass.data[DOMAIN]] and the
    config entries are as they were and the host has been asked to unload
    the platforms. Either the host's unload raised that exception, or the
    host answered and [hass.data[DOMAIN]] was missing, and the exception is
    the [KeyError] of line 158. *)
Theorem async_unload_entry_raises entry hass e hass' :
  async_unload_entry async_unload_platforms entry hass = (Raise e, hass') →
  hass_data hass' = hass_data hass
  ∧ entries hass' = entries hass
  ∧ calls hass' = calls hass ++ [UnloadPlatforms (entry_id entry) PLATFORMS]
  ∧ (async_unload_platforms entry PLATFORMS (world hass) = (Raise e, world hass')
     ∨ (hass_data hass = None ∧ e = KeyError DOMAIN
        ∧ ∃ unload_ok,
            async_unload_platforms entry PLATFORMS (world hass) = (Return unload_ok, world hass'))).
Proof.
  intros Hrun. destruct (async_unload_entry_run _ _ _ _ Hrun) as (Hentries & _ & Hcalls & Hcases).
  destruct (async_unload_platforms entry PLATFORMS (world hass)) as [[unload_ok|e'] w'].
  - destruct Hcases as [<- Hdata]. destruct (hass_data hass) as [d|]; [by destruct Hdata|].
    destruct Hdata as [[= ->] ->]. split_and!; [done..|]. right. by eauto.
  - destruct Hcases as ([= ->] & <- & ->). split_and!; [done..|]. by left.
Qed.

(** X11. Set up with a YAML configuration, unloaded with the host
    answering [True], and set up again without [async_setup] in between:
    [hass.data[DOMAIN]] is empty after the unload, YAML configuration
    included, the entry in the host's store holds the configuration the
    first setup wrote into it, and the second setup, given that entry,
    reads its static devices from that configuration and leaves the config
    entries alone. *)
Theorem reload_reads_config_from_entry entry hass d conf b hass1 hass2 entry' r hass3 :
  hass_data hass = Some d →
  d !! ATTR_CONFIG = Some (VConfig (Some conf)) →
  async_setup_entry get_static_devices async_discover_devices async_refresh entry hass
    = (Return b, hass1) →
  async_unload_entry async_unload_platforms entry hass1 = (Return true, hass2) →
  entries hass2 !! entry_id entry = Some entry' →
  setup_devices get_static_devices async_discover_devices entry' hass2 = (r, hass3) →
  hass_data hass2 = Some ∅
  ∧ entry' = {| entry_id := entry_id entry; data := Some conf |}
  ∧ entries hass3 = entries hass2
  ∧ ∀ found, r = Return found →
      ∃ static discovered w1,
        get_static_devices conf (world hass2) = (Return static, w1)
        ∧ found = (lights static ++ lights discovered, switches static ++ switches discovered).
Proof.
  intros Hd Hconf%yaml_config_Some Hrun1 Hrun2 Hentry Hrun3.
  destruct (async_setup_entry_run _ _ _ _ Hrun1) as (r1 & hass0 & Hsetup & Hrest).
  pose proof (wp_elim _ _ _ _ _ _ (setup_devices_run entry hass d Hd) Hsetup) as Hspec.
  cbn zeta in Hspec. rewrite Hconf in Hspec.
  destruct r1 as [[found_lights found_switches]|e]; [|by destruct Hrest].
  destruct Hspec as (static0 & discovered0 & w0 & _ & _ & _ & Hd0 & Hentries0 & _).
  rewrite Hd0 in Hrest. destruct Hrest as (Hentries1 & _ & cs & evs & k & Hd1 & _).
  destruct (async_unload_entry_run _ _ _ _ Hrun2) as (Hentries2 & _ & _ & Hcases).
  destruct (async_unload_platforms entry PLATFORMS (world hass1)) as [[unload_ok|e] w'];
    [|by destruct Hcases].
  destruct Hcases as [_ Hcases]. rewrite Hd1 in Hcases. destruct Hcases as [[= <-] Hd2].
  rewrite Hentries2, Hentries1, Hentries0, lookup_insert_eq in Hentry. injection Hentry as <-.
  pose proof (wp_elim _ _ _ _ _ _ (setup_devices_run _ hass2 ∅ Hd2) Hrun3) as Hspec.
  cbn zeta in Hspec. unfold config_in_force, yaml_config in Hspec.
  rewrite lookup_empty in Hspec. cbn [data] in Hspec.
  split_and!; [done | done | |].
  - destruct r; [destruct Hspec as (? & ? & ? & _ & _ & _ & _ & ? & _)|destruct Hspec as [? _]]; done.
  - intros found ->. destruct Hspec as (static & discovered & w1 & Hstatic & _ & -> & _). by eauto.
Qed.

(** X17. When the configuration in force, an entry's data or a YAML
    configuration, has no [CONF_DISCOVERY] and reading the static devices
    goes through, [async_setup_entry] raises the [KeyError] of line 113. By
    then the entry is updated if the configuration is the YAML one, and
    the static devices are in [hass.data[DOMAIN]]; nothing is discovered,
    no coordinator is made, no device is refreshed and no platform is set
    up. *)
Theorem missing_discovery_key_raises entry hass d conf static w1 :
  hass_data hass = Some d →
  config_in_force d entry = Some conf →
  conf_discovery conf = None →
  get_static_devices conf (world hass) = (Return static, w1) →
  ∃ hass',
    async_setup_entry get_static_devices async_discover_devices async_refresh entry hass
      = (Raise (KeyError CONF_DISCOVERY), hass')
    ∧ world hass' = w1
    ∧ calls hass' =
        calls hass ++ match yaml_config d with
                      | Some conf => [UpdateEntry (entry_id entry) conf]
                      | None => []
                      end
    ∧ hass_data hass' =
        Some (<[CONF_SWITCH := VDevices (switches static)]>
             (<[CONF_LIGHT := VDevices (lights static)]>
             (<[UNAVAILABLE_DEVICES := VDevices []]>
             (<[CONF_SWITCH := VDevices []]>
             (<[CONF_LIGHT := VDevices []]> d))))).
Proof.
  intros Hd Hconf Hkey Hstatic.
  destruct (setup_devices get_static_devices async_discover_devices entry hass)
    as [r hass1] eqn:Hsetup.
  pose proof (wp_elim _ _ _ _ _ _ (setup_devices_run entry hass d Hd) Hsetup) as Hspec.
  cbn zeta in Hspec. rewrite Hconf in Hspec. cbn [discovery_enabled] in Hspec.
  rewrite Hkey in Hspec.
  destruct r as [found|e].
  { by destruct Hspec as (? & ? & ? & _ & [] & _). }
  destruct Hspec as (_ & _ & Hcalls & _ & Hcause).
  destruct Hcause as [(conf' & [= <-] & Hraise)|[(? & ? & _ & [=] & _)|
    (static' & Hstatic' & _ & -> & Hdata)]].
  { by rewrite Hstatic in Hraise. }
  rewrite Hstatic in Hstatic'. injection Hstatic' as <- Hw.
  exists hass1. split_and!; [|done|done|].
  - unfold async_setup_entry, mbind, M_bind. by rewrite Hsetup.
  - rewrite Hdata. unfold found_data. cbn [discovery_enabled]. by rewrite Hkey.
Qed.

(** ** From [async_setup] to [async_setup_entry] *)

(** X1. [async_setup] returns [True] from any state, and does not raise:
    whatever [hass.data[DOMAIN]] held or did not hold, it then holds the
    one key [ATTR_CONFIG] with the integration's part of the YAML
    configuration, [None] when there is none; the import flow is started
    exactly when there is such a part; the config entries, the registry
    and the network are left alone. In the setup of an entry that follows,
    lines 86-131 write that part into the entry first, if there is one, and
    read the static devices from it, or else from the entry's data. If
    that setup raises, then reading the static devices, the discovery or a
    refresh raised that exception, the refresh one that is not a
    [SmartDeviceException], or the configuration it took, the YAML part or
    else the entry's data, has no [CONF_DISCOVERY] and the exception is the
    [KeyError] of line 113; it is never the [KeyError] of
    [hass.data[DOMAIN]]. *)
Theorem async_setup_prepares_domain_data config hass :
  ∃ hass0,
    async_setup config hass = (Return true, hass0)
    ∧ hass_data hass0 = Some {[ATTR_CONFIG := VConfig (config !! DOMAIN)]}
    ∧ entries hass0 = entries hass
    ∧ device_registry hass0 = device_registry hass
    ∧ world hass0 = world hass
    ∧ calls hass0 =
        calls hass ++ (if config !! DOMAIN is Some _ then [FlowInit DOMAIN SOURCE_IMPORT] else [])
    ∧ (∀ entry r hass1,
         setup_devices get_static_devices async_discover_devices entry hass0 = (r, hass1) →
         (∃ evs,
            calls hass1 =
              calls hass0
              ++ match config !! DOMAIN with
                 | Some conf => [UpdateEntry (entry_id entry) conf]
                 | None => []
                 end
              ++ evs)
         ∧ ∀ found, r = Return found →
             ∃ static discovered w1,
               match match config !! DOMAIN with Some conf => Some conf | None => data entry end
               with
               | Some conf => get_static_devices conf (world hass) = (Return static, w1)
               | None => static = SmartDevices__init__ ∧ w1 = world hass
               end
               ∧ found =
                   (lights static ++ lights discovered, switches static ++ switches discovered))
    ∧ ∀ entry e hass',
        async_setup_entry get_static_devices async_discover_devices async_refresh entry hass0
          = (Raise e, hass') →
        (∃ conf w w', get_static_devices conf w = (Raise e, w'))
        ∨ (∃ static n w w', async_discover_devices static n w = (Raise e, w'))
        ∨ (∃ c w c' w', async_refresh c w = ((Raise e, c'), w')
             ∧ ∀ msg, e ≠ SmartDeviceException msg)
        ∨ (e = KeyError CONF_DISCOVERY
           ∧ ∃ conf,
               match config !! DOMAIN with Some conf => Some conf | None => data entry end
                 = Some conf
               ∧ conf_discovery conf = None).
Proof.
  set (hass0 := {| hass_data := Some {[ATTR_CONFIG := VConfig (float := float) (config !! DOMAIN)]};
                   entries := entries hass; device_registry := device_registry hass;
                   world := world hass;
                   calls := calls hass ++ (if config !! DOMAIN is Some _
                                           then [FlowInit DOMAIN SOURCE_IMPORT] else []) |}).
  assert (Hrun0 : ∀ entry r hass1,
    setup_devices get_static_devices async_discover_devices entry hass0 = (r, hass1) →
    let config_data := match config !! DOMAIN with Some conf => Some conf | None => data entry end in
    match r with
    | Return found =>
        ∃ static discovered w1,
          match config_data with
          | Some conf => get_static_devices conf (world hass) = (Return static, w1)
          | None => static = SmartDevices__init__ ∧ w1 = world hass
          end
          ∧ found = (lights static ++ lights discovered, switches static ++ switches discovered)
          ∧ ∃ evs, calls hass1 =
              calls hass0
              ++ match config !! DOMAIN with
                 | Some conf => [UpdateEntry (entry_id entry) conf]
                 | None => []
                 end ++ evs
    | Raise e =>
        calls hass1 =
          calls hass0
          ++ match config !! DOMAIN with
             | Some conf => [UpdateEntry (entry_id entry) conf]
             | None => []
             end
        ∧ ((∃ conf w w', get_static_devices conf w = (Raise e, w'))
           ∨ (∃ static n w w', async_discover_devices static n w = (Raise e, w'))
           ∨ (e = KeyError CONF_DISCOVERY
              ∧ ∃ conf, config_data = Some conf ∧ conf_discovery conf = None))
    end).
  { intros entry r hass1 Hrun.
    pose proof (wp_elim _ _ _ _ _ _ (setup_devices_run entry hass0 _ eq_refl) Hrun) as Hspec.
    cbn zeta in Hspec. unfold config_in_force, yaml_config in Hspec.
    rewrite lookup_singleton_eq in Hspec. cbn zeta.
    set (config_data := match config !! DOMAIN with Some c => Some c | None => data entry end) in *.
    destruct r as [found|e].
    - destruct Hspec as (static & discovered & w1 & Hstatic & _ & -> & _ & _ & _ & _ & Hcalls).
      exists static, discovered, w1. split_and!; [done | done |]. by eauto.
    - destruct Hspec as (_ & _ & Hcalls & _ & Hcause). split; [done|].
      destruct Hcause as [(conf & _ & ?)|[(static & w1 & _ & _ & ?)|(static & Hstatic & Hkey & -> & _)]].
      + left. by eauto.
      + right. left. by eauto 10.
      + right. right. split; [done|].
        destruct config_data as [conf|]; [|done]. by exists conf. }
  exists hass0. split_and!; try done.
  - unfold hass0, async_setup, domain_data_set, domain_data, emit, mbind, M_bind, modify,
      mret, M_ret.
    hass_simpl. rewrite insert_empty.
    destruct (config !! DOMAIN); hass_simpl; [done|by rewrite app_nil_r].
  - intros entry r hass1 Hrun. specialize (Hrun0 _ _ _ Hrun). cbn zeta in Hrun0.
    destruct r as [found|e].
    + destruct Hrun0 as (static & discovered & w1 & Hstatic & -> & Hcalls).
      split; [done|]. intros ? [= <-]. by eauto.
    + destruct Hrun0 as [Hcalls _]. split; [|by intros ? [=]].
      exists []. by rewrite app_nil_r.
  - intros entry e hass' Hrun.
    destruct (setup_devices get_static_devices async_discover_devices entry hass0)
      as [[[found_lights found_switches]|e1] hass1] eqn:Hsetup.
    + pose proof (wp_elim _ _ _ _ _ _ (setup_devices_spec entry hass0) Hsetup) as [[d1 Hd1] _].
      rewrite (async_setup_entry_exact _ _ _ _ _ _ Hsetup Hd1) in Hrun.
      destruct (refresh_in_order _ _ _ _) as [[e2|] rest] eqn:Hloop;
        destruct rest as [[cs evs] w]; [|done].
      injection Hrun as <- _.
      destruct (refresh_in_order_Some _ _ _ _ _ Hloop) as (dev & w0 & c & w1 & _ & ? & ?).
      right. right. left. by eauto 10.
    + unfold async_setup_entry, mbind, M_bind in Hrun. rewrite Hsetup in Hrun.
      injection Hrun as <- _.
      destruct (Hrun0 _ _ _ Hsetup) as [_ [?|[?|?]]]; auto.
Qed.

End SetupProperties.

(** * Properties of the migration *)

Section MigrationProperties.

Import migration.

Lemma entry_is_legacy_spec entry :
  entry_is_legacy entry = true ↔ unique_id entry = Some DOMAIN ∧ conf_host entry = None.
Proof.
  unfold entry_is_legacy. rewrite andb_true_iff, !bool_decide_eq_true. done.
Qed.


Lemma device_entry_not_legacy entries dev : entry_is_legacy (device_entry entries dev) = false.
Proof. unfold entry_is_legacy. cbn. by rewrite andb_false_r. Qed.

Lemma ensure_entries_spec devices : ∀ entries,
  ∃ new, foldl ensure_entry entries devices = entries ++ new
    ∧ Forall (λ entry, ∃ dev, dev ∈ devices ∧ unique_id entry = Some (mac dev)
                ∧ conf_host entry = Some (ip_address dev)) new
    ∧ (NoDup (entry_id <$> entries) → NoDup (entry_id <$> entries ++ new))
    ∧ (∀ dev, dev ∈ devices → is_Some (entry_for_mac (entries ++ new) (mac dev))).
Proof.
  induction devices as [|dev devices IH]; intros entries.
  { exists []. rewrite app_nil_r. split_and!; [done | done | done | by intros ? ?%elem_of_nil]. }
  cbn [foldl]. destruct (IH (ensure_entry entries dev)) as (new & -> & Hnew & Hnodup & Hfor).
  assert (∃ new0, ensure_entry entries dev = entries ++ new0
    ∧ Forall (λ entry, unique_id entry = Some (mac dev) ∧ conf_host entry = Some (ip_address dev)) new0
    ∧ (NoDup (entry_id <$> entries) → NoDup (entry_id <$> entries ++ new0))
    ∧ is_Some (entry_for_mac (entries ++ new0) (mac dev))) as (new0 & Heq & Hnew0 & Hnodup0 & Hfor0).
  { unfold ensure_entry. destruct (entry_for_mac entries (mac dev)) as [entry|] eqn:Hfind.
    - exists []. rewrite app_nil_r, Hfind. by eauto.
    - exists [device_entry entries dev]. split_and!; [done | by repeat constructor | |].
      + intros Hnd. rewrite fmap_app. apply NoDup_app. split_and!; [done | | apply NoDup_singleton].
        intros x Hx ->%list_elem_of_singleton. by apply infinite_is_fresh in Hx.
      + unfold entry_for_mac in *. rewrite (find_app_None _ _ _ Hfind). cbn.
        rewrite bool_decide_true by done. rewrite device_entry_not_legacy. by eauto. }
  rewrite Heq in *. exists (new0 ++ new). rewrite !app_assoc. split_and!; [done | | by auto |].
  - apply Forall_app. split.
    + eapply Forall_impl; [done|]. intros entry [? ?]. exists dev. split_and!; [left|done|done].
    + eapply Forall_impl; [done|]. intros entry (dev' & ? & ?). exists dev'. split; [by right|done].
  - intros dev' [->|Hdev']%elem_of_cons; [|by auto].
    destruct Hfor0 as [entry Hentry]. exists entry. by apply find_app_Some.
Qed.

Lemma legacy_entry_Some hass legacy :
  legacy_entry hass = Some legacy →
  legacy ∈ config_entries hass ∧ unique_id legacy = Some DOMAIN ∧ conf_host legacy = None.
Proof. intros [? ?%entry_is_legacy_spec]%find_Some_elem. done. Qed.


Lemma device_of_device_entry_Some devices record dev :
  device_of_device_entry devices record = Some dev →
  dev ∈ devices ∧ (dr.CONNECTION_NETWORK_MAC, mac dev) ∈ dr.connections record.
Proof. intros [? ?%bool_decide_eq_true]%find_Some_elem. done. Qed.




Section Cleanup.
Context (CLEANUP_DELAY : nat).


(** C2. An entity whose unique identifier is not the device-scoped
    identifier of a discovered device, because it is too short to hold a
    MAC address or because the address is no discovered device's, is the
    same record after the migration, at the same place of the registry; so
    it is still associated with the legacy entry if it was. *)
Theorem migration_ignores_other_entities devices hass i entity :
  entity_registry hass !! i = Some entity →
  device_of_entity devices entity = None →
  entity_registry (async_migrate CLEANUP_DELAY devices hass) !! i = Some entity
  ∧ er.config_entry_id <$> entity_registry (async_migrate CLEANUP_DELAY devices hass) !! i =
      Some (er.config_entry_id entity)
  ∧ length (entity_registry (async_migrate CLEANUP_DELAY devices hass)) =
      length (entity_registry hass).
Proof.
  intros Hi Hof.
  assert (entity_registry (async_migrate CLEANUP_DELAY devices hass) !! i = Some entity
    ∧ length (entity_registry (async_migrate CLEANUP_DELAY devices hass)) =
        length (entity_registry hass)) as [Hsame Hlength].
  { unfold async_migrate. destruct (legacy_entry hass) as [legacy|]; [|done].
    cbn. rewrite list_lookup_fmap, Hi, length_fmap. cbn. unfold migrate_entity.
    by rewrite Hof. }
  by rewrite Hsame.
Qed.


(** C3, amended. The migration leaves the legacy entry in the store and
    sets a timer. Until [CLEANUP_DELAY] seconds have passed the legacy
    entry is still there. Once they have, it is gone, and no entry of the
    store is a legacy entry, provided no entity was left associated with
    it; if an entity was, the legacy entry stays. The store is taken to
    have one legacy entry and no other timer pending. *)
Theorem cleanup_after_delay devices hass legacy t :
  legacy_entry hass = Some legacy →
  (∀ entry, entry ∈ config_entries hass → entry_is_legacy entry = true → entry = legacy) →
  timers hass = [] →
  let hass1 := async_migrate CLEANUP_DELAY devices hass in
  let hass2 := async_fire_time_changed t hass1 in
  ((t < now hass + CLEANUP_DELAY)%nat → legacy_entry hass2 = Some legacy)
  ∧ ((now hass + CLEANUP_DELAY ≤ t)%nat →
     er.async_entries_for_config_entry (entity_registry hass1) (entry_id legacy) = [] →
     legacy_entry hass2 = None
     ∧ ∀ entry, entry ∈ config_entries hass2 → entry_id entry ≠ entry_id legacy)
  ∧ ((now hass + CLEANUP_DELAY ≤ t)%nat →
     er.async_entries_for_config_entry (entity_registry hass1) (entry_id legacy) ≠ [] →
     legacy_entry hass2 = Some legacy).
Proof.
  intros Hlegacy Hsingle Htimers. cbn zeta.
  unfold async_migrate. rewrite Hlegacy, Htimers.
  destruct (ensure_entries_spec devices (config_entries hass)) as (new & Heq & Hnew & _ & _).
  set (entries := foldl ensure_entry (config_entries hass) devices) in *.
  assert (Hfind : find entry_is_legacy entries = Some legacy).
  { rewrite Heq. by apply find_app_Some. }
  unfold async_fire_time_changed.
  cbn [timers config_entries device_registry entity_registry now app filter list_filter fst].
  split_and!.
  - intros Ht. destruct (decide (now hass + CLEANUP_DELAY ≤ t)%nat); [lia|]. done.
  - intros Ht Hnone. destruct (decide (now hass + CLEANUP_DELAY ≤ t)%nat); [|lia]. cbn [fmap list_fmap foldl snd run_callback].
    unfold async_cleanup_legacy_entry. cbn [entity_registry]. rewrite Hnone.
    unfold legacy_entry. cbn [config_entries]. split.
    + destruct (find entry_is_legacy (filter _ _)) as [entry|] eqn:Hentry; [exfalso|done].
      apply find_Some_elem in Hentry as [[Hid Hin]%list_elem_of_filter Hl].
      rewrite Heq in Hin. apply elem_of_app in Hin as [Hin|Hin].
      * by rewrite (Hsingle entry Hin Hl) in Hid.
      * rewrite Forall_forall in Hnew. destruct (Hnew entry Hin) as (dev & _ & _ & Hhost).
        apply entry_is_legacy_spec in Hl as [_ Hl]. congruence.
    + by intros entry [Hid _]%list_elem_of_filter.
  - intros Ht Hsome. destruct (decide (now hass + CLEANUP_DELAY ≤ t)%nat); [|lia]. cbn [fmap list_fmap foldl snd run_callback].
    unfold async_cleanup_legacy_entry. cbn [entity_registry].
    destruct (er.async_entries_for_config_entry _ _); done.
Qed.

(** C6. An entry is the legacy entry exactly if its unique identifier is
    the integration domain and its data has no host, and so is the entry
    the migration starts from; every entry the migration adds to the store
    has the MAC address of a discovered device as unique identifier and
    that device's IP address as host, and so has the entry that first-time
    setup adds for a device. *)
Theorem config_entry_shapes devices hass :
  (∀ entry, entry_is_legacy entry = true ↔
     unique_id entry = Some DOMAIN ∧ conf_host entry = None)
  ∧ (∀ legacy, legacy_entry hass = Some legacy →
       legacy ∈ config_entries hass ∧ unique_id legacy = Some DOMAIN ∧ conf_host legacy = None)
  ∧ (∃ new, config_entries (async_migrate CLEANUP_DELAY devices hass) = config_entries hass ++ new
       ∧ Forall (λ entry, ∃ dev, dev ∈ devices ∧ unique_id entry = Some (mac dev)
                   ∧ conf_host entry = Some (ip_address dev)) new)
  ∧ (∀ dev, ∃ new, config_entries (setup_device dev hass) = config_entries hass ++ new
       ∧ Forall (λ entry, unique_id entry = Some (mac dev)
                   ∧ conf_host entry = Some (ip_address dev)) new).
Proof.
  split_and!.
  - apply entry_is_legacy_spec.
  - apply legacy_entry_Some.
  - unfold async_migrate. destruct (legacy_entry hass).
    + destruct (ensure_entries_spec devices (config_entries hass)) as (new & Heq & Hnew & _).
      by exists new.
    + exists []. by rewrite app_nil_r.
  - intros dev. cbn. unfold ensure_entry.
    destruct (entry_for_mac _ _).
    + exists []. by rewrite app_nil_r.
    + eexists; split; [done|]. by repeat constructor.
Qed.

End Cleanup.

End MigrationProperties.

(** * The features of the Fully Kiosk media player *)

Section KioskProperties.

Local Open Scope Z_scope.

Lemma land_pow2 x n : 0 ≤ n → Z.land x (2 ^ n) = if Z.testbit x n then 2 ^ n else 0.
Proof.
  intros Hn. apply Z.bits_inj'. intros m Hm.
  rewrite Z.land_spec, Z.pow2_bits_eqb by done.
  destruct (Z.eqb_spec n m) as [->|Hne].
  - destruct (Z.testbit x m); cbn; [by rewrite Z.pow2_bits_true|by rewrite Z.bits_0].
  - rewrite andb_false_r. destruct (Z.testbit x n); [|by rewrite Z.bits_0].
    by rewrite Z.pow2_bits_false.
Qed.

(** X15. The features of [MediaPlayerEntityFeature] being single bits,
    [MEDIA_SUPPORT_FULLYKIOSK & feature] is [feature] for the four
    features play media, stop, volume set and browse media, and zero for
    every other single-bit feature: the media player supports those four
    and nothing else. *)
Theorem media_support_fullykiosk_features play_media stop volume_set browse_media n :
  0 ≤ play_media → 0 ≤ stop → 0 ≤ volume_set → 0 ≤ browse_media → 0 ≤ n →
  Z.land
    (fully_kiosk.MEDIA_SUPPORT_FULLYKIOSK
       (2 ^ play_media) (2 ^ stop) (2 ^ volume_set) (2 ^ browse_media))
    (2 ^ n)
  = if bool_decide (n ∈ [play_media; stop; volume_set; browse_media]) then 2 ^ n else 0.
Proof.
  intros Hp Hs Hv Hb Hn. unfold fully_kiosk.MEDIA_SUPPORT_FULLYKIOSK.
  rewrite land_pow2 by done. rewrite !Z.lor_spec, !Z.pow2_bits_eqb by done.
  case_bool_decide as Hin.
  - rewrite !elem_of_cons in Hin.
    destruct Hin as [->|[->|[->|[->|[]%elem_of_nil]]]];
      by rewrite Z.eqb_refl, ?orb_true_r.
  - rewrite !not_elem_of_cons in Hin. destruct_and!.
    by rewrite !(proj2 (Z.eqb_neq _ _)) by done.
Qed.

End KioskProperties.

(** * The example and the tests, run *)

Section ExampleRuns.

Import example.

(** ** The coordinator *)

Lemma update_failed_witness :
  (_async_update_data (names := const) 0%Q sdk_update
     (polling (plug "192.168.1.3") ["192.168.1.3"])).1
  = Raise (UpdateFailed (SmartDeviceException "timed out")).
Proof.
  apply (proj1 (update_failed_iff_smart_device_exception (names := const) 0%Q sdk_update
                  (polling (plug "192.168.1.3") ["192.168.1.3"]))).
  reflexivity.
Defined.

Lemma NoDup_emeter_keys : NoDup (emeter_keys (names := const)).
Proof. apply (bool_decide_unpack _). vm_compute. exact I. Defined.

Lemma update_data_shape_witness :
  sdk_update (plug "192.168.1.4") true [] = (inl (plug "192.168.1.4"), [])
  ∧ ∃ d params,
      (_async_update_data (names := const) 0%Q sdk_update (polling (plug "192.168.1.4") [])).1
        = Return d
      ∧ dom d = {["emeter_params"]}
      ∧ d !! "emeter_params" = Some params
      ∧ size params = 5
      ∧ params !! "voltage" = Some (Some (230 # 1)%Q)
      ∧ params !! "today_energy_kwh" = Some (Some 0%Q).
Proof.
  split; [reflexivity|].
  destruct (update_data_shape (names := const) 0%Q sdk_update
              (polling (plug "192.168.1.4") []) (plug "192.168.1.4") []
              NoDup_emeter_keys eq_refl)
    as (d & Hd & Hdom & params & Hparams & _ & Hsize & _ & _ & Hvoltage & _ & Htoday).
  exists d, params. repeat split; assumption.
Defined.

(** C5 as stated fails on a plug and a bulb that report the same realtime
    readings and no consumption for today: today's energy is [0.0] for the
    plug and [None] for the bulb, so it is not taken from the realtime
    readings, which hold neither. *)
Lemma today_energy_not_from_realtime_readings :
  emeter_realtime (plug "192.168.1.4") = emeter_realtime (bulb "192.168.1.4")
  ∧ today_energy
      (fst (_async_update_data (names := const) 0%Q sdk_update (polling (plug "192.168.1.4") [])))
    = Some (Some 0%Q)
  ∧ today_energy
      (fst (_async_update_data (names := const) 0%Q sdk_update (polling (bulb "192.168.1.4") [])))
    = Some None
  ∧ (Some 0%Q ∉ [power readings; total readings; voltage readings; current readings])
  ∧ (None ∉ [power readings; total readings; voltage readings; current readings]).
Proof.
  split_and!; [reflexivity | vm_compute; reflexivity | vm_compute; reflexivity | |];
    intros Hin; repeat (apply elem_of_cons in Hin as [Hin|Hin]; [discriminate|]);
    by apply elem_of_nil in Hin.
Qed.

Lemma today_energy_witness :
  ∃ d params,
    (_async_update_data (names := const) 0%Q sdk_update (polling (plug "192.168.1.4") [])).1
      = Return d
    ∧ d !! "emeter_params" = Some params
    ∧ params !! "today_energy_kwh" = Some (Some 0%Q).
Proof.
  exact (today_energy_when_not_reported (names := const) 0%Q sdk_update
           (polling (plug "192.168.1.4") []) (plug "192.168.1.4") [] eq_refl eq_refl).
Defined.


(** ** Setup and unload *)

Lemma async_setup_entry_coordinators_witness :
  let run := async_setup_entry (names := const) get_static_devices async_discover_devices
               async_refresh entry hass in
  run.1 = Return true
  ∧ ∃ d' coordinators,
      hass_data run.2 = Some d'
      ∧ d' !! "coordinators" = Some (VCoordinators coordinators)
      ∧ dom coordinators =
          {["plug-192.168.1.3"; "plug-192.168.1.4"; "bulb-192.168.1.2"]}
      ∧ size coordinators = 3
      ∧ ∃ c, coordinators !! "plug-192.168.1.4" = Some c
          ∧ coordinator_of async_refresh (plug "192.168.1.4") c.
Proof.
  cbn zeta. split; [vm_compute; reflexivity|].
  destruct (async_setup_entry_coordinators (names := const) get_static_devices
              async_discover_devices async_refresh entry hass true
              (async_setup_entry (names := const) get_static_devices async_discover_devices
                 async_refresh entry hass).2)
    as (_ & found_lights & found_switches & hass1 & d' & coordinators & evs
        & Hsetup & _ & Hdata & Hcoords & Hdom & _ & _ & Hlast & _ & Hsize & _).
  { vm_compute. reflexivity. }
  exists d', coordinators.
  assert (found_lights = [bulb "192.168.1.2"]
          ∧ found_switches = [plug "192.168.1.3"; plug "192.168.1.4"]) as [-> ->].
  { assert (Hfound : (setup_devices (names := const) get_static_devices async_discover_devices
                        entry hass).1
                     = Return ([bulb "192.168.1.2"], [plug "192.168.1.3"; plug "192.168.1.4"])).
    { vm_compute. reflexivity. }
    rewrite Hsetup in Hfound. cbn in Hfound. by injection Hfound as -> ->. }
  split_and!; [done | done | | |].
  - rewrite Hdom. apply (bool_decide_unpack _). vm_compute. exact I.
  - apply Hsize. apply (bool_decide_unpack _). vm_compute. exact I.
  - apply (Hlast [plug "192.168.1.3"] (plug "192.168.1.4") [bulb "192.168.1.2"]);
      [reflexivity|]. apply (bool_decide_unpack _). vm_compute. exact I.
Defined.

(** C7 as stated fails when the discovery finds a plug of the
    configuration once more, at another address: four devices are found,
    two of them of one device id, and the dict holds three coordinators.
    The one under the shared id is the coordinator of the device found
    last, so [async_setup_entry] has left no coordinator for the plug of
    the configuration. *)
Lemma one_coordinator_for_two_devices :
  let run := async_setup_entry (names := const) get_static_devices discover_moved_plug
               async_refresh entry hass_all_answer in
  run.1 = Return true
  ∧ (setup_devices (names := const) get_static_devices discover_moved_plug
       entry hass_all_answer).1
    = Return ([bulb "192.168.1.2"], [plug "192.168.1.3"; plug "192.168.1.4"; moved_plug])
  ∧ device_id (plug "192.168.1.3") = device_id moved_plug
  ∧ host (plug "192.168.1.3") ≠ host moved_plug
  ∧ size (coordinators run.2) = 3
  ∧ coordinators run.2 !! "plug-192.168.1.3" = Some (TPLinkDataUpdateCoordinator__init__ moved_plug).
Proof.
  split_and!; [vm_compute; reflexivity | vm_compute; reflexivity | reflexivity | discriminate
              | vm_compute; reflexivity | vm_compute; reflexivity].
Qed.

Lemma async_refresh_raises_SmartDeviceException c w e c' w' :
  async_refresh c w = ((Raise e, c'), w') → ∃ msg, e = SmartDeviceException msg.
Proof. unfold async_refresh. case_bool_decide; intros [= <- _ _]. by eexists. Defined.

Lemma async_setup_entry_unreachable_witness :
  let run := async_setup_entry (names := const) get_static_devices async_discover_devices
               async_refresh entry hass in
  async_refresh (TPLinkDataUpdateCoordinator__init__ (plug "192.168.1.3")) (world hass)
    = ((Raise (SmartDeviceException "timed out"),
        TPLinkDataUpdateCoordinator__init__ (plug "192.168.1.3")), world hass)
  ∧ run.1 = Return true
  ∧ ∃ evs,
      calls run.2 =
        calls (setup_devices (names := const) get_static_devices async_discover_devices
                 entry hass).2
        ++ evs ++ [SetupPlatforms "entry-1" ["light"; "sensor"; "switch"]]
      ∧ evs = [AsyncRefresh "plug-192.168.1.3";
               LogWarning WARN_NOT_REACHABLE "192.168.1.3";
               AsyncRefresh "plug-192.168.1.4";
               AsyncRefresh "bulb-192.168.1.2"]
      ∧ ∃ c, coordinators run.2 !! "plug-192.168.1.3" = Some c.
Proof.
  cbn zeta. split; [reflexivity|].
  destruct (async_setup_entry_unreachable (names := const) get_static_devices
              async_discover_devices async_refresh entry hass
              [bulb "192.168.1.2"] [plug "192.168.1.3"; plug "192.168.1.4"]
              (setup_devices (names := const) get_static_devices async_discover_devices
                 entry hass).2)
    as (hass' & d1 & cs & evs & Hrun & Hloop & _ & _ & _ & _ & Hcalls & _).
  - vm_compute. reflexivity.
  - exact async_refresh_raises_SmartDeviceException.
  - split; [by rewrite Hrun|]. exists evs.
    assert (Hfold : refresh_in_order async_refresh
                      ([plug "192.168.1.3"; plug "192.168.1.4"] ++ [bulb "192.168.1.2"]) ∅
                      (world (setup_devices (names := const) get_static_devices
                                async_discover_devices entry hass).2)
                    = (None, (coordinators (async_setup_entry (names := const) get_static_devices
                                              async_discover_devices async_refresh entry hass).2,
                              [AsyncRefresh "plug-192.168.1.3";
                               LogWarning WARN_NOT_REACHABLE "192.168.1.3";
                               AsyncRefresh "plug-192.168.1.4";
                               AsyncRefresh "bulb-192.168.1.2"],
                              ["192.168.1.3"]))).
    { vm_compute. reflexivity. }
    rewrite Hfold in Hloop. injection Hloop as _ <- _.
    split_and!; [by rewrite Hrun | done |]. vm_compute. by eexists.
Defined.

Lemma async_unload_entry_witness :
  async_unload_platforms entry ["light"; "sensor"; "switch"] (world hass)
    = (Return false, world hass)
  ∧ ∃ hass',
      async_unload_entry (names := const) async_unload_platforms entry hass = (Return false, hass')
      ∧ hass_data hass' = hass_data hass.
Proof.
  split; [reflexivity|].
  destruct (async_unload_entry_clears_iff_unloaded (names := const) async_unload_platforms
              entry hass _ false (world hass) eq_refl eq_refl)
    as (hass' & Hrun & Hdata & _).
  exists hass'. split; assumption.
Defined.

(** ** More of setup and unload *)


Lemma async_setup_prepares_domain_data_witness :
  let run := async_setup (names := const) (float := Q) {[ "tplink" := conf ]} hass_before_setup in
  run.1 = Return true
  ∧ hass_data run.2 = Some {[ "config" := VConfig (Some conf) ]}
  ∧ calls run.2 = [FlowInit "tplink" "import"].
Proof.
  cbn zeta.
  destruct (async_setup_prepares_domain_data (names := const) get_static_devices
              async_discover_devices async_refresh {[ "tplink" := conf ]} hass_before_setup)
    as (hass0 & Hrun & Hdata & _ & _ & _ & Hcalls & _).
  rewrite Hrun. cbn [fst snd]. rewrite Hdata, Hcalls. split_and!; vm_compute; reflexivity.
Defined.

Lemma yaml_config_takes_precedence_witness :
  let run := setup_devices (names := const) get_static_devices async_discover_devices entry hass in
  data entry = None
  ∧ entries run.2 !! "entry-1" = Some {| entry_id := "entry-1"; data := Some conf |}.
Proof.
  cbn zeta. split; [reflexivity|].
  destruct (yaml_config_takes_precedence (names := const) get_static_devices
              async_discover_devices entry hass {[ "config" := VConfig (Some conf) ]} conf
              (setup_devices (names := const) get_static_devices async_discover_devices
                 entry hass).1
              (setup_devices (names := const) get_static_devices async_discover_devices
                 entry hass).2)
    as (Hentries & _).
  - reflexivity.
  - vm_compute. reflexivity.
  - vm_compute. reflexivity.
  - rewrite Hentries. apply lookup_insert_eq.
Defined.

Lemma entry_data_without_yaml_config_witness :
  let run := setup_devices (names := const) get_static_devices async_discover_devices
               entry_static hass_without_yaml in
  run.1 = Return ([bulb "192.168.1.2"], [plug "192.168.1.3"])
  ∧ entries run.2 = entries hass_without_yaml.
Proof.
  cbn zeta. split; [vm_compute; reflexivity|].
  destruct (entry_data_without_yaml_config (names := const) get_static_devices
              async_discover_devices entry_static hass_without_yaml
              {[ "config" := VConfig None ]}
              (setup_devices (names := const) get_static_devices async_discover_devices
                 entry_static hass_without_yaml).1
              (setup_devices (names := const) get_static_devices async_discover_devices
                 entry_static hass_without_yaml).2)
    as (Hentries & _).
  - reflexivity.
  - right. vm_compute. reflexivity.
  - vm_compute. reflexivity.
  - exact Hentries.
Defined.

Lemma discovery_disabled_witness :
  conf_discovery conf_static = Some false
  ∧ ∃ static,
      get_static_devices conf_static [] = (Return static, [])
      ∧ ([bulb "192.168.1.2"], [plug "192.168.1.3"]) = (lights static, switches static).
Proof.
  split; [reflexivity|].
  apply (discovery_disabled_finds_static_devices (names := const) get_static_devices
           discover_bulb entry_static hass_without_yaml {[ "config" := VConfig None ]}
           conf_static ([bulb "192.168.1.2"], [plug "192.168.1.3"])
           (setup_devices (names := const) get_static_devices discover_bulb
              entry_static hass_without_yaml).2).
  - reflexivity.
  - vm_compute. reflexivity.
  - reflexivity.
  - vm_compute. reflexivity.
Defined.

Lemma discovery_follows_static_devices_witness :
  ∃ static discovered w1,
    get_static_devices conf ["192.168.1.3"] = (Return static, w1)
    ∧ discover_bulb static 0 w1 = (Return discovered, ["192.168.1.3"])
    ∧ ([bulb "192.168.1.2"; bulb "192.168.1.9"], [plug "192.168.1.3"; plug "192.168.1.4"])
      = (lights static ++ lights discovered, switches static ++ switches discovered).
Proof.
  apply (discovery_follows_static_devices (names := const) get_static_devices
           discover_bulb entry hass {[ "config" := VConfig (Some conf) ]} conf
           (Return ([bulb "192.168.1.2"; bulb "192.168.1.9"],
                    [plug "192.168.1.3"; plug "192.168.1.4"]))
           (setup_devices (names := const) get_static_devices discover_bulb entry hass).2).
  - reflexivity.
  - vm_compute. reflexivity.
  - reflexivity.
  - vm_compute. reflexivity.
Defined.

Lemma no_configuration_witness :
  entries (setup_devices (names := const) get_static_devices discover_bulb
             entry hass_without_yaml).2 = entries hass_without_yaml
  ∧ ∃ discovered,
      discover_bulb SmartDevices__init__ 1 [] = (Return discovered, [])
      ∧ ([bulb "192.168.1.9"], []) = (lights discovered, switches discovered).
Proof.
  apply (no_configuration_discovers_devices (names := const) get_static_devices
           discover_bulb entry hass_without_yaml {[ "config" := VConfig None ]}
           (Return ([bulb "192.168.1.9"], []))
           (setup_devices (names := const) get_static_devices discover_bulb
              entry hass_without_yaml).2).
  - reflexivity.
  - vm_compute. reflexivity.
  - vm_compute. reflexivity.
Defined.


Lemma async_setup_entry_raises_witness :
  let run := async_setup_entry (names := const) get_static_devices async_discover_devices
               async_refresh_broken entry hass in
  run.1 = Raise (OtherException "OSError")
  ∧ ∃ evs, calls run.2 = calls hass ++ evs
      ∧ ∀ id platforms, SetupPlatforms id platforms ∉ evs.
Proof.
  cbn zeta. split; [vm_compute; reflexivity|].
  apply (async_setup_entry_raises (names := const) get_static_devices async_discover_devices
           async_refresh_broken entry hass (OtherException "OSError")).
  vm_compute. reflexivity.
Defined.

Lemma async_setup_entry_calls_witness :
  calls (async_setup_entry (names := const) get_static_devices async_discover_devices
           async_refresh entry hass).2 =
    [UpdateEntry "entry-1" conf;
     LogDebug "Got %s lights: %s" 1 "192.168.1.2";
     LogDebug "Got %s switches: %s" 2 "192.168.1.3, 192.168.1.4";
     AsyncRefresh "plug-192.168.1.3";
     LogWarning WARN_NOT_REACHABLE "192.168.1.3";
     AsyncRefresh "plug-192.168.1.4";
     AsyncRefresh "bulb-192.168.1.2";
     SetupPlatforms "entry-1" ["light"; "sensor"; "switch"]].
Proof.
  destruct (async_setup_entry_calls (names := const) get_static_devices async_discover_devices
              async_refresh entry hass {[ "config" := VConfig (Some conf) ]} true
              (async_setup_entry (names := const) get_static_devices async_discover_devices
                 async_refresh entry hass).2)
    as (found_lights & found_switches & hass1 & cs & evs & _ & Hcalls & _).
  - reflexivity.
  - vm_compute. reflexivity.
  - vm_compute. reflexivity.
Defined.

Lemma missing_discovery_key_raises_witness :
  let run := async_setup_entry (names := const) get_static_devices async_discover_devices
               async_refresh entry_without_discovery hass_without_yaml in
  run.1 = Raise (KeyError "discovery") ∧ calls run.2 = [].
Proof.
  cbn zeta.
  destruct (missing_discovery_key_raises (names := const) get_static_devices
              async_discover_devices async_refresh entry_without_discovery hass_without_yaml
              {[ "config" := VConfig None ]} conf_without_discovery
              {| lights := []; switches := [plug "192.168.1.3"] |} [])
    as (hass' & Hrun & _ & Hcalls & _).
  - reflexivity.
  - vm_compute. reflexivity.
  - reflexivity.
  - reflexivity.
  - rewrite Hrun. cbn [fst snd]. split; [done|]. rewrite Hcalls. vm_compute. reflexivity.
Defined.

Lemma last_device_with_id_wins_witness :
  ∃ d' coordinators c,
    hass_data (async_setup_entry (names := const) get_static_devices async_discover_devices
                 async_refresh entry hass_twice).2 = Some d'
    ∧ d' !! "coordinators" = Some (VCoordinators coordinators)
    ∧ coordinators !! "plug-192.168.1.3" = Some c
    ∧ coordinator_of async_refresh (plug "192.168.1.3") c.
Proof.
  apply (last_device_with_id_wins (names := const) get_static_devices async_discover_devices
           async_refresh entry hass_twice true _
           [bulb "192.168.1.2"] [plug "192.168.1.3"; plug "192.168.1.3"]
           (setup_devices (names := const) get_static_devices async_discover_devices
              entry hass_twice).2
           [plug "192.168.1.3"] (plug "192.168.1.3") [bulb "192.168.1.2"]).
  - vm_compute. reflexivity.
  - vm_compute. reflexivity.
  - reflexivity.
  - apply (bool_decide_unpack _). vm_compute. exact I.
Defined.

Lemma async_unload_entry_raises_witness :
  let run := async_unload_entry (names := const) async_unload_platforms entry hass_before_setup in
  run.1 = Raise (KeyError "tplink")
  ∧ hass_data run.2 = None
  ∧ calls run.2 = [UnloadPlatforms "entry-1" ["light"; "sensor"; "switch"]].
Proof.
  cbn zeta. split; [vm_compute; reflexivity|].
  destruct (async_unload_entry_raises (names := const) async_unload_platforms entry
              hass_before_setup (KeyError "tplink")
              (async_unload_entry (names := const) async_unload_platforms entry
                 hass_before_setup).2)
    as (Hdata & _ & Hcalls & _).
  - vm_compute. reflexivity.
  - split; [exact Hdata | exact Hcalls].
Defined.

Lemma reload_reads_config_from_entry_witness :
  let hass1 := (async_setup_entry (names := const) get_static_devices async_discover_devices
                  async_refresh entry hass_all_answer).2 in
  let hass2 := (async_unload_entry (names := const) async_unload_platforms entry hass1).2 in
  hass_data hass2 = Some ∅
  ∧ entries hass2 !! "entry-1" = Some {| entry_id := "entry-1"; data := Some conf |}.
Proof.
  cbn zeta. split; [|vm_compute; reflexivity].
  refine (proj1 (reload_reads_config_from_entry (names := const) get_static_devices
                   async_discover_devices async_refresh async_unload_platforms
                   entry hass_all_answer {[ "config" := VConfig (Some conf) ]} conf true
                   (async_setup_entry (names := const) get_static_devices async_discover_devices
                      async_refresh entry hass_all_answer).2
                   _
                   {| entry_id := "entry-1"; data := Some conf |}
                   (setup_devices (names := const) get_static_devices async_discover_devices
                      {| entry_id := "entry-1"; data := Some conf |}
                      (async_unload_entry (names := const) async_unload_platforms entry
                         (async_setup_entry (names := const) get_static_devices
                            async_discover_devices async_refresh entry hass_all_answer).2).2).1
                   (setup_devices (names := const) get_static_devices async_discover_devices
                      {| entry_id := "entry-1"; data := Some conf |}
                      (async_unload_entry (names := const) async_unload_platforms entry
                         (async_setup_entry (names := const) get_static_devices
                            async_discover_devices async_refresh entry hass_all_answer).2).2).2
                   _ _ _ _ _ _)).
  - reflexivity.
  - vm_compute. reflexivity.
  - vm_compute. reflexivity.
  - vm_compute. reflexivity.
  - vm_compute. reflexivity.
  - vm_compute. reflexivity.
Defined.

(** ** More of the coordinator *)

Lemma failed_update_is_repeated_witness :
  let s := polling (plug "192.168.1.3") [] in
  (_async_update_data (names := const) 0%Q sdk_update_broken s).1 = Raise (OtherException "OSError")
  ∧ sdk_calls (polls (names := const) 0%Q sdk_update_broken 2 s) =
      [("192.168.1.3", true); ("192.168.1.3", true)].
Proof.
  cbn zeta.
  destruct (failed_update_is_repeated (names := const) 0%Q sdk_update_broken
              (polling (plug "192.168.1.3") []) (SdkOtherException "OSError") [] eq_refl)
    as (Hraise & _ & _ & Hcalls).
  split; [by apply Hraise | exact Hcalls].
Defined.

Lemma update_renames_coordinator_witness :
  let s := polling (plug "192.168.1.3") [] in
  name (self s) = "Plug 192.168.1.3"
  ∧ name (self (_async_update_data (names := const) 0%Q sdk_update_renamed s).2) = "Kitchen".
Proof.
  cbn zeta. split; [reflexivity|].
  exact (proj1 (proj2 (proj2 (update_renames_coordinator (names := const) 0%Q sdk_update_renamed
                                (polling (plug "192.168.1.3") []) _ [] eq_refl)))).
Defined.

Lemma polls_update_children_witness :
  let s := polls (names := const) 0%Q sdk_update 3 (polling (plug "192.168.1.3") ["192.168.1.3"]) in
  update_children (self s) = true
  ∧ update_interval (self s) = 10
  ∧ ∃ new, sdk_calls s = [] ++ new ∧ length new = 3 ∧ Forall (λ call, call.2 = true) new.
Proof.
  exact (polls_update_children (names := const) 0%Q sdk_update 3
           (polling (plug "192.168.1.3") ["192.168.1.3"]) eq_refl).
Defined.

(** ** The Fully Kiosk media player *)

(** With the host's values of the flags: volume set, [4], is supported,
    and pause, [1], is not. *)
Lemma media_support_fullykiosk_witness :
  Z.land (fully_kiosk.MEDIA_SUPPORT_FULLYKIOSK 512 4096 4 131072) 4 = 4%Z
  ∧ Z.land (fully_kiosk.MEDIA_SUPPORT_FULLYKIOSK 512 4096 4 131072) 1 = 0%Z.
Proof.
  split.
  - exact (media_support_fullykiosk_features 9 12 2 17 2 ltac:(lia) ltac:(lia) ltac:(lia)
             ltac:(lia) ltac:(lia)).
  - exact (media_support_fullykiosk_features 9 12 2 17 0 ltac:(lia) ltac:(lia) ltac:(lia)
             ltac:(lia) ltac:(lia)).
Defined.

End ExampleRuns.

Section Runs.

Import migration test_migration.

(** ** The three end-to-end tests *)

(** What the tests read off the config-entry store: right after setup an
    entry with the domain as unique identifier is there; after the delay it
    is gone in the first two tests and still there in the third. *)
Example test_migration_device_online_end_to_end :
  let hass := async_migrate CLEANUP_DELAY discovered hass_end_to_end in
  legacy_entry hass = Some config_entry
  ∧ legacy_entry (async_fire_time_changed (CLEANUP_DELAY + 5) hass) = None.
Proof. split; vm_compute; reflexivity. Qed.

Example test_migration_device_online_end_to_end_after_downgrade :
  let hass := async_migrate CLEANUP_DELAY discovered hass_after_downgrade in
  config_entries hass = [config_entry; already_migrated_config_entry]
  ∧ config_entries (async_fire_time_changed (CLEANUP_DELAY + 5) hass) =
      [already_migrated_config_entry].
Proof. split; vm_compute; reflexivity. Qed.

Example test_migration_device_online_end_to_end_ignores_other_devices :
  let hass := async_migrate CLEANUP_DELAY discovered hass_ignores_other_devices in
  legacy_entry hass = Some config_entry
  ∧ legacy_entry (async_fire_time_changed (CLEANUP_DELAY + 5) hass) = Some config_entry.
Proof. split; vm_compute; reflexivity. Qed.

(** ** The migration *)


Lemma NoDup_entry_ids_after_downgrade :
  NoDup (entry_id <$> config_entries hass_after_downgrade).
Proof. apply (bool_decide_unpack _). vm_compute. exact I. Defined.



Lemma migration_ignores_other_entities_witness :
  entity_registry hass_ignores_other_devices !! 3 = Some garbage_entity_reg
  ∧ device_of_entity discovered garbage_entity_reg = None
  ∧ entity_registry (async_migrate CLEANUP_DELAY discovered hass_ignores_other_devices) !! 3
    = Some garbage_entity_reg.
Proof.
  split; [reflexivity|]. split; [reflexivity|].
  exact (proj1 (migration_ignores_other_entities CLEANUP_DELAY discovered
                  hass_ignores_other_devices 3 garbage_entity_reg eq_refl eq_refl)).
Defined.

(** C3 as stated fails on the third test: the delay and five seconds more
    have passed, and the entry whose unique identifier is the domain is
    still in the store. *)
Lemma legacy_entry_outlives_cleanup_delay :
  let hass := async_fire_time_changed (CLEANUP_DELAY + 5)
                (async_migrate CLEANUP_DELAY discovered hass_ignores_other_devices) in
  legacy_entry hass_ignores_other_devices = Some config_entry
  ∧ config_entry ∈ config_entries hass
  ∧ unique_id config_entry = Some DOMAIN.
Proof.
  split; [reflexivity|]. split; [|reflexivity].
  vm_compute. apply list_elem_of_here.
Qed.

Lemma single_legacy_entry_end_to_end entry :
  entry ∈ config_entries hass_end_to_end → entry_is_legacy entry = true → entry = config_entry.
Proof. by intros ->%list_elem_of_singleton. Defined.

Lemma cleanup_after_delay_witness :
  let hass1 := async_migrate CLEANUP_DELAY discovered hass_end_to_end in
  legacy_entry hass_end_to_end = Some config_entry
  ∧ timers hass_end_to_end = []
  ∧ legacy_entry (async_fire_time_changed (CLEANUP_DELAY - 1) hass1) = Some config_entry
  ∧ legacy_entry (async_fire_time_changed (CLEANUP_DELAY + 5) hass1) = None.
Proof.
  split; [reflexivity|]. split; [reflexivity|]. split.
  - apply (proj1 (cleanup_after_delay CLEANUP_DELAY discovered hass_end_to_end config_entry
                    (CLEANUP_DELAY - 1) eq_refl single_legacy_entry_end_to_end eq_refl)).
    vm_compute. lia.
  - apply (proj1 (proj2 (cleanup_after_delay CLEANUP_DELAY discovered hass_end_to_end config_entry
                    (CLEANUP_DELAY + 5) eq_refl single_legacy_entry_end_to_end eq_refl))).
    + vm_compute. lia.
    + reflexivity.
Defined.

Lemma config_entry_shapes_witness :
  unique_id config_entry = Some DOMAIN ∧ conf_host config_entry = None.
Proof.
  exact (proj2 (proj1 (proj2 (config_entry_shapes CLEANUP_DELAY discovered hass_end_to_end))
                  config_entry eq_refl)).
Defined.

End Runs.
